(** * D3DGLBufferObject: the lockable vertex/index buffer of d3dgl

    A shallow embedding of [bufferobject.cpp]: the buffer object's
    fields, the host-side staging allocations it shares with the
    commands it queues, the command queue of its parent device and the
    worker thread that executes the queued commands.

    Conventions
    - [UINT], [DWORD], [ULONG] and [GLuint] values are [Z] in
      [0, 2^32); every arithmetic step that can leave that range is
      wrapped with [wrap32].
    - [std::shared_ptr<GLubyte>] is [option nat]: [None] is the empty
      pointer, [Some a] refers to allocation [a] of the heap.  The heap
      keeps an allocation for as long as the buffer object or a queued
      command refers to it ([use_count]).
    - A thread that polls in [while(mUpdateInProgress) Sleep(1);] is run
      with fuel: each [Sleep(1)] lets the worker thread execute one
      queued command. *)

From stdpp Require Import base numbers list gmap.

Open Scope Z_scope.

(** ** Machine integers *)

Definition wrap32 (z : Z) : Z := z mod 4294967296.

Definition UINT_MAX : Z := 4294967295.

Definition is_uint (z : Z) : Prop := 0 <= z <= UINT_MAX.

Definition flag_set (x mask : Z) : bool := negb (Z.land x mask =? 0).

(** [(len+15) & ~15] on a [UINT]: the sum wraps, and [~15] is
    [0xFFFFFFF0] once converted to unsigned. *)
Definition align16 (len : Z) : Z :=
  Z.land (wrap32 (len + 15)) (wrap32 (Z.lnot 15)).

(** ** Constants of the Direct3D 9 and OpenGL headers *)

Definition HRESULT := Z.
Definition D3D_OK : HRESULT := 0.
Definition D3DERR_INVALIDCALL : HRESULT := -2005530516. (* 0x8876086C *)

Definition D3DLOCK_READONLY    : Z := 0x10.
Definition D3DLOCK_NOSYSLOCK   : Z := 0x800.
Definition D3DLOCK_NOOVERWRITE : Z := 0x1000.
Definition D3DLOCK_DISCARD     : Z := 0x2000.

Definition D3DUSAGE_WRITEONLY : Z := 0x8.
Definition D3DUSAGE_DYNAMIC   : Z := 0x200.

Definition D3DFVF_XYZ      : Z := 0x002.
Definition D3DFVF_XYZRHW   : Z := 0x004.
Definition D3DFVF_XYZW     : Z := 0x4002.
Definition D3DFVF_NORMAL   : Z := 0x010.
Definition D3DFVF_DIFFUSE  : Z := 0x040.
Definition D3DFVF_SPECULAR : Z := 0x080.
Definition D3DFVF_TEXCOUNT_MASK  : Z := 0xf00.
Definition D3DFVF_TEXCOUNT_SHIFT : Z := 8.
Definition D3DFVF_TEXTUREFORMAT1 : Z := 3.
Definition D3DFVF_TEXTUREFORMAT2 : Z := 0.
Definition D3DFVF_TEXTUREFORMAT3 : Z := 1.
Definition D3DFVF_TEXTUREFORMAT4 : Z := 2.

Definition D3DFORMAT := Z.
Definition D3DFMT_UNKNOWN    : D3DFORMAT := 0.
Definition D3DFMT_VERTEXDATA : D3DFORMAT := 100.
Definition D3DFMT_INDEX16    : D3DFORMAT := 101.
Definition D3DFMT_INDEX32    : D3DFORMAT := 102.

Definition GLenum := Z.
Definition GL_STREAM_DRAW  : GLenum := 0x88E0.
Definition GL_DYNAMIC_DRAW : GLenum := 0x88E8.

Definition sizeof_float : Z := 4.
Definition sizeof_uchar : Z := 1.

Inductive D3DPOOL : Set :=
| D3DPOOL_DEFAULT
| D3DPOOL_MANAGED
| D3DPOOL_SYSTEMMEM
| D3DPOOL_SCRATCH.

Inductive LockType : Set :=
| LT_Unlocked
| LT_ReadOnly
| LT_Full.

Global Instance D3DPOOL_eq_dec : EqDecision D3DPOOL.
Proof. solve_decision. Defined.

Global Instance LockType_eq_dec : EqDecision LockType.
Proof. solve_decision. Defined.

(** ** Pointers, commands and the buffer object *)

(** A [GLubyte*]: an allocation (or null) and a byte offset into it. *)
Record Ptr : Type := mkPtr { base : option nat; off : Z }.

Definition nullptr : Ptr := mkPtr None 0.

(** The command classes of the file.  [mTarget] is left out: the world
    below holds the one buffer object the commands refer to. *)
Inductive Command : Type :=
| InitBufferObjectCmd (mData : option nat)
| DestroyBufferCmd (cmdBufferId : Z)
| ResizeBufferCmd
| LoadBufferDataCmd (cmdOffset cmdLength : Z) (mData : option nat).

(** The [shared_ptr] member a command owns, if it has one. *)
Definition cmd_data (c : Command) : option nat :=
  match c with
  | InitBufferObjectCmd d => d
  | LoadBufferDataCmd _ _ d => d
  | DestroyBufferCmd _ | ResizeBufferCmd => None
  end.

Definition is_load (c : Command) : bool :=
  match c with LoadBufferDataCmd _ _ _ => true | _ => false end.

Definition is_init (c : Command) : bool :=
  match c with InitBufferObjectCmd _ => true | _ => false end.

(** Calls made on the OpenGL context, recorded as they are issued. *)
Inductive GLCall : Type :=
| glGenBuffers (name : Z)
| glNamedBufferDataEXT (buffer size : Z) (data : Ptr) (usage : GLenum)
| glNamedBufferSubDataEXT (buffer offset size : Z) (data : Ptr)
| glDeleteBuffers (buffer : Z).

(** The data members of [D3DGLBufferObject] that the buffer code reads
    or writes (the reference counts and [mParent] belong to the COM
    plumbing).  The class is declared in [bufferobject.hpp];
    [mUpdateInProgress] is taken to be an atomic [ULONG] like the
    reference counts, so it wraps at [2^32]. *)
Record BufferObject : Type := mkBuffer {
  mLength : Z;
  mUsage : Z;
  mFormat : D3DFORMAT;
  mFvf : Z;
  mPool : D3DPOOL;
  mBufferId : Z;
  mBufData : option nat;
  mLock : LockType;
  mLockedOffset : Z;
  mLockedLength : Z;
  mUpdateInProgress : Z
}.

(** The buffer object together with what it shares with the worker
    thread.  [queue] holds the commands not yet executed, oldest first;
    [submitted] is every command ever handed to the queue, in order. *)
Record World : Type := mkWorld {
  buf : BufferObject;
  heap : gmap nat (list (option Byte.byte));
  queue : list Command;
  submitted : list Command;
  gl_names : gset Z;
  gl_calls : list GLCall
}.

(** What a call can come to: it returns [r] in world [w]; it is still
    sleeping in a polling loop in world [w] when the fuel is used up; or
    it runs into undefined behaviour. *)
Inductive outcome (A : Type) : Type :=
| Done (r : A) (w : World)
| Spinning (w : World)
| Undefined.

Arguments Done {A} r w.
Arguments Spinning {A} w.
Arguments Undefined {A}.

(** *** Field updates *)

Definition set_mLength (v : Z) (b : BufferObject) : BufferObject :=
  mkBuffer v (mUsage b) (mFormat b) (mFvf b) (mPool b) (mBufferId b) (mBufData b)
           (mLock b) (mLockedOffset b) (mLockedLength b) (mUpdateInProgress b).
Definition set_mUsage (v : Z) (b : BufferObject) : BufferObject :=
  mkBuffer (mLength b) v (mFormat b) (mFvf b) (mPool b) (mBufferId b) (mBufData b)
           (mLock b) (mLockedOffset b) (mLockedLength b) (mUpdateInProgress b).
Definition set_mFormat (v : D3DFORMAT) (b : BufferObject) : BufferObject :=
  mkBuffer (mLength b) (mUsage b) v (mFvf b) (mPool b) (mBufferId b) (mBufData b)
           (mLock b) (mLockedOffset b) (mLockedLength b) (mUpdateInProgress b).
Definition set_mFvf (v : Z) (b : BufferObject) : BufferObject :=
  mkBuffer (mLength b) (mUsage b) (mFormat b) v (mPool b) (mBufferId b) (mBufData b)
           (mLock b) (mLockedOffset b) (mLockedLength b) (mUpdateInProgress b).
Definition set_mPool (v : D3DPOOL) (b : BufferObject) : BufferObject :=
  mkBuffer (mLength b) (mUsage b) (mFormat b) (mFvf b) v (mBufferId b) (mBufData b)
           (mLock b) (mLockedOffset b) (mLockedLength b) (mUpdateInProgress b).
Definition set_mBufferId (v : Z) (b : BufferObject) : BufferObject :=
  mkBuffer (mLength b) (mUsage b) (mFormat b) (mFvf b) (mPool b) v (mBufData b)
           (mLock b) (mLockedOffset b) (mLockedLength b) (mUpdateInProgress b).
Definition set_mBufData (v : option nat) (b : BufferObject) : BufferObject :=
  mkBuffer (mLength b) (mUsage b) (mFormat b) (mFvf b) (mPool b) (mBufferId b) v
           (mLock b) (mLockedOffset b) (mLockedLength b) (mUpdateInProgress b).
Definition set_mLock (v : LockType) (b : BufferObject) : BufferObject :=
  mkBuffer (mLength b) (mUsage b) (mFormat b) (mFvf b) (mPool b) (mBufferId b) (mBufData b)
           v (mLockedOffset b) (mLockedLength b) (mUpdateInProgress b).
Definition set_mLockedOffset (v : Z) (b : BufferObject) : BufferObject :=
  mkBuffer (mLength b) (mUsage b) (mFormat b) (mFvf b) (mPool b) (mBufferId b) (mBufData b)
           (mLock b) v (mLockedLength b) (mUpdateInProgress b).
Definition set_mLockedLength (v : Z) (b : BufferObject) : BufferObject :=
  mkBuffer (mLength b) (mUsage b) (mFormat b) (mFvf b) (mPool b) (mBufferId b) (mBufData b)
           (mLock b) (mLockedOffset b) v (mUpdateInProgress b).
Definition set_mUpdateInProgress (v : Z) (b : BufferObject) : BufferObject :=
  mkBuffer (mLength b) (mUsage b) (mFormat b) (mFvf b) (mPool b) (mBufferId b) (mBufData b)
           (mLock b) (mLockedOffset b) (mLockedLength b) v.

Definition upd_buf (f : BufferObject -> BufferObject) (w : World) : World :=
  mkWorld (f (buf w)) (heap w) (queue w) (submitted w) (gl_names w) (gl_calls w).
Definition set_heap (h : gmap nat (list (option Byte.byte))) (w : World) : World :=
  mkWorld (buf w) h (queue w) (submitted w) (gl_names w) (gl_calls w).
Definition set_queue (q : list Command) (w : World) : World :=
  mkWorld (buf w) (heap w) q (submitted w) (gl_names w) (gl_calls w).

(** ** Shared ownership of staging allocations *)

Definition holds (a : nat) (p : option nat) : bool := bool_decide (p = Some a).

(** [shared_ptr::use_count] of allocation [a]: one for the buffer
    object's [mBufData] if it points there, one for each queued command
    whose [mData] does. *)
Definition use_count (a : nat) (w : World) : nat :=
  ((if holds a (mBufData (buf w)) then 1 else 0)
   + length (filter (fun c => holds a (cmd_data c) = true) (queue w)))%nat.

(** A [shared_ptr] to [p] has just gone away: [DataDeallocator] frees
    the allocation when that was the last one. *)
Definition drop_ref (p : option nat) (w : World) : World :=
  match p with
  | None => w
  | Some a =>
      if (use_count a w =? 0)%nat then set_heap (delete a (heap w)) w else w
  end.

(** Modelled from the spec: [DataAllocator<GLubyte>()(n)] is declared in
    a header outside [src/]; the spec has it allocate a staging block of
    [n] bytes.  The block is new (no live allocation has its address)
    and its bytes are indeterminate ([None]). *)
Definition DataAllocator (n : Z) (w : World) : nat * World :=
  let a := fresh (dom (heap w)) in
  (a, set_heap (<[a := replicate (Z.to_nat n) None]> (heap w)) w).

(** [mBufData.reset(DataAllocator<GLubyte>()(n), DataDeallocator<GLubyte>())]:
    the block is allocated first, then [mBufData] lets go of the old one. *)
Definition reset_mBufData (n : Z) (w : World) : World :=
  let old := mBufData (buf w) in
  let (a, w1) := DataAllocator n w in
  drop_ref old (upd_buf (set_mBufData (Some a)) w1).

(** Bytes allocated behind [mBufData]. *)
Definition capacity (w : World) : Z :=
  match mBufData (buf w) with
  | Some a =>
      match heap w !! a with
      | Some bs => Z.of_nat (length bs)
      | None => 0
      end
  | None => 0
  end.

(** Writing [bs] at the start of the block behind [p] ([memset] and
    [memcpy] with destination [p.get()]); [None] when the destination is
    null, freed or too small, which C++ leaves undefined. *)
Definition write_bytes (p : option nat) (bs : list Byte.byte) (w : World) : option World :=
  match p with
  | None => None
  | Some a =>
      match heap w !! a with
      | None => None
      | Some old =>
          if (length bs <=? length old)%nat
          then Some (set_heap (<[a := (Some <$> bs) ++ drop (length bs) old]> (heap w)) w)
          else None
      end
  end.

(** What can be read through a pointer: [n] bytes from [p]. *)
Definition read_bytes (p : Ptr) (n : Z) (w : World) : option (list (option Byte.byte)) :=
  match base p with
  | None => None
  | Some a =>
      match heap w !! a with
      | None => None
      | Some bs =>
          if (0 <=? off p) && (off p + n <=? Z.of_nat (length bs))
          then Some (take (Z.to_nat n) (drop (Z.to_nat (off p)) bs))
          else None
      end
  end.

(** ** The worker thread *)

Definition initGL (data : Ptr) (w : World) : World :=
  let data_len := align16 (mLength (buf w)) in
  let usage := if flag_set (mUsage (buf w)) D3DUSAGE_DYNAMIC
               then GL_DYNAMIC_DRAW else GL_STREAM_DRAW in
  let name := fresh ({[0]} ∪ gl_names w) in
  mkWorld (set_mUpdateInProgress 0 (set_mBufferId name (buf w)))
          (heap w) (queue w) (submitted w)
          ({[name]} ∪ gl_names w)
          (gl_calls w ++ [glGenBuffers name;
                          glNamedBufferDataEXT name data_len data usage]).

Definition resizeBufferGL (w : World) : World :=
  let data_len := align16 (mLength (buf w)) in
  mkWorld (buf w) (heap w) (queue w) (submitted w) (gl_names w)
          (gl_calls w ++ [glNamedBufferDataEXT (mBufferId (buf w)) data_len
                                               nullptr GL_STREAM_DRAW]).

Definition loadBufferDataGL (offset length : Z) (data : Ptr) (w : World) : World :=
  mkWorld (set_mUpdateInProgress (wrap32 (mUpdateInProgress (buf w) - 1)) (buf w))
          (heap w) (queue w) (submitted w) (gl_names w)
          (gl_calls w ++ [glNamedBufferSubDataEXT (mBufferId (buf w)) offset length
                                                  (mkPtr (base data) (off data + offset))]).

Definition execute (c : Command) (w : World) : World :=
  match c with
  | InitBufferObjectCmd d => initGL (mkPtr d 0) w
  | DestroyBufferCmd id =>
      mkWorld (buf w) (heap w) (queue w) (submitted w)
              (gl_names w ∖ {[id]}) (gl_calls w ++ [glDeleteBuffers id])
  | ResizeBufferCmd => resizeBufferGL w
  | LoadBufferDataCmd o l d => loadBufferDataGL o l (mkPtr d 0) w
  end.

(** Modelled from the spec: the command queue's consumer is outside
    [src/]; the spec has the owning thread take the oldest pending
    command, execute it and destroy it.  With nothing pending the
    thread idles. *)
Definition consume (w : World) : World :=
  match queue w with
  | [] => w
  | c :: q => drop_ref (cmd_data c) (set_queue q (execute c w))
  end.

(** Modelled from the spec: [CommandQueue::send], [doSend] and
    [sendAndUnlock] are outside [src/]; the spec has them enqueue the
    command at the back and return.  [lock()] and the unlock of
    [sendAndUnlock] only order producers among themselves and are
    no-ops for the one producer modelled here. *)
Definition send (c : Command) (w : World) : World :=
  mkWorld (buf w) (heap w) (queue w ++ [c]) (submitted w ++ [c])
          (gl_names w) (gl_calls w).

(** Modelled from the spec: [CommandQueue::sendSync] is outside [src/];
    the spec has it enqueue the command and block until the consumer has
    executed it, which in a FIFO queue is when the queue has drained. *)
Definition sendSync (c : Command) (w : World) : World :=
  let w1 := send c w in
  Nat.iter (length (queue w1)) consume w1.

(** [while(mUpdateInProgress) Sleep(1);] *)
Fixpoint wait_idle (fuel : nat) (w : World) : outcome unit :=
  if mUpdateInProgress (buf w) =? 0 then Done tt w
  else match fuel with
       | O => Spinning w
       | S fuel' => wait_idle fuel' (consume w)
       end.

(** ** The buffer object's member functions *)

(** [D3DGLBufferObject::D3DGLBufferObject]: the member initialisers. *)
Definition D3DGLBufferObject_ctor : BufferObject :=
  {| mLength := 0; mUsage := 0; mFormat := D3DFMT_UNKNOWN; mFvf := 0;
     mPool := D3DPOOL_DEFAULT; mBufferId := 0; mBufData := None;
     mLock := LT_Unlocked; mLockedOffset := 0; mLockedLength := 0;
     mUpdateInProgress := 0 |}.

(** A new buffer object on a device whose queue is idle. *)
Definition new_world : World :=
  mkWorld D3DGLBufferObject_ctor ∅ [] [] ∅ [].

(** [D3DGLBufferObject::~D3DGLBufferObject].  After the body the members
    are destroyed, [mBufData] among them. *)
Definition D3DGLBufferObject_dtor (fuel : nat) (w : World) : outcome unit :=
  let w1 := if negb (mBufferId (buf w) =? 0)
            then send (DestroyBufferCmd (mBufferId (buf w))) w else w in
  match wait_idle fuel w1 with
  | Done _ w2 =>
      let w3 := upd_buf (set_mBufferId 0) w2 in
      Done tt (drop_ref (mBufData (buf w3)) (upd_buf (set_mBufData None) w3))
  | Spinning w2 => Spinning w2
  | Undefined => Undefined
  end.

Definition init_common (length usage : Z) (pool : D3DPOOL) (w : World) : outcome bool :=
  let w1 := upd_buf (fun b => set_mPool pool (set_mUsage usage (set_mLength length b))) w in
  if bool_decide (mPool (buf w1) = D3DPOOL_SCRATCH) then Done false w1
  else if bool_decide (mPool (buf w1) = D3DPOOL_MANAGED)
          && flag_set (mUsage (buf w1)) D3DUSAGE_DYNAMIC then Done false w1
  else
    let data_len := align16 (mLength (buf w1)) in
    let w2 := reset_mBufData data_len w1 in
    match write_bytes (mBufData (buf w2)) (replicate (Z.to_nat data_len) Byte.x00) w2 with
    | None => Undefined
    | Some w3 =>
        let w4 := upd_buf (set_mUpdateInProgress 1) w3 in
        Done true (sendSync (InitBufferObjectCmd (mBufData (buf w4))) w4)
    end.

Section VertexFormat.

(** [fvf >> n] on the 32-bit [fvf] is defined for [n < 32] only; the
    loop of [init_vbo] shifts by up to 46 when the texture count field
    exceeds 8.  [shr_wide x n] stands for whatever such a shift
    yields. *)
Variable shr_wide : Z -> Z -> Z.

Definition shr32 (x n : Z) : Z :=
  if n <? 32 then Z.shiftr x n else shr_wide x n.

(** The [switch] of the loop body: floats in texture coordinate set [t]. *)
Definition tex_num (fvf t : Z) : Z :=
  let sel := Z.land (shr32 fvf (16 + t * 2)) 0x03 in
  if sel =? D3DFVF_TEXTUREFORMAT1 then 1
  else if sel =? D3DFVF_TEXTUREFORMAT2 then 2
  else if sel =? D3DFVF_TEXTUREFORMAT3 then 3
  else if sel =? D3DFVF_TEXTUREFORMAT4 then 4
  else 0.

Definition tex_count (fvf : Z) : Z :=
  Z.shiftr (Z.land fvf D3DFVF_TEXCOUNT_MASK) D3DFVF_TEXCOUNT_SHIFT.

(** The [size] local of [init_vbo] when the length check is reached. *)
Definition fvf_size (fvf : Z) : Z :=
  let size := 0 in
  let size :=
    if Z.land fvf D3DFVF_XYZRHW =? D3DFVF_XYZRHW then size + sizeof_float * 4
    else if Z.land fvf D3DFVF_XYZW =? D3DFVF_XYZW then size + sizeof_float * 4
    else if Z.land fvf D3DFVF_XYZ =? D3DFVF_XYZ then size + sizeof_float * 3
    else size in
  let size := if flag_set fvf D3DFVF_NORMAL then size + sizeof_float * 3 else size in
  let size := if flag_set fvf D3DFVF_DIFFUSE then size + sizeof_uchar * 4 else size in
  let size := if flag_set fvf D3DFVF_SPECULAR then size + sizeof_uchar * 4 else size in
  fold_left (fun size t => size + sizeof_float * tex_num fvf (Z.of_nat t))
            (seq 0 (Z.to_nat (tex_count fvf))) size.

Definition init_vbo (length usage fvf : Z) (pool : D3DPOOL) (w : World) : outcome bool :=
  let size := fvf_size fvf in
  if length <? size then Done false w
  else
    let w1 := upd_buf (fun b => set_mFvf fvf (set_mFormat D3DFMT_VERTEXDATA b)) w in
    init_common length usage pool w1.

End VertexFormat.

Definition init_ibo (length usage : Z) (format : D3DFORMAT) (pool : D3DPOOL) (w : World)
  : outcome bool :=
  if negb (format =? D3DFMT_INDEX16) && negb (format =? D3DFMT_INDEX32) then Done false w
  else
    let w1 := upd_buf (fun b => set_mFvf 0 (set_mFormat format b)) w in
    init_common length usage pool w1.

(** [data] is the memory the caller's pointer refers to. *)
Definition resetBufferData (data : list Byte.byte) (length : Z) (w : World) : outcome unit :=
  let w1 := upd_buf (fun b => set_mUpdateInProgress (wrap32 (mUpdateInProgress b + 1)) b) w in
  let w2 := if (mLength (buf w1) <? length) || (1 <? mUpdateInProgress (buf w1))
            then send ResizeBufferCmd (reset_mBufData (align16 length) w1)
            else w1 in
  let w3 := upd_buf (set_mLength length) w2 in
  let n := Z.to_nat (mLength (buf w3)) in
  if (List.length data <? n)%nat then Undefined
  else
    match write_bytes (mBufData (buf w3)) (take n data) w3 with
    | None => Undefined
    | Some w4 =>
        Done tt (send (LoadBufferDataCmd 0 (mLength (buf w4)) (mBufData (buf w4))) w4)
    end.

(** The part of [Lock] after the block of the compare-exchange: [mLock]
    is [lt] by now, [length] is the length to lock. *)
Definition Lock_acquired (offset length flags : Z) (fuel : nat) (w1 : World)
  : outcome (HRESULT * option Ptr) :=
  let waited :=
    if flag_set flags D3DLOCK_DISCARD then
      Done tt (if 0 <? mUpdateInProgress (buf w1)
               then reset_mBufData (align16 (mLength (buf w1))) w1
               else w1)
    else if negb (flag_set flags D3DLOCK_NOOVERWRITE)
            && negb (flag_set flags D3DLOCK_READONLY)
    then wait_idle fuel w1
    else Done tt w1 in
  match waited with
  | Done _ w2 =>
      let w3 := upd_buf (fun b => set_mLockedLength length (set_mLockedOffset offset b)) w2 in
      Done (D3D_OK, Some (mkPtr (mBufData (buf w3)) (mLockedOffset (buf w3)))) w3
  | Spinning w2 => Spinning w2
  | Undefined => Undefined
  end.

(** [Lock] returns the [HRESULT] and, on success, what it stored in
    [*data].  In [length > mLength-offset] the subtraction is evaluated
    only when [offset < mLength], so it does not wrap.  Flags other
    than the four known ones only produce a log line. *)
Definition Lock (offset length flags : Z) (fuel : nat) (w : World)
  : outcome (HRESULT * option Ptr) :=
  if (length =? 0) && (0 <? offset) then Done (D3DERR_INVALIDCALL, None) w
  else
    let length := if length =? 0 then mLength (buf w) else length in
    if (mLength (buf w) <=? offset) || (mLength (buf w) - offset <? length)
    then Done (D3DERR_INVALIDCALL, None) w
    else if flag_set flags D3DLOCK_READONLY && flag_set (mUsage (buf w)) D3DUSAGE_WRITEONLY
    then Done (D3DERR_INVALIDCALL, None) w
    else
      let lt := if flag_set flags D3DLOCK_READONLY then LT_ReadOnly else LT_Full in
      match mLock (buf w) with
      | LT_Unlocked => Lock_acquired offset length flags fuel (upd_buf (set_mLock lt) w)
      | _ => Done (D3DERR_INVALIDCALL, None) w
      end.

Definition Unlock (w : World) : outcome HRESULT :=
  if bool_decide (mLock (buf w) = LT_Unlocked) then Done D3DERR_INVALIDCALL w
  else
    let w1 :=
      if negb (bool_decide (mLock (buf w) = LT_ReadOnly))
      then
        let w' := upd_buf (fun b => set_mUpdateInProgress
                                      (wrap32 (mUpdateInProgress b + 1)) b) w in
        send (LoadBufferDataCmd (mLockedOffset (buf w')) (mLockedLength (buf w'))
                                (mBufData (buf w'))) w'
      else w in
    Done D3D_OK
         (upd_buf (fun b => set_mLock LT_Unlocked
                              (set_mLockedLength 0 (set_mLockedOffset 0 b))) w1).

(** The world a call leaves behind. *)
Definition world_of {A : Type} (x : outcome A) : World :=
  match x with
  | Done _ w => w
  | Spinning w => w
  | Undefined => new_world
  end.

(** A buffer as [CreateVertexBuffer] hands it out: constructed and
    initialised in the default pool. *)
Definition created (length usage : Z) : World :=
  world_of (init_common length usage D3DPOOL_DEFAULT new_world).

(** That buffer with bytes 4 to 11 locked for writing. *)
Definition locked_sample : World := world_of (Lock 4 8 0 0 (created 20 0)).

(** That buffer unlocked again: one upload is in flight. *)
Definition in_flight_sample : World := world_of (Unlock locked_sample).

(** The first buffer given 40 new bytes, twice its length. *)
Definition grown_sample : World :=
  world_of (resetBufferData (replicate 40 Byte.x2a) 40 (created 20 0)).

(** A new buffer object whose [init_common] was refused. *)
Definition refused_sample : World :=
  world_of (init_common 16 0 D3DPOOL_SCRATCH new_world).

(** A write-only buffer of 16 bytes given 32 new bytes. *)
Definition writeonly_sample : World :=
  world_of (resetBufferData (replicate 32 Byte.x2a) 32 (created 16 D3DUSAGE_WRITEONLY)).

(** ** Sequences of calls *)

Inductive Op : Type :=
| OpInitCommon (length usage : Z) (pool : D3DPOOL)
| OpLock (offset length flags : Z) (fuel : nat)
| OpUnlock
| OpResetBufferData (data : list Byte.byte) (length : Z)
| OpWorker.

Inductive Result : Type :=
| RBool (b : bool)
| RLock (hr : HRESULT) (data : option Ptr)
| RHresult (hr : HRESULT)
| RVoid.

Definition outcome_map {A B : Type} (f : A -> B) (x : outcome A) : outcome B :=
  match x with
  | Done r w => Done (f r) w
  | Spinning w => Spinning w
  | Undefined => Undefined
  end.

(** One call on the buffer object; [OpWorker] is the worker thread
    executing one command between two calls. *)
Definition run_op (o : Op) (w : World) : outcome Result :=
  match o with
  | OpInitCommon l u p => outcome_map RBool (init_common l u p w)
  | OpLock o l f fuel => outcome_map (fun r => RLock (fst r) (snd r)) (Lock o l f fuel w)
  | OpUnlock => outcome_map RHresult (Unlock w)
  | OpResetBufferData d l => outcome_map (fun _ => RVoid) (resetBufferData d l w)
  | OpWorker => Done RVoid (consume w)
  end.

(** The call returned. *)
Definition returns (o : Op) (w w' : World) : Prop :=
  exists r, run_op o w = Done r w'.

(** The call reported failure to its caller. *)
Definition failed (r : Result) : bool :=
  match r with
  | RBool b => negb b
  | RLock hr _ | RHresult hr => negb (hr =? D3D_OK)
  | RVoid => false
  end.

(** The arguments are values of their C++ types. *)
Definition well_typed (o : Op) : Prop :=
  match o with
  | OpInitCommon l u _ => is_uint l /\ is_uint u
  | OpLock o l f _ => is_uint o /\ is_uint l /\ is_uint f
  | OpResetBufferData _ l => is_uint l
  | OpUnlock | OpWorker => True
  end.

(** The validation errors of the calls: the pool and usage combinations
    [init_common] rejects, and the conditions under which [Lock] and
    [Unlock] refuse to go on. *)
Inductive validation_error : Op -> World -> Prop :=
| scratch_pool l u w :
    validation_error (OpInitCommon l u D3DPOOL_SCRATCH) w
| managed_dynamic l u w :
    flag_set u D3DUSAGE_DYNAMIC = true ->
    validation_error (OpInitCommon l u D3DPOOL_MANAGED) w
| whole_buffer_with_offset offset flags fuel w :
    0 < offset ->
    validation_error (OpLock offset 0 flags fuel) w
| lock_out_of_range offset length flags fuel w :
    mLength (buf w) <= offset
    \/ mLength (buf w) < offset + (if length =? 0 then mLength (buf w) else length) ->
    validation_error (OpLock offset length flags fuel) w
| readonly_on_writeonly offset length flags fuel w :
    flag_set flags D3DLOCK_READONLY = true ->
    flag_set (mUsage (buf w)) D3DUSAGE_WRITEONLY = true ->
    validation_error (OpLock offset length flags fuel) w
| double_lock offset length flags fuel w :
    mLock (buf w) <> LT_Unlocked ->
    validation_error (OpLock offset length flags fuel) w
| unlock_unlocked w :
    mLock (buf w) = LT_Unlocked ->
    validation_error OpUnlock w.

(** The world a call that fails validation returns in: [init_common]
    has stored its arguments by then, [Lock] and [Unlock] have stored
    nothing. *)
Definition after_validation_error (o : Op) (w : World) : World :=
  match o with
  | OpInitCommon l u p =>
      upd_buf (fun b => set_mPool p (set_mUsage u (set_mLength l b))) w
  | _ => w
  end.

(** Calls that keep the staging block large enough: lengths whose
    16-byte rounding fits a [UINT], and no [init_common] that fails its
    validation. *)
Definition staging_safe (o : Op) (w : World) : Prop :=
  match o with
  | OpInitCommon l u p =>
      0 <= l <= 4294967280 /\ ~ validation_error (OpInitCommon l u p) w
  | OpResetBufferData _ l => 0 <= l <= 4294967280
  | OpLock _ _ _ _ | OpUnlock | OpWorker => True
  end.

(** The staging block covers the 16-byte rounding of the logical
    length, and that rounding fits a [UINT]. *)
Definition staging_covers (w : World) : Prop :=
  0 <= mLength (buf w) <= 4294967280
  /\ align16 (mLength (buf w)) <= capacity w.

Inductive reaches (allowed : Op -> World -> Prop) (w0 : World) : World -> Prop :=
| reaches_here : reaches allowed w0 w0
| reaches_call w1 w2 o :
    reaches allowed w0 w1 -> allowed o w1 -> returns o w1 w2 -> reaches allowed w0 w2.

(** The in-flight counter agrees with the queue: it counts the queued
    upload commands (as a [ULONG]), and no initialise command is left
    pending. *)
Definition count_loads (q : list Command) : Z :=
  Z.of_nat (length (filter (fun c => is_load c = true) q)).

Definition counter_consistent (w : World) : Prop :=
  Forall (fun c => is_init c = false) (queue w)
  /\ mUpdateInProgress (buf w) = wrap32 (count_loads (queue w)).

(** The block behind [mBufData], if any, has not been freed. *)
Definition staging_live (w : World) : Prop :=
  forall a, mBufData (buf w) = Some a -> is_Some (heap w !! a).

(** What the worker thread never changes: every field but [mBufferId]
    and [mUpdateInProgress], the record of submissions, and the block
    behind [mBufData]. *)
Record worker_only (w w' : World) : Prop := {
  wo_mLength : mLength (buf w') = mLength (buf w);
  wo_mUsage : mUsage (buf w') = mUsage (buf w);
  wo_mFormat : mFormat (buf w') = mFormat (buf w);
  wo_mFvf : mFvf (buf w') = mFvf (buf w);
  wo_mPool : mPool (buf w') = mPool (buf w);
  wo_mBufData : mBufData (buf w') = mBufData (buf w);
  wo_mLock : mLock (buf w') = mLock (buf w);
  wo_mLockedOffset : mLockedOffset (buf w') = mLockedOffset (buf w);
  wo_mLockedLength : mLockedLength (buf w') = mLockedLength (buf w);
  wo_submitted : submitted w' = submitted w;
  wo_block : forall a, mBufData (buf w) = Some a -> heap w' !! a = heap w !! a
}.

(** ** Describing the buffer *)

Inductive D3DRESOURCETYPE : Set :=
| D3DRTYPE_SURFACE
| D3DRTYPE_VOLUME
| D3DRTYPE_TEXTURE
| D3DRTYPE_VOLUMETEXTURE
| D3DRTYPE_CUBETEXTURE
| D3DRTYPE_VERTEXBUFFER
| D3DRTYPE_INDEXBUFFER.

Record D3DVERTEXBUFFER_DESC : Type := mkVertexDesc {
  vb_Format : D3DFORMAT;
  vb_Type : D3DRESOURCETYPE;
  vb_Usage : Z;
  vb_Pool : D3DPOOL;
  vb_Size : Z;
  vb_FVF : Z
}.

Record D3DINDEXBUFFER_DESC : Type := mkIndexDesc {
  ib_Format : D3DFORMAT;
  ib_Type : D3DRESOURCETYPE;
  ib_Usage : Z;
  ib_Pool : D3DPOOL;
  ib_Size : Z
}.

Definition GetType (w : World) : D3DRESOURCETYPE :=
  if mFormat (buf w) =? D3DFMT_VERTEXDATA then D3DRTYPE_VERTEXBUFFER
  else D3DRTYPE_INDEXBUFFER.

(** [GetDesc] for a [D3DVERTEXBUFFER_DESC]: the [HRESULT] and what is
    stored in the description. *)
Definition GetDesc_vertex (w : World) : HRESULT * D3DVERTEXBUFFER_DESC :=
  (D3D_OK,
   {| vb_Format := mFormat (buf w); vb_Type := D3DRTYPE_VERTEXBUFFER;
      vb_Usage := mUsage (buf w); vb_Pool := mPool (buf w);
      vb_Size := mLength (buf w); vb_FVF := mFvf (buf w) |}).

(** [GetDesc] for a [D3DINDEXBUFFER_DESC]. *)
Definition GetDesc_index (w : World) : HRESULT * D3DINDEXBUFFER_DESC :=
  (D3D_OK,
   {| ib_Format := mFormat (buf w); ib_Type := D3DRTYPE_INDEXBUFFER;
      ib_Usage := mUsage (buf w); ib_Pool := mPool (buf w);
      ib_Size := mLength (buf w) |}).

(** ** Who refers to a staging block *)

(** Some [shared_ptr] points to block [a]: the buffer object's
    [mBufData] or the [mData] of a queued command. *)
Definition referenced (a : nat) (w : World) : Prop :=
  mBufData (buf w) = Some a \/ exists c, c ∈ queue w /\ cmd_data c = Some a.

(** The heap holds exactly the blocks some [shared_ptr] points to. *)
Definition heap_exact (w : World) : Prop :=
  forall a, is_Some (heap w !! a) <-> referenced a w.

(** [p] is a pointer that is about to go away: the blocks of the heap
    are those referenced, and the one [p] points to. *)
Definition exact_but (p : option nat) (w : World) : Prop :=
  forall a, is_Some (heap w !! a) <-> referenced a w \/ p = Some a.

(** The locked range is cleared whenever the buffer is unlocked. *)
Definition range_cleared (w : World) : Prop :=
  mLock (buf w) = LT_Unlocked ->
  mLockedOffset (buf w) = 0 /\ mLockedLength (buf w) = 0.

(** ** Uploads as the context sees them *)

Definition is_upload (g : GLCall) : bool :=
  match g with glNamedBufferSubDataEXT _ _ _ _ => true | _ => false end.

(** The upload call that executing command [c] issues on buffer [id],
    if it issues one. *)
Definition upload_of (id : Z) (c : Command) : list GLCall :=
  match c with
  | LoadBufferDataCmd o l d => [glNamedBufferSubDataEXT id o l (mkPtr d o)]
  | _ => []
  end.

(** * Direct3DGLDevice: creating the device

    A shallow embedding of the parts of [d3dgldevice.cpp] that are not
    stubs.  Handles ([HWND], [HDC], [HGLRC], [HANDLE]) are [Z] with 0
    for the null handle.  The window system is outside the program:
    what its calls return is given by an [Env], and the calls the
    program makes are recorded in order. *)

Module Device.

Definition D3DFMT_X8R8G8B8 : D3DFORMAT := 22.
Definition D3DFMT_R5G6B5   : D3DFORMAT := 23.
Definition D3DFMT_X1R5G5B5 : D3DFORMAT := 24.
Definition D3DFMT_P8       : D3DFORMAT := 41.
Definition D3DFMT_D24S8    : D3DFORMAT := 75.

Definition D3DPRESENTFLAG_LOCKABLE_BACKBUFFER : Z := 0x1.
Definition DM_DISPLAYFREQUENCY : Z := 0x400000.

Definition GL_TRUE : Z := 1.
Definition WGL_DRAW_TO_WINDOW_ARB : Z := 0x2001.
Definition WGL_SUPPORT_OPENGL_ARB : Z := 0x2010.
Definition WGL_DOUBLE_BUFFER_ARB  : Z := 0x2011.
Definition WGL_PIXEL_TYPE_ARB     : Z := 0x2013.
Definition WGL_COLOR_BITS_ARB     : Z := 0x2014.
Definition WGL_DEPTH_BITS_ARB     : Z := 0x2022.
Definition WGL_STENCIL_BITS_ARB   : Z := 0x2023.
Definition WGL_TYPE_RGBA_ARB      : Z := 0x202B.

Definition pixelformat_for_depth (depth : Z) : D3DFORMAT :=
  if depth =? 8 then D3DFMT_P8
  else if depth =? 15 then D3DFMT_X1R5G5B5
  else if depth =? 16 then D3DFMT_R5G6B5
  else if depth =? 24 then D3DFMT_X8R8G8B8
  else if depth =? 32 then D3DFMT_X8R8G8B8
  else D3DFMT_UNKNOWN.

(** [fmt_to_glattrs]: the result and the pairs written through the
    inserter. *)
Definition fmt_to_glattrs (fmt : D3DFORMAT) : bool * list (Z * Z) :=
  if fmt =? D3DFMT_X8R8G8B8 then (true, [(WGL_COLOR_BITS_ARB, 32)])
  else if fmt =? D3DFMT_D24S8
  then (true, [(WGL_DEPTH_BITS_ARB, 24); (WGL_STENCIL_BITS_ARB, 8)])
  else (false, []).

(** The members of [D3DPRESENT_PARAMETERS] the device code reads. *)
Record D3DPRESENT_PARAMETERS : Type := mkParams {
  BackBufferCount : Z;
  BackBufferFormat : D3DFORMAT;
  EnableAutoDepthStencil : bool;
  AutoDepthStencilFormat : D3DFORMAT;
  Windowed : bool;
  hDeviceWindow : Z;
  Flags : Z
}.

Record Direct3DGLDevice : Type := mkDevice {
  mRefCount : Z;
  mGLContext : Z;
  mThreadHdl : Z;
  mThreadId : Z;
  mWindow : Z;
  mFlags : Z;
  mPresentParams : option D3DPRESENT_PARAMETERS
}.

(** Calls on the window system, with what they returned where the
    program keeps it. *)
Inductive SysCall : Type :=
| InitializeCriticalSection
| DeleteCriticalSection
| GetDC (win hdc : Z)
| ReleaseDC (win hdc : Z)
| wglChoosePixelFormatARB (hdc : Z) (attrs : list (Z * Z))
| SetPixelFormat (hdc pixelFormat : Z)
| wglCreateContextAttribsARB (hdc ctx : Z)
| wglDeleteContext (ctx : Z)
| CreateThread (hdl : Z)
| PostThreadMessageW (tid : Z)
| WaitForSingleObject (hdl : Z)
| CloseHandle (hdl : Z).

(** What the window system answers. *)
Record Env : Type := mkEnv {
  env_GetDC : Z -> Z;
  env_ChoosePixelFormat : Z -> list (Z * Z) -> bool * Z * Z;
  env_SetPixelFormat : Z -> Z -> bool;
  env_CreateContext : Z -> Z;
  env_CreateThread : Z * Z;
  env_PostThreadMessage : Z -> bool
}.

(** [Direct3DGLDevice::Direct3DGLDevice] *)
Definition ctor (window flags : Z) : Direct3DGLDevice * list SysCall :=
  (mkDevice 0 0 0 0 window flags None, [InitializeCriticalSection]).

Definition set_params (pp : D3DPRESENT_PARAMETERS) (d : Direct3DGLDevice) : Direct3DGLDevice :=
  mkDevice (mRefCount d) (mGLContext d) (mThreadHdl d) (mThreadId d) (mWindow d) (mFlags d)
           (Some pp).
Definition set_context (ctx : Z) (d : Direct3DGLDevice) : Direct3DGLDevice :=
  mkDevice (mRefCount d) ctx (mThreadHdl d) (mThreadId d) (mWindow d) (mFlags d)
           (mPresentParams d).
Definition set_thread (hdl tid : Z) (d : Direct3DGLDevice) : Direct3DGLDevice :=
  mkDevice (mRefCount d) (mGLContext d) hdl tid (mWindow d) (mFlags d) (mPresentParams d).
Definition set_refcount (n : Z) (d : Direct3DGLDevice) : Direct3DGLDevice :=
  mkDevice n (mGLContext d) (mThreadHdl d) (mThreadId d) (mWindow d) (mFlags d)
           (mPresentParams d).

(** [Direct3DGLDevice::init]: the result, the device afterwards and the
    calls made.  The adapter is only stored. *)
Definition init (env : Env) (params : D3DPRESENT_PARAMETERS) (d : Direct3DGLDevice)
  : bool * Direct3DGLDevice * list SysCall :=
  let d := set_params params d in
  if 1 <? BackBufferCount params then
    (false,
     set_params (mkParams 1 (BackBufferFormat params) (EnableAutoDepthStencil params)
                          (AutoDepthStencilFormat params) (Windowed params)
                          (hDeviceWindow params) (Flags params)) d,
     [])
  else if flag_set (Flags params) D3DPRESENTFLAG_LOCKABLE_BACKBUFFER then (false, d, [])
  else
    let glattrs := [(WGL_DRAW_TO_WINDOW_ARB, GL_TRUE); (WGL_SUPPORT_OPENGL_ARB, GL_TRUE);
                    (WGL_DOUBLE_BUFFER_ARB, GL_TRUE);
                    (WGL_PIXEL_TYPE_ARB, WGL_TYPE_RGBA_ARB)] in
    let (ok, more) := fmt_to_glattrs (BackBufferFormat params) in
    let glattrs := glattrs ++ more in
    if negb ok then (false, d, [])
    else
      let (ok, more) := if EnableAutoDepthStencil params
                        then fmt_to_glattrs (AutoDepthStencilFormat params)
                        else (true, []) in
      let glattrs := glattrs ++ more in
      if negb ok then (false, d, [])
      else
        let win := if Windowed params && (hDeviceWindow params =? 0)
                   then mWindow d else hDeviceWindow params in
        let hdc := env_GetDC env win in
        let t := [GetDC win hdc; wglChoosePixelFormatARB hdc glattrs] in
        let '(chosen, pixelFormat, numFormats) := env_ChoosePixelFormat env hdc glattrs in
        if negb chosen then (false, d, t ++ [ReleaseDC win hdc])
        else if numFormats <? 1 then (false, d, t ++ [ReleaseDC win hdc])
        else
          let t := t ++ [SetPixelFormat hdc pixelFormat] in
          if negb (env_SetPixelFormat env hdc pixelFormat)
          then (false, d, t ++ [ReleaseDC win hdc])
          else
            let ctx := env_CreateContext env hdc in
            let t := t ++ [wglCreateContextAttribsARB hdc ctx] in
            let d := set_context ctx d in
            if ctx =? 0 then (false, d, t ++ [ReleaseDC win hdc])
            else
              let t := t ++ [ReleaseDC win hdc] in
              let (hdl, tid) := env_CreateThread env in
              let t := t ++ [CreateThread hdl] in
              let d := set_thread hdl tid d in
              if hdl =? 0 then (false, d, t) else (true, d, t).

(** [Direct3DGLDevice::~Direct3DGLDevice]: the calls made. *)
Definition dtor (env : Env) (d : Direct3DGLDevice) : Direct3DGLDevice * list SysCall :=
  let '(d, t) :=
    if negb (mThreadHdl d =? 0) then
      let t := [PostThreadMessageW (mThreadId d)] in
      let t := if env_PostThreadMessage env (mThreadId d)
               then t ++ [WaitForSingleObject (mThreadHdl d)] else t in
      (set_thread 0 0 d, t ++ [CloseHandle (mThreadHdl d)])
    else (d, []) in
  let t := t ++ [DeleteCriticalSection] in
  let t := if negb (mGLContext d =? 0) then t ++ [wglDeleteContext (mGLContext d)] else t in
  (set_context 0 d, t).

(** The display settings [EnumDisplaySettingsExW] fills in; [None] when
    it fails and leaves the zeroed structure alone. *)
Record DEVMODEW : Type := mkDevMode {
  dmFields : Z;
  dmBitsPerPel : Z;
  dmPelsWidth : Z;
  dmPelsHeight : Z;
  dmDisplayFrequency : Z
}.

Record D3DDISPLAYMODE : Type := mkMode {
  Width : Z;
  Height : Z;
  RefreshRate : Z;
  Format : D3DFORMAT
}.

(** [GetDisplayMode]: the [HRESULT] and the mode stored, if one is. *)
Definition GetDisplayMode (enum : option DEVMODEW) (swapchain : Z)
  : HRESULT * option D3DDISPLAYMODE :=
  if 0 <? swapchain then (D3DERR_INVALIDCALL, None)
  else
    let m := match enum with
             | Some m => m
             | None => mkDevMode 0 0 0 0 0
             end in
    let rate := if flag_set (dmFields m) DM_DISPLAYFREQUENCY
                then dmDisplayFrequency m else 0 in
    (D3D_OK,
     Some (mkMode (dmPelsWidth m) (dmPelsHeight m) rate
                  (pixelformat_for_depth (dmBitsPerPel m)))).

(** The interface identifiers [QueryInterface] tells apart. *)
Inductive IID : Set :=
| IID_IUnknown
| IID_IDirect3DDevice9
| IID_IDirect3DDevice9Ex
| IID_other (n : Z).

Definition S_OK : HRESULT := 0.
Definition E_NOINTERFACE : HRESULT := -2147467262. (* 0x80004002 *)

(** A device object, or what is left after [delete this]. *)
Definition AddRef (d : Direct3DGLDevice) : Z * Direct3DGLDevice :=
  let ret := wrap32 (mRefCount d + 1) in
  (ret, set_refcount ret d).

(** [Release]: the count returned, and the device unless it was
    deleted. *)
Definition Release (d : Direct3DGLDevice) : Z * option Direct3DGLDevice :=
  let ret := wrap32 (mRefCount d - 1) in
  (ret, if ret =? 0 then None else Some (set_refcount ret d)).

(** [QueryInterface]: the [HRESULT], whether the object was stored in
    the out parameter (else null was), and the device afterwards. *)
Definition QueryInterface (riid : IID) (d : Direct3DGLDevice)
  : HRESULT * bool * Direct3DGLDevice :=
  match riid with
  | IID_IDirect3DDevice9 | IID_IUnknown => (S_OK, true, snd (AddRef d))
  | IID_IDirect3DDevice9Ex => (E_NOINTERFACE, false, d)
  | IID_other _ => (E_NOINTERFACE, false, d)
  end.

(** What the program holds of the window system. *)
Inductive Resource : Type :=
| RCriticalSection
| RDeviceContext (win hdc : Z)
| RContext (ctx : Z)
| RThread (hdl : Z).

Definition same_resource (r1 r2 : Resource) : bool :=
  match r1, r2 with
  | RCriticalSection, RCriticalSection => true
  | RDeviceContext w1 h1, RDeviceContext w2 h2 => (w1 =? w2) && (h1 =? h2)
  | RContext c1, RContext c2 => c1 =? c2
  | RThread h1, RThread h2 => h1 =? h2
  | _, _ => false
  end.

(** Giving back resource [r]: [None] when it is not held. *)
Fixpoint give_back (r : Resource) (held : list Resource) : option (list Resource) :=
  match held with
  | [] => None
  | r' :: held' =>
      if same_resource r r' then Some held'
      else match give_back r held' with
           | Some rest => Some (r' :: rest)
           | None => None
           end
  end.

(** The resources held after a sequence of calls, starting from
    [held]; [None] when a call gives back what is not held.  A context
    or thread call that returned the null handle acquired nothing.  A
    device context is entered under the handle [GetDC] returned, null
    or not: [init] hands that handle to [ReleaseDC] without testing
    it.  [owned_after] below leaves the null ones out. *)
Fixpoint held_after (t : list SysCall) (held : list Resource) : option (list Resource) :=
  match t with
  | [] => Some held
  | c :: t' =>
      match c with
      | InitializeCriticalSection => held_after t' (RCriticalSection :: held)
      | GetDC win hdc => held_after t' (RDeviceContext win hdc :: held)
      | wglCreateContextAttribsARB _ ctx =>
          held_after t' (if ctx =? 0 then held else RContext ctx :: held)
      | CreateThread hdl =>
          held_after t' (if hdl =? 0 then held else RThread hdl :: held)
      | DeleteCriticalSection =>
          match give_back RCriticalSection held with
          | Some rest => held_after t' rest
          | None => None
          end
      | ReleaseDC win hdc =>
          match give_back (RDeviceContext win hdc) held with
          | Some rest => held_after t' rest
          | None => None
          end
      | wglDeleteContext ctx =>
          match give_back (RContext ctx) held with
          | Some rest => held_after t' rest
          | None => None
          end
      | CloseHandle hdl =>
          match give_back (RThread hdl) held with
          | Some rest => held_after t' rest
          | None => None
          end
      | wglChoosePixelFormatARB _ _ | SetPixelFormat _ _
      | PostThreadMessageW _ | WaitForSingleObject _ => held_after t' held
      end
  end.

(** The [GetDC] calls that returned the null handle. *)
Definition null_GetDC (c : SysCall) : bool :=
  match c with
  | GetDC _ hdc => hdc =? 0
  | _ => false
  end.

(** The resources owned after a sequence of calls: as [held_after],
    but a [GetDC] that returned null acquired nothing either, so that
    a [ReleaseDC] of the null handle gives back what is not held. *)
Definition owned_after (t : list SysCall) (held : list Resource) : option (list Resource) :=
  held_after (List.filter (fun c => negb (null_GetDC c)) t) held.

(** A device from its constructor to its destructor, with one [init]
    in between: the result of [init] and every call made. *)
Definition lifetime (env : Env) (window flags : Z) (params : D3DPRESENT_PARAMETERS)
  : bool * list SysCall :=
  let (d0, t0) := ctor window flags in
  let '(ok, d1, t1) := init env params d0 in
  let (_, t2) := dtor env d1 in
  (ok, t0 ++ t1 ++ t2).

(** A window system in which every call succeeds, and parameters for
    one 32-bit back buffer with a 24/8 depth-stencil buffer. *)
Definition sample_env : Env :=
  mkEnv (fun _ => 77) (fun _ _ => (true, 5, 1)) (fun _ _ => true) (fun _ => 9)
        (11, 12) (fun _ => true).

(** The same window system, except that no device context is to be
    had. *)
Definition no_dc_env : Env :=
  mkEnv (fun _ => 0) (fun _ _ => (true, 5, 1)) (fun _ _ => true) (fun _ => 9)
        (11, 12) (fun _ => true).

Definition sample_params : D3DPRESENT_PARAMETERS :=
  mkParams 1 D3DFMT_X8R8G8B8 true D3DFMT_D24S8 true 0 0.

End Device.

(** * Properties *)

(** ** Machine arithmetic *)

Lemma wrap32_small z : is_uint z -> wrap32 z = z.
Proof. unfold is_uint, UINT_MAX, wrap32. intros H. apply Z.mod_small. lia. Qed.

Lemma wrap32_range z : is_uint (wrap32 z).
Proof.
  unfold is_uint, UINT_MAX, wrap32.
  pose proof (Z.mod_pos_bound z 4294967296). lia.
Qed.

Lemma wrap32_succ_pred z : wrap32 (wrap32 (z + 1) - 1) = wrap32 z.
Proof.
  unfold wrap32. rewrite Zminus_mod_idemp_l. f_equal. lia.
Qed.

Lemma wrap32_succ z : wrap32 (wrap32 z + 1) = wrap32 (z + 1).
Proof. unfold wrap32. apply Zplus_mod_idemp_l. Qed.

(** For lengths whose rounding fits a [UINT], [align16] is the least
    multiple of 16 that is not below the length. *)
Lemma align16_spec len :
  0 <= len <= 4294967280 -> align16 len = 16 * ((len + 15) / 16).
Proof.
  intros H. unfold align16.
  rewrite wrap32_small by (unfold is_uint, UINT_MAX; lia).
  change (wrap32 (Z.lnot 15)) with (Z.ones 32 - Z.ones 4).
  assert (E : Z.ones 32 - Z.ones 4 = Z.shiftl (Z.ones 28) 4) by reflexivity.
  rewrite E.
  apply Z.bits_inj'. intros n Hn.
  rewrite Z.land_spec, Z.shiftl_spec by lia.
  replace (16 * ((len + 15) / 16)) with (Z.shiftl (Z.shiftr (len + 15) 4) 4).
  2:{ rewrite Z.shiftl_mul_pow2, Z.shiftr_div_pow2 by lia. change (2 ^ 4) with 16. lia. }
  rewrite Z.shiftl_spec by lia.
  destruct (Z.ltb_spec n 4).
  - rewrite (Z.testbit_neg_r _ (n - 4)) by lia.
    rewrite (Z.testbit_neg_r _ (n - 4)) by lia. apply andb_false_r.
  - rewrite Z.shiftr_spec by lia. replace (n - 4 + 4) with n by lia.
    destruct (Z.ltb_spec (n - 4) 28).
    + rewrite Z.ones_spec_low by lia. apply andb_true_r.
    + rewrite Z.ones_spec_high by lia. rewrite andb_false_r.
      symmetry. apply (Z.bits_above_log2 (len + 15) n); [lia|].
      apply Z.log2_lt_pow2; [lia|].
      apply Z.lt_le_trans with (2 ^ 32); [change (2^32) with 4294967296; lia|].
      apply Z.pow_le_mono_r; lia.
Qed.

Lemma align16_ge len : 0 <= len <= 4294967280 -> len <= align16 len <= 4294967280.
Proof.
  intros H. rewrite align16_spec by done.
  pose proof (Z.div_mod (len + 15) 16 ltac:(lia)).
  pose proof (Z.mod_pos_bound (len + 15) 16 ltac:(lia)).
  assert ((len + 15) / 16 <= 268435455).
  { apply Z.lt_succ_r. apply Z.div_lt_upper_bound; lia. }
  lia.
Qed.

Lemma align16_mono a b :
  0 <= a <= b -> b <= 4294967280 -> align16 a <= align16 b.
Proof.
  intros H1 H2. rewrite !align16_spec by lia.
  assert ((a + 15) / 16 <= (b + 15) / 16) by (apply Z.div_le_mono; lia). lia.
Qed.

Lemma align16_nonneg len : 0 <= align16 len.
Proof.
  unfold align16. apply Z.land_nonneg. left. apply wrap32_range.
Qed.

(** ** The worker thread leaves the producer's fields alone *)

Lemma worker_only_refl w : worker_only w w.
Proof. by split. Qed.

Lemma worker_only_trans w1 w2 w3 :
  worker_only w1 w2 -> worker_only w2 w3 -> worker_only w1 w3.
Proof.
  intros [] []. split; try congruence.
  intros a Ha. rewrite wo_block1 by congruence. auto.
Qed.

Lemma buf_drop_ref p w : buf (drop_ref p w) = buf w.
Proof. destruct p as [a|]; simpl; [|done]. by destruct (_ =? _)%nat. Qed.

Lemma queue_drop_ref p w : queue (drop_ref p w) = queue w.
Proof. destruct p as [a|]; simpl; [|done]. by destruct (_ =? _)%nat. Qed.

Lemma submitted_drop_ref p w : submitted (drop_ref p w) = submitted w.
Proof. destruct p as [a|]; simpl; [|done]. by destruct (_ =? _)%nat. Qed.

(** Dropping a reference never frees the block the buffer object holds. *)
Lemma heap_drop_ref_held p w a :
  mBufData (buf w) = Some a -> heap (drop_ref p w) !! a = heap w !! a.
Proof.
  intros Ha. destruct p as [a'|]; simpl; [|done].
  destruct (Nat.eqb_spec (use_count a' w) 0) as [E|]; [|done].
  simpl. destruct (decide (a' = a)) as [->|]; [|by rewrite lookup_delete_ne].
  unfold use_count, holds in E. rewrite Ha in E.
  rewrite bool_decide_eq_true_2 in E by done. lia.
Qed.

Lemma buf_execute_fields c w :
  let b := buf (execute c w) in
  mLength b = mLength (buf w) /\ mUsage b = mUsage (buf w)
  /\ mFormat b = mFormat (buf w) /\ mFvf b = mFvf (buf w)
  /\ mPool b = mPool (buf w) /\ mBufData b = mBufData (buf w)
  /\ mLock b = mLock (buf w) /\ mLockedOffset b = mLockedOffset (buf w)
  /\ mLockedLength b = mLockedLength (buf w).
Proof. by destruct c. Qed.

Lemma heap_execute c w : heap (execute c w) = heap w.
Proof. by destruct c. Qed.

Lemma submitted_execute c w : submitted (execute c w) = submitted w.
Proof. by destruct c. Qed.

Lemma queue_execute c w : queue (execute c w) = queue w.
Proof. by destruct c. Qed.

Lemma consume_worker_only w : worker_only w (consume w).
Proof.
  unfold consume. destruct (queue w) as [|c q] eqn:Hq; [apply worker_only_refl|].
  pose proof (buf_execute_fields c w) as (?&?&?&?&?&?&?&?&?).
  split; rewrite ?buf_drop_ref, ?submitted_drop_ref; simpl;
    rewrite ?submitted_execute; try done.
  intros a Ha. rewrite heap_drop_ref_held by (simpl; congruence).
  simpl. by rewrite heap_execute.
Qed.

Lemma iter_consume_worker_only n w : worker_only w (Nat.iter n consume w).
Proof.
  induction n as [|n IH]; simpl; [apply worker_only_refl|].
  eapply worker_only_trans; [exact IH|apply consume_worker_only].
Qed.

Lemma worker_only_capacity w w' : worker_only w w' -> capacity w' = capacity w.
Proof.
  intros []. unfold capacity. rewrite wo_mBufData0.
  destruct (mBufData (buf w)) as [a|]; [|done]. by rewrite wo_block0.
Qed.

(** ** The polling loop *)

Lemma wait_idle_Done fuel w r w' :
  wait_idle fuel w = Done r w' ->
  mUpdateInProgress (buf w') = 0
  /\ exists k, (k <= fuel)%nat /\ w' = Nat.iter k consume w.
Proof.
  revert w. induction fuel as [|fuel IH]; intros w; simpl.
  - destruct (Z.eqb_spec (mUpdateInProgress (buf w)) 0); [|done].
    intros [= _ <-]. split; [done|]. exists 0%nat. by split.
  - destruct (Z.eqb_spec (mUpdateInProgress (buf w)) 0).
    + intros [= _ <-]. split; [done|]. exists 0%nat. split; [lia|done].
    + intros H. apply IH in H as (H0 & k & Hk & ->). split; [done|].
      exists (S k). split; [lia|]. symmetry. apply Nat.iter_succ_r.
Qed.

Lemma wait_idle_Spinning fuel w w' :
  wait_idle fuel w = Spinning w' ->
  mUpdateInProgress (buf w') <> 0 /\ w' = Nat.iter fuel consume w.
Proof.
  revert w. induction fuel as [|fuel IH]; intros w; simpl.
  - destruct (Z.eqb_spec (mUpdateInProgress (buf w)) 0); [done|].
    by intros [= <-].
  - destruct (Z.eqb_spec (mUpdateInProgress (buf w)) 0); [done|].
    intros H. apply IH in H as (H0 & ->). split; [done|].
    symmetry. apply (Nat.iter_succ_r fuel consume w).
Qed.


Lemma wait_idle_idle fuel w :
  mUpdateInProgress (buf w) = 0 -> wait_idle fuel w = Done tt w.
Proof. intros H. destruct fuel; simpl; by rewrite H. Qed.

(** ** The in-flight counter and the queue *)

Lemma count_loads_cons c q :
  count_loads (c :: q) = (if is_load c then 1 else 0) + count_loads q.
Proof.
  unfold count_loads. rewrite filter_cons.
  destruct (is_load c); destruct (decide _) as [E|E];
    try congruence; rewrite ?length_cons; lia.
Qed.

Lemma count_loads_app q1 q2 : count_loads (q1 ++ q2) = count_loads q1 + count_loads q2.
Proof. unfold count_loads. rewrite filter_app, length_app. lia. Qed.

Lemma count_loads_nonneg q : 0 <= count_loads q.
Proof. unfold count_loads. lia. Qed.

Lemma consume_counter_consistent w :
  counter_consistent w -> counter_consistent (consume w).
Proof.
  intros [Hi Hc]. unfold consume.
  destruct (queue w) as [|c q] eqn:Hq; [by rewrite <- Hq in *|].
  apply Forall_cons in Hi as [Hc0 Hi].
  split; rewrite ?queue_drop_ref, ?buf_drop_ref; simpl; [done|].
  rewrite count_loads_cons in Hc.
  destruct c; simpl in *; try done; try (rewrite Hc; f_equal; lia).
  rewrite Hc. replace (1 + count_loads q) with (count_loads q + 1) by lia.
  apply wrap32_succ_pred.
Qed.

Lemma consume_queue_length w : length (queue (consume w)) = pred (length (queue w)).
Proof.
  unfold consume. destruct (queue w) as [|c q] eqn:Hq; [by rewrite Hq|].
  by rewrite queue_drop_ref.
Qed.

(** With a consistent counter the polling loop ends once the worker
    thread has gone through the queue. *)
Lemma wait_idle_terminates fuel w :
  counter_consistent w -> (length (queue w) <= fuel)%nat ->
  exists w', wait_idle fuel w = Done tt w'.
Proof.
  revert w. induction fuel as [|fuel IH]; intros w Hc Hlen.
  - destruct (queue w) eqn:Hq; [|simpl in Hlen; lia].
    destruct Hc as [_ Hc]. rewrite Hq in Hc. exists w. by apply wait_idle_idle.
  - simpl. destruct (Z.eqb_spec (mUpdateInProgress (buf w)) 0); [by exists w|].
    apply IH; [by apply consume_counter_consistent|].
    rewrite consume_queue_length. lia.
Qed.

(** ** Failing calls *)

Lemma Lock_locked offset length flags fuel w :
  mLock (buf w) <> LT_Unlocked ->
  Lock offset length flags fuel w = Done (D3DERR_INVALIDCALL, None) w.
Proof.
  intros H. unfold Lock.
  destruct (_ && _); [done|]. destruct (_ || _); [done|].
  destruct (_ && _); [done|]. by destruct (mLock (buf w)).
Qed.

Lemma Lock_acquired_ok offset length flags fuel w r w' :
  Lock_acquired offset length flags fuel w = Done r w' -> fst r = D3D_OK.
Proof.
  unfold Lock_acquired.
  destruct (flag_set flags D3DLOCK_DISCARD); [by intros [= <- _]|].
  destruct (_ && _); [|by intros [= <- _]].
  destruct (wait_idle fuel w); try done. by intros [= <- _].
Qed.

(** A [Lock] that does not return [D3D_OK] returns
    [D3DERR_INVALIDCALL], stores no pointer and changes nothing. *)
Lemma Lock_failure offset length flags fuel w hr p w' :
  Lock offset length flags fuel w = Done (hr, p) w' -> hr <> D3D_OK ->
  hr = D3DERR_INVALIDCALL /\ p = None /\ w' = w.
Proof.
  unfold Lock. intros H Hne.
  destruct (_ && _); [by inversion H|].
  destruct (_ || _); [by inversion H|].
  destruct (_ && _); [by inversion H|].
  destruct (mLock (buf w)); try by inversion H.
  by apply Lock_acquired_ok in H.
Qed.

Lemma Lock_whole_with_offset offset flags fuel w :
  0 < offset -> Lock offset 0 flags fuel w = Done (D3DERR_INVALIDCALL, None) w.
Proof.
  intros H. unfold Lock. simpl.
  by destruct (Z.ltb_spec 0 offset); [|lia].
Qed.

Lemma Lock_out_of_range offset length flags fuel w :
  mLength (buf w) <= offset
  \/ mLength (buf w) - offset < (if length =? 0 then mLength (buf w) else length) ->
  Lock offset length flags fuel w = Done (D3DERR_INVALIDCALL, None) w.
Proof.
  intros H. unfold Lock. destruct (_ && _); [done|].
  destruct (Z.leb_spec (mLength (buf w)) offset); [done|].
  destruct (Z.ltb_spec (mLength (buf w) - offset)
              (if length =? 0 then mLength (buf w) else length)); [done|lia].
Qed.

Lemma Lock_readonly_on_writeonly offset length flags fuel w :
  flag_set flags D3DLOCK_READONLY = true ->
  flag_set (mUsage (buf w)) D3DUSAGE_WRITEONLY = true ->
  Lock offset length flags fuel w = Done (D3DERR_INVALIDCALL, None) w.
Proof.
  intros H1 H2. unfold Lock. rewrite H1, H2.
  destruct (_ && _); [done|]. by destruct (_ || _).
Qed.

(** What [Lock] does with arguments that pass every check. *)
Lemma Lock_accepted offset length flags fuel w :
  mLock (buf w) = LT_Unlocked ->
  (length = 0 -> offset <= 0) ->
  offset < mLength (buf w) ->
  (if length =? 0 then mLength (buf w) else length) <= mLength (buf w) - offset ->
  flag_set flags D3DLOCK_READONLY && flag_set (mUsage (buf w)) D3DUSAGE_WRITEONLY = false ->
  Lock offset length flags fuel w =
  Lock_acquired offset (if length =? 0 then mLength (buf w) else length) flags fuel
    (upd_buf (set_mLock (if flag_set flags D3DLOCK_READONLY
                         then LT_ReadOnly else LT_Full)) w).
Proof.
  intros HL H0 H1 H2 H3. unfold Lock. rewrite H3, HL.
  destruct (Z.leb_spec (mLength (buf w)) offset); [lia|].
  destruct (Z.ltb_spec (mLength (buf w) - offset)
              (if length =? 0 then mLength (buf w) else length)); [lia|].
  destruct (Z.eqb_spec length 0); simpl; [|done].
  by destruct (Z.ltb_spec 0 offset); [lia|].
Qed.

Lemma Unlock_unlocked w :
  mLock (buf w) = LT_Unlocked -> Unlock w = Done D3DERR_INVALIDCALL w.
Proof. intros H. unfold Unlock. by rewrite H. Qed.

(** C9: [Unlock] on a buffer that is not locked returns
    [D3DERR_INVALIDCALL], which is not the success code, and returns in
    the very world it was called in: no command is submitted, and the
    in-flight counter and every other field are as before. *)
Theorem Unlock_when_unlocked_fails (w : World) :
  mLock (buf w) = LT_Unlocked ->
  Unlock w = Done D3DERR_INVALIDCALL w /\ D3DERR_INVALIDCALL <> D3D_OK.
Proof. intros H. by rewrite (Unlock_unlocked w H). Qed.

Lemma Unlock_when_unlocked_fails_witness :
  mLock (buf (created 20 0)) = LT_Unlocked
  /\ Unlock (created 20 0) = Done D3DERR_INVALIDCALL (created 20 0).
Proof.
  assert (H : mLock (buf (created 20 0)) = LT_Unlocked) by (vm_compute; reflexivity).
  exact (conj H (proj1 (Unlock_when_unlocked_fails (created 20 0) H))).
Defined.

(** ** Reallocating the staging block *)

Lemma buf_reset_mBufData n w :
  buf (reset_mBufData n w) = set_mBufData (Some (fresh (dom (heap w)))) (buf w).
Proof. unfold reset_mBufData. simpl. by rewrite buf_drop_ref. Qed.

Lemma queue_reset_mBufData n w : queue (reset_mBufData n w) = queue w.
Proof. unfold reset_mBufData. simpl. by rewrite queue_drop_ref. Qed.

Lemma submitted_reset_mBufData n w : submitted (reset_mBufData n w) = submitted w.
Proof. unfold reset_mBufData. simpl. by rewrite submitted_drop_ref. Qed.

Lemma heap_reset_mBufData n w :
  heap (reset_mBufData n w) !! fresh (dom (heap w))
  = Some (replicate (Z.to_nat n) None).
Proof.
  unfold reset_mBufData. simpl.
  rewrite heap_drop_ref_held by done. simpl. apply lookup_insert_eq.
Qed.

(** The block [reset] installs is none of the blocks that were live
    before. *)
Lemma fresh_not_live (h : gmap nat (list (option Byte.byte))) : h !! fresh (dom h) = None.
Proof. apply not_elem_of_dom. apply is_fresh. Qed.

Lemma capacity_reset_mBufData n w : 0 <= n -> capacity (reset_mBufData n w) = n.
Proof.
  intros Hn. unfold capacity. rewrite buf_reset_mBufData. simpl.
  rewrite heap_reset_mBufData, length_replicate. lia.
Qed.

(** ** A successful [Lock] *)

Lemma Lock_acquired_Done offset length flags fuel w r w' :
  Lock_acquired offset length flags fuel w = Done r w' ->
  r = (D3D_OK, Some (mkPtr (mBufData (buf w')) offset))
  /\ mLockedOffset (buf w') = offset
  /\ mLockedLength (buf w') = length
  /\ mLock (buf w') = mLock (buf w)
  /\ mLength (buf w') = mLength (buf w)
  /\ mUsage (buf w') = mUsage (buf w)
  /\ mPool (buf w') = mPool (buf w)
  /\ submitted w' = submitted w.
Proof.
  unfold Lock_acquired.
  destruct (flag_set flags D3DLOCK_DISCARD).
  - destruct (0 <? _); intros [= <- <-]; simpl;
      rewrite ?buf_reset_mBufData, ?submitted_reset_mBufData; done.
  - destruct (_ && _).
    + destruct (wait_idle fuel w) as [[] w2| |] eqn:Hw; try done.
      apply wait_idle_Done in Hw as (_ & k & _ & ->).
      destruct (iter_consume_worker_only k w).
      by intros [= <- <-].
    + by intros [= <- <-].
Qed.

Lemma Lock_acquired_returns offset length flags fuel w :
  counter_consistent w -> (List.length (queue w) <= fuel)%nat ->
  exists r w', Lock_acquired offset length flags fuel w = Done r w'.
Proof.
  intros Hc Hf. unfold Lock_acquired.
  destruct (flag_set flags D3DLOCK_DISCARD); [by eexists _, _|].
  destruct (_ && _); [|by eexists _, _].
  destruct (wait_idle_terminates fuel w Hc Hf) as [w' ->]. by eexists _, _.
Qed.

Lemma counter_consistent_upd_lock f w :
  (forall b, mUpdateInProgress (f b) = mUpdateInProgress b) ->
  counter_consistent (upd_buf f w) <-> counter_consistent w.
Proof. intros H. unfold counter_consistent. simpl. by rewrite H. Qed.

Lemma write_bytes_Some p bs w w' :
  write_bytes p bs w = Some w' ->
  buf w' = buf w /\ queue w' = queue w /\ submitted w' = submitted w
  /\ exists a old, p = Some a /\ heap w !! a = Some old
       /\ (length bs <= length old)%nat
       /\ heap w' = <[a := (Some <$> bs) ++ drop (length bs) old]> (heap w).
Proof.
  unfold write_bytes. destruct p as [a|]; [|done].
  destruct (heap w !! a) as [old|] eqn:Ha; [|done].
  destruct (Nat.leb_spec (length bs) (length old)); [|done].
  intros [= <-]. repeat split; try done. by exists a, old.
Qed.

Lemma sendSync_worker_only c w :
  worker_only (send c w) (sendSync c w).
Proof. unfold sendSync. apply iter_consume_worker_only. Qed.

(** ** The lock state *)

Lemma init_common_lock length usage pool w r w' :
  init_common length usage pool w = Done r w' ->
  mLock (buf w') = mLock (buf w)
  /\ mLockedOffset (buf w') = mLockedOffset (buf w)
  /\ mLockedLength (buf w') = mLockedLength (buf w).
Proof.
  unfold init_common.
  destruct (bool_decide _); [by intros [= _ <-]|].
  destruct (_ && _); [by intros [= _ <-]|].
  destruct (write_bytes _ _ _) as [w3|] eqn:Hw; [|done].
  apply write_bytes_Some in Hw as (Hb & _). intros [= _ <-].
  match goal with
  | |- context [sendSync ?c ?w0] => destruct (sendSync_worker_only c w0) as []
  end.
  rewrite wo_mLock0, wo_mLockedOffset0, wo_mLockedLength0. simpl.
  rewrite Hb, buf_reset_mBufData. done.
Qed.

Lemma resetBufferData_lock data length w r w' :
  resetBufferData data length w = Done r w' ->
  mLock (buf w') = mLock (buf w)
  /\ mLockedOffset (buf w') = mLockedOffset (buf w)
  /\ mLockedLength (buf w') = mLockedLength (buf w).
Proof.
  unfold resetBufferData.
  destruct (_ <? _)%nat; [done|].
  destruct (write_bytes _ _ _) as [w4|] eqn:Hw; [|done].
  apply write_bytes_Some in Hw as (Hb & _). intros [= _ <-]. simpl. rewrite Hb.
  destruct (_ || _); simpl; rewrite ?buf_reset_mBufData; done.
Qed.

Lemma Lock_Done offset length flags fuel w r w' :
  Lock offset length flags fuel w = Done r w' ->
  (r = (D3DERR_INVALIDCALL, None) /\ w' = w)
  \/ (mLock (buf w) = LT_Unlocked
      /\ Lock_acquired offset (if length =? 0 then mLength (buf w) else length) flags fuel
           (upd_buf (set_mLock (if flag_set flags D3DLOCK_READONLY
                                then LT_ReadOnly else LT_Full)) w) = Done r w').
Proof.
  unfold Lock.
  destruct (_ && _); [intros [= <- <-]; by left|].
  destruct (_ || _); [intros [= <- <-]; by left|].
  destruct (_ && _); [intros [= <- <-]; by left|].
  destruct (mLock (buf w)); try (intros [= <- <-]; by left).
  intros H. by right.
Qed.

Lemma Lock_acquired_Spinning offset length flags fuel w w' :
  Lock_acquired offset length flags fuel w = Spinning w' ->
  mUpdateInProgress (buf w') <> 0 /\ w' = Nat.iter fuel consume w.
Proof.
  unfold Lock_acquired.
  destruct (flag_set flags D3DLOCK_DISCARD); [done|].
  destruct (_ && _); [|done].
  destruct (wait_idle fuel w) as [[] w2|w2|] eqn:Hw; try done.
  intros [= <-]. by apply wait_idle_Spinning.
Qed.

Lemma Lock_Spinning offset length flags fuel w w' :
  Lock offset length flags fuel w = Spinning w' ->
  mLock (buf w) = LT_Unlocked /\ mLock (buf w') = LT_Full
  /\ mUpdateInProgress (buf w') <> 0.
Proof.
  unfold Lock.
  destruct (_ && _); [done|]. destruct (_ || _); [done|].
  destruct (_ && _); [done|].
  destruct (mLock (buf w)) eqn:HL; try done.
  intros H. pose proof H as H'. apply Lock_acquired_Spinning in H as (Hc & ->).
  destruct (iter_consume_worker_only fuel
              (upd_buf (set_mLock (if flag_set flags D3DLOCK_READONLY
                                   then LT_ReadOnly else LT_Full)) w)) as [].
  repeat split; try done. rewrite wo_mLock0. simpl.
  unfold Lock_acquired in H'.
  destruct (flag_set flags D3DLOCK_DISCARD); [done|].
  destruct (flag_set flags D3DLOCK_READONLY); [|done].
  by rewrite andb_false_r in H'.
Qed.

(** C4: a call (or a step of the worker thread) that returns leaves the
    lock state as it was, unless it is a successful [Lock] on an
    unlocked buffer, which makes it [LT_ReadOnly] or [LT_Full], or an
    [Unlock] on a locked one, which makes it [LT_Unlocked].  A [Lock]
    still waiting for the in-flight updates has taken the lock state
    from [LT_Unlocked] to [LT_Full].  A [Lock] on a locked buffer
    returns [D3DERR_INVALIDCALL] in the world it was called in, so the
    lock type, the locked offset and the locked length stay as the
    first [Lock] left them. *)
Theorem lock_state_transitions (o : Op) (w : World) :
  (forall r w', run_op o w = Done r w' ->
     mLock (buf w') = mLock (buf w)
     \/ (mLock (buf w) = LT_Unlocked
         /\ (mLock (buf w') = LT_ReadOnly \/ mLock (buf w') = LT_Full)
         /\ exists offset length flags fuel p,
              o = OpLock offset length flags fuel /\ r = RLock D3D_OK p)
     \/ (mLock (buf w) <> LT_Unlocked /\ mLock (buf w') = LT_Unlocked
         /\ o = OpUnlock /\ r = RHresult D3D_OK))
  /\ (forall w', run_op o w = Spinning w' ->
        mLock (buf w) = LT_Unlocked /\ mLock (buf w') = LT_Full)
  /\ (mLock (buf w) <> LT_Unlocked ->
      forall offset length flags fuel,
        Lock offset length flags fuel w = Done (D3DERR_INVALIDCALL, None) w).
Proof.
  split; [|split].
  - intros r w' H. destruct o as [l u p|off l f fuel| |d l|]; simpl in H.
    + destruct (init_common l u p w) as [r0 w0| |] eqn:E; try done.
      injection H as <- <-. left. by apply init_common_lock in E as (? & _).
    + destruct (Lock off l f fuel w) as [hq w0| |] eqn:E; try done.
      destruct hq as [hr q]. injection H as <- <-. apply Lock_Done in E as [[_ ->]|[HL E]]; [by left|].
      right. left. apply Lock_acquired_Done in E as ([= -> ->] & _ & _ & Hl & _).
      split; [done|]. split.
      * rewrite Hl. simpl. destruct (flag_set f D3DLOCK_READONLY); auto.
      * by exists off, l, f, fuel, (Some (mkPtr (mBufData (buf w0)) off)).
    + unfold Unlock in H.
      destruct (bool_decide_reflect (mLock (buf w) = LT_Unlocked)) as [HL|HL];
        simpl in H; injection H as <- <-; [by left|].
      right. right. by repeat split.
    + destruct (resetBufferData d l w) as [r0 w0| |] eqn:E; try done.
      injection H as <- <-. left. by apply resetBufferData_lock in E as (? & _).
    + injection H as <- <-. left. apply consume_worker_only.
  - intros w' H. destruct o as [l u p|off l f fuel| |d l|]; simpl in H.
    + destruct (init_common l u p w) as [r0 w0| |] eqn:E; try done.
      unfold init_common in E.
      destruct (bool_decide _); [done|]. destruct (_ && _); [done|].
      by destruct (write_bytes _ _ _).
    + destruct (Lock off l f fuel w) as [hq w0|w0|] eqn:E; try done.
      injection H as <-. by apply Lock_Spinning in E as (? & ? & _).
    + unfold Unlock in H. by destruct (bool_decide _).
    + destruct (resetBufferData d l w) as [r0 w0| |] eqn:E; try done.
      unfold resetBufferData in E. destruct (_ <? _)%nat; [done|].
      by destruct (write_bytes _ _ _).
    + done.
  - intros H offset length flags fuel. by apply Lock_locked.
Qed.

Lemma lock_state_transitions_witness :
  mLock (buf locked_sample) <> LT_Unlocked
  /\ Lock 0 16 D3DLOCK_READONLY 3 locked_sample
     = Done (D3DERR_INVALIDCALL, None) locked_sample
  /\ mLock (buf locked_sample) = LT_Full
  /\ mLockedOffset (buf locked_sample) = 4
  /\ mLockedLength (buf locked_sample) = 8.
Proof.
  assert (H : mLock (buf locked_sample) <> LT_Unlocked) by (vm_compute; discriminate).
  split; [exact H|]. split.
  - exact (proj2 (proj2 (lock_state_transitions OpUnlock locked_sample))
             H 0 16 D3DLOCK_READONLY 3%nat).
  - vm_compute. by repeat split.
Defined.

(** ** [Lock] with length 0 *)

Lemma Lock_succeeds offset length flags fuel w :
  mLock (buf w) = LT_Unlocked ->
  (length = 0 -> offset <= 0) ->
  offset < mLength (buf w) ->
  (if length =? 0 then mLength (buf w) else length) <= mLength (buf w) - offset ->
  flag_set flags D3DLOCK_READONLY && flag_set (mUsage (buf w)) D3DUSAGE_WRITEONLY = false ->
  counter_consistent w -> (List.length (queue w) <= fuel)%nat ->
  exists w',
    Lock offset length flags fuel w
    = Done (D3D_OK, Some (mkPtr (mBufData (buf w')) offset)) w'
    /\ mLock (buf w') = (if flag_set flags D3DLOCK_READONLY then LT_ReadOnly else LT_Full)
    /\ mLockedOffset (buf w') = offset
    /\ mLockedLength (buf w') = (if length =? 0 then mLength (buf w) else length)
    /\ mLength (buf w') = mLength (buf w)
    /\ submitted w' = submitted w.
Proof.
  intros HL H0 H1 H2 H3 Hc Hf.
  rewrite Lock_accepted by done.
  edestruct Lock_acquired_returns as (r & w' & E);
    [| |rewrite E].
  - apply (counter_consistent_upd_lock _ w); [done|exact Hc].
  - exact Hf.
  - apply Lock_acquired_Done in E as (-> & ? & ? & ? & ? & _ & _ & ?).
    exists w'. by repeat split.
Qed.

(** C8 (amended): [Lock] with length 0 and an offset above 0 returns
    [D3DERR_INVALIDCALL] on every buffer.  With length 0 and offset 0 it
    returns [D3DERR_INVALIDCALL] on a buffer of logical length 0; on an
    unlocked buffer of positive logical length (and unless a read-only
    lock is asked of a write-only buffer) it returns [D3D_OK] once the
    worker thread had the time to go through the queue, with the locked
    range set to offset 0 and the whole logical length. *)
Theorem Lock_zero_length (w : World) (offset flags : Z) (fuel : nat) :
  (0 < offset -> Lock offset 0 flags fuel w = Done (D3DERR_INVALIDCALL, None) w)
  /\ (mLength (buf w) <= 0 ->
      Lock 0 0 flags fuel w = Done (D3DERR_INVALIDCALL, None) w)
  /\ (mLock (buf w) = LT_Unlocked ->
      0 < mLength (buf w) ->
      flag_set flags D3DLOCK_READONLY && flag_set (mUsage (buf w)) D3DUSAGE_WRITEONLY = false ->
      counter_consistent w -> (List.length (queue w) <= fuel)%nat ->
      exists w',
        Lock 0 0 flags fuel w = Done (D3D_OK, Some (mkPtr (mBufData (buf w')) 0)) w'
        /\ mLock (buf w') = (if flag_set flags D3DLOCK_READONLY
                             then LT_ReadOnly else LT_Full)
        /\ mLockedOffset (buf w') = 0
        /\ mLockedLength (buf w') = mLength (buf w)
        /\ mLength (buf w') = mLength (buf w)).
Proof.
  split; [|split].
  - apply Lock_whole_with_offset.
  - intros H. apply Lock_out_of_range. left. lia.
  - intros HL Hpos Hro Hc Hf.
    destruct (Lock_succeeds 0 0 flags fuel w) as (w' & E & ? & ? & ? & ? & _);
      simpl; try done; try lia.
    exists w'. by repeat split.
Qed.

Lemma Lock_zero_length_witness :
  Lock 7 0 0 0 (created 20 0) = Done (D3DERR_INVALIDCALL, None) (created 20 0)
  /\ Lock 0 0 0 0 new_world = Done (D3DERR_INVALIDCALL, None) new_world
  /\ exists w',
       Lock 0 0 0 0 (created 20 0) = Done (D3D_OK, Some (mkPtr (mBufData (buf w')) 0)) w'
       /\ mLockedOffset (buf w') = 0 /\ mLockedLength (buf w') = 20.
Proof.
  split; [|split].
  - apply (proj1 (Lock_zero_length (created 20 0) 7 0 0%nat)). lia.
  - apply (proj1 (proj2 (Lock_zero_length new_world 0 0 0%nat))). simpl. lia.
  - destruct (proj2 (proj2 (Lock_zero_length (created 20 0) 0 0 0%nat)))
      as (w' & E & _ & Ho & Hl & _).
    + vm_compute; reflexivity.
    + vm_compute; reflexivity.
    + vm_compute; reflexivity.
    + split; [vm_compute; constructor|vm_compute; reflexivity].
    + vm_compute. lia.
    + exists w'. split; [exact E|]. split; [exact Ho|]. rewrite Hl. vm_compute. reflexivity.
Defined.

(** C8, as stated, fails on a buffer of logical length 0: [init_common]
    accepts the length, and [Lock] with length 0 and offset 0 then
    returns [D3DERR_INVALIDCALL] and locks nothing. *)
Lemma Lock_whole_empty_buffer :
  init_common 0 0 D3DPOOL_DEFAULT new_world = Done true (created 0 0)
  /\ mLock (buf (created 0 0)) = LT_Unlocked
  /\ Lock 0 0 0 0 (created 0 0) = Done (D3DERR_INVALIDCALL, None) (created 0 0)
  /\ D3DERR_INVALIDCALL <> D3D_OK.
Proof. vm_compute. by repeat split. Qed.

(** ** [Lock] followed by [Unlock] *)

Lemma Unlock_full w :
  mLock (buf w) = LT_Full ->
  exists w',
    Unlock w = Done D3D_OK w'
    /\ mLock (buf w') = LT_Unlocked
    /\ mLockedOffset (buf w') = 0 /\ mLockedLength (buf w') = 0
    /\ mUpdateInProgress (buf w') = wrap32 (mUpdateInProgress (buf w) + 1)
    /\ submitted w' = submitted w
                      ++ [LoadBufferDataCmd (mLockedOffset (buf w)) (mLockedLength (buf w))
                                            (mBufData (buf w))]
    /\ queue w' = queue w
                  ++ [LoadBufferDataCmd (mLockedOffset (buf w)) (mLockedLength (buf w))
                                        (mBufData (buf w))].
Proof.
  intros H. unfold Unlock. rewrite H. simpl. eexists. by repeat split.
Qed.

Lemma Unlock_readonly w :
  mLock (buf w) = LT_ReadOnly ->
  exists w',
    Unlock w = Done D3D_OK w'
    /\ mLock (buf w') = LT_Unlocked
    /\ mUpdateInProgress (buf w') = mUpdateInProgress (buf w)
    /\ submitted w' = submitted w /\ queue w' = queue w.
Proof.
  intros H. unfold Unlock. rewrite H. simpl. eexists. by repeat split.
Qed.

(** C1 (amended): on an unlocked buffer, take a pair that [Lock]
    accepts: a positive length with [offset + length] within the logical
    length, or offset 0 and length 0 on a buffer of positive length.
    Without the read-only flag, [Lock] returns [D3D_OK] (once the worker
    thread had the time to go through the queue) and submits nothing;
    [Unlock] after it, however many commands the worker thread executes
    in between, returns [D3D_OK], leaves the lock state [LT_Unlocked]
    and submits exactly one command, an upload of the block [Lock]
    returned a pointer into: from [offset] over [length] bytes when
    [length] is positive, and over the whole logical length when
    [length] is 0. *)
Theorem Lock_then_Unlock (w : World) (offset length flags : Z) (fuel n : nat) :
  mLock (buf w) = LT_Unlocked ->
  flag_set flags D3DLOCK_READONLY = false ->
  (0 < length /\ 0 <= offset /\ offset + length <= mLength (buf w))
  \/ (length = 0 /\ offset = 0 /\ 0 < mLength (buf w)) ->
  counter_consistent w -> (List.length (queue w) <= fuel)%nat ->
  exists p w1 w2,
    Lock offset length flags fuel w = Done (D3D_OK, Some p) w1
    /\ off p = offset
    /\ submitted w1 = submitted w
    /\ Unlock (Nat.iter n consume w1) = Done D3D_OK w2
    /\ mLock (buf w2) = LT_Unlocked
    /\ submitted w2
       = submitted w
         ++ [LoadBufferDataCmd offset (if length =? 0 then mLength (buf w) else length)
                               (base p)].
Proof.
  intros HL Hro Hrange Hc Hf.
  destruct (Lock_succeeds offset length flags fuel w)
    as (w1 & E & Hl1 & Ho1 & Hn1 & _ & Hs1); try done.
  - lia.
  - destruct Hrange as [?|(-> & -> & ?)]; lia.
  - destruct Hrange as [?|(-> & -> & ?)]; [|simpl; lia].
    destruct (Z.eqb_spec length 0); lia.
  - by rewrite Hro.
  - rewrite Hro in Hl1.
    destruct (iter_consume_worker_only n w1) as [].
    destruct (Unlock_full (Nat.iter n consume w1)) as (w2 & E2 & Hl2 & _ & _ & _ & Hs2 & _);
      [congruence|].
    exists (mkPtr (mBufData (buf w1)) offset), w1, w2.
    repeat split; try done.
    rewrite Hs2, wo_submitted0, wo_mLockedOffset0, wo_mLockedLength0, wo_mBufData0.
    simpl. congruence.
Qed.

Lemma Lock_then_Unlock_witness :
  exists p w1 w2,
    Lock 4 8 D3DLOCK_NOOVERWRITE 0 (created 20 0) = Done (D3D_OK, Some p) w1
    /\ off p = 4
    /\ submitted w1 = submitted (created 20 0)
    /\ Unlock (Nat.iter 2 consume w1) = Done D3D_OK w2
    /\ mLock (buf w2) = LT_Unlocked
    /\ submitted w2 = submitted (created 20 0) ++ [LoadBufferDataCmd 4 8 (base p)].
Proof.
  apply (Lock_then_Unlock (created 20 0) 4 8 D3DLOCK_NOOVERWRITE 0 2).
  - vm_compute; reflexivity.
  - vm_compute; reflexivity.
  - left. vm_compute. repeat split; discriminate.
  - split; [vm_compute; constructor|vm_compute; reflexivity].
  - vm_compute. lia.
Defined.

(** C1, as stated, fails for the pair (0, 0), which [Lock] accepts and
    which satisfies [offset + length <= mLength]: on a buffer of 16
    bytes the one upload command [Unlock] submits covers bytes 0 to 15,
    not the empty range from [offset] to [offset + length]. *)
Lemma Lock_whole_uploads_whole :
  mLock (buf (created 16 0)) = LT_Unlocked
  /\ 0 + 0 <= mLength (buf (created 16 0))
  /\ flag_set 0 D3DLOCK_READONLY = false
  /\ exists p w1 w2,
       Lock 0 0 0 0 (created 16 0) = Done (D3D_OK, Some p) w1
       /\ Unlock w1 = Done D3D_OK w2
       /\ submitted w2
          = submitted (created 16 0) ++ [LoadBufferDataCmd 0 16 (base p)]
       /\ submitted w2
          <> submitted (created 16 0) ++ [LoadBufferDataCmd 0 (0 + 0) (base p)].
Proof.
  split; [vm_compute; reflexivity|].
  split; [vm_compute; discriminate|].
  split; [reflexivity|].
  eexists _, _, _. split; [vm_compute; reflexivity|].
  split; [vm_compute; reflexivity|].
  split; [vm_compute; reflexivity|].
  vm_compute. discriminate.
Qed.

(** ** Validation errors *)

Lemma init_common_rejected length usage pool w :
  pool = D3DPOOL_SCRATCH
  \/ (pool = D3DPOOL_MANAGED /\ flag_set usage D3DUSAGE_DYNAMIC = true) ->
  init_common length usage pool w
  = Done false (upd_buf (fun b => set_mPool pool (set_mUsage usage (set_mLength length b))) w).
Proof.
  intros [->|[-> H]]; unfold init_common; simpl; [done|]. by rewrite H.
Qed.

Lemma init_common_false length usage pool w w' :
  init_common length usage pool w = Done false w' ->
  (pool = D3DPOOL_SCRATCH
   \/ (pool = D3DPOOL_MANAGED /\ flag_set usage D3DUSAGE_DYNAMIC = true))
  /\ w' = upd_buf (fun b => set_mPool pool (set_mUsage usage (set_mLength length b))) w.
Proof.
  unfold init_common. simpl.
  destruct (bool_decide_reflect (pool = D3DPOOL_SCRATCH)) as [->|_].
  { intros [= <-]. split; [by left|done]. }
  destruct (bool_decide_reflect (pool = D3DPOOL_MANAGED)) as [->|_]; simpl.
  - destruct (flag_set usage D3DUSAGE_DYNAMIC) eqn:E.
    + intros [= <-]. split; [by right|done].
    + by destruct (write_bytes _ _ _).
  - by destruct (write_bytes _ _ _).
Qed.

Lemma Lock_rejected offset length flags fuel w p w' :
  Lock offset length flags fuel w = Done (D3DERR_INVALIDCALL, p) w' ->
  validation_error (OpLock offset length flags fuel) w.
Proof.
  unfold Lock.
  destruct (Z.eqb_spec length 0) as [->|Hl]; simpl.
  - destruct (Z.ltb_spec 0 offset); [intros _; by constructor|].
    destruct (Z.leb_spec (mLength (buf w)) offset); simpl.
    { intros _. apply lock_out_of_range. by left. }
    destruct (Z.ltb_spec (mLength (buf w) - offset) (mLength (buf w))).
    { intros _. apply lock_out_of_range. right. simpl. lia. }
    destruct (flag_set flags D3DLOCK_READONLY) eqn:Ero; simpl.
    + destruct (flag_set (mUsage (buf w)) D3DUSAGE_WRITEONLY) eqn:Ewo.
      { intros _. by apply readonly_on_writeonly. }
      destruct (mLock (buf w)) eqn:HL;
        try (intros _; apply double_lock; congruence).
      intros HA. by apply Lock_acquired_ok in HA.
    + destruct (mLock (buf w)) eqn:HL;
        try (intros _; apply double_lock; congruence).
      intros HA. by apply Lock_acquired_ok in HA.
  - destruct (Z.leb_spec (mLength (buf w)) offset); simpl.
    { intros _. apply lock_out_of_range. by left. }
    destruct (Z.ltb_spec (mLength (buf w) - offset) length).
    { intros _. apply lock_out_of_range. right.
      destruct (Z.eqb_spec length 0); [done|lia]. }
    destruct (flag_set flags D3DLOCK_READONLY) eqn:Ero; simpl.
    + destruct (flag_set (mUsage (buf w)) D3DUSAGE_WRITEONLY) eqn:Ewo.
      { intros _. by apply readonly_on_writeonly. }
      destruct (mLock (buf w)) eqn:HL;
        try (intros _; apply double_lock; congruence).
      intros HA. by apply Lock_acquired_ok in HA.
    + destruct (mLock (buf w)) eqn:HL;
        try (intros _; apply double_lock; congruence).
      intros HA. by apply Lock_acquired_ok in HA.
Qed.

(** C2 (amended): every validation error is reported at once, whatever
    the fuel and with no step of the worker thread: the call returns
    [false] ([init_common]) or [D3DERR_INVALIDCALL] ([Lock], [Unlock]),
    never the success value.  [Lock] and [Unlock] return in the world
    they were called in, so no field has changed.  [init_common] has
    stored its three arguments in [mLength], [mUsage] and [mPool] before
    it checks them: these are changed, while the lock state, the locked
    range, the staging block, the in-flight counter, the heap and the
    queue are as before.  Conversely a call that reports failure met one
    of the validation errors and had this effect and no other. *)
Theorem validation_errors_effect (o : Op) (w : World) :
  (validation_error o w ->
   exists r,
     run_op o w = Done r (after_validation_error o w)
     /\ failed r = true
     /\ (r = RBool false \/ r = RLock D3DERR_INVALIDCALL None
         \/ r = RHresult D3DERR_INVALIDCALL))
  /\ (forall r w', run_op o w = Done r w' -> failed r = true ->
        validation_error o w /\ w' = after_validation_error o w)
  /\ mLock (buf (after_validation_error o w)) = mLock (buf w)
  /\ mLockedOffset (buf (after_validation_error o w)) = mLockedOffset (buf w)
  /\ mLockedLength (buf (after_validation_error o w)) = mLockedLength (buf w)
  /\ mBufData (buf (after_validation_error o w)) = mBufData (buf w)
  /\ mUpdateInProgress (buf (after_validation_error o w)) = mUpdateInProgress (buf w)
  /\ heap (after_validation_error o w) = heap w
  /\ queue (after_validation_error o w) = queue w
  /\ submitted (after_validation_error o w) = submitted w.
Proof.
  split; [|split].
  - intros Hv.
    destruct Hv as [l u w|l u w Hd|offset flags fuel w Hpos
                   |offset length flags fuel w Hr
                   |offset length flags fuel w Hro Hwo
                   |offset length flags fuel w HL|w HL];
      unfold run_op, after_validation_error.
    + rewrite init_common_rejected by auto. exists (RBool false). auto.
    + rewrite init_common_rejected by auto. exists (RBool false). auto.
    + rewrite Lock_whole_with_offset by done.
      exists (RLock D3DERR_INVALIDCALL None). auto.
    + rewrite Lock_out_of_range by (destruct Hr; [by left|right; lia]).
      exists (RLock D3DERR_INVALIDCALL None). auto.
    + rewrite Lock_readonly_on_writeonly by done.
      exists (RLock D3DERR_INVALIDCALL None). auto.
    + rewrite Lock_locked by done.
      exists (RLock D3DERR_INVALIDCALL None). auto.
    + rewrite Unlock_unlocked by done.
      exists (RHresult D3DERR_INVALIDCALL). auto.
  - intros r w' H Hf. destruct o as [l u p|off l f fuel| |d l|]; simpl in H.
    + destruct (init_common l u p w) as [r0 w0| |] eqn:E; try done.
      injection H as <- <-. simpl in Hf. destruct r0; [done|].
      apply init_common_false in E as [[->|[-> Hd]] ->];
        split; try done; by constructor.
    + destruct (Lock off l f fuel w) as [hq w0| |] eqn:E; try done.
      destruct hq as [hr q]. injection H as <- <-. simpl in Hf.
      destruct (Lock_failure _ _ _ _ _ _ _ _ E) as (-> & -> & ->).
      { intros ->. done. }
      split; [|done]. by apply Lock_rejected in E.
    + unfold Unlock in H.
      destruct (bool_decide_reflect (mLock (buf w) = LT_Unlocked)) as [HL|HL];
        simpl in H; injection H as <- <-; [|done].
      split; [by constructor|done].
    + destruct (resetBufferData d l w) as [r0 w0| |] eqn:E; try done.
      by injection H as <- <-.
    + by injection H as <- <-.
  - by destruct o.
Qed.

Lemma validation_errors_effect_witness :
  validation_error (OpLock 16 8 0 0) (created 20 0)
  /\ exists r,
       run_op (OpLock 16 8 0 0) (created 20 0) = Done r (created 20 0)
       /\ failed r = true.
Proof.
  assert (H : validation_error (OpLock 16 8 0 0) (created 20 0)).
  { apply lock_out_of_range. right. vm_compute. reflexivity. }
  split; [exact H|].
  destruct (proj1 (validation_errors_effect (OpLock 16 8 0 0) (created 20 0)) H)
    as (r & E & Hf & _).
  exists r. split; [exact E|exact Hf].
Defined.

(** C2, as stated, fails for [init_common]: called with the scratch
    pool on a new buffer object it returns [false] and has changed
    [mLength] from 0 to 16 and [mPool] to [D3DPOOL_SCRATCH]. *)
Lemma init_common_failure_stores_arguments :
  validation_error (OpInitCommon 16 0 D3DPOOL_SCRATCH) new_world
  /\ exists w',
       init_common 16 0 D3DPOOL_SCRATCH new_world = Done false w'
       /\ mLength (buf new_world) = 0 /\ mLength (buf w') = 16
       /\ mPool (buf new_world) = D3DPOOL_DEFAULT /\ mPool (buf w') = D3DPOOL_SCRATCH
       /\ w' <> new_world.
Proof.
  split; [constructor|].
  eexists. split; [reflexivity|]. repeat split. discriminate.
Qed.

(** ** The vertex size of a flexible vertex format *)

Lemma land_pow2 x k :
  0 <= k -> Z.land x (2 ^ k) = if Z.testbit x k then 2 ^ k else 0.
Proof.
  intros Hk. apply Z.bits_inj'. intros n Hn.
  rewrite Z.land_spec, Z.pow2_bits_eqb by done.
  destruct (Z.eqb_spec k n) as [->|Hne].
  - destruct (Z.testbit x n); simpl.
    + by rewrite Z.pow2_bits_eqb, Z.eqb_refl.
    + by rewrite Z.bits_0.
  - rewrite andb_false_r. destruct (Z.testbit x k).
    + rewrite Z.pow2_bits_eqb by done. symmetry. by apply Z.eqb_neq.
    + by rewrite Z.bits_0.
Qed.

Lemma flag_set_testbit x k : 0 <= k -> flag_set x (2 ^ k) = Z.testbit x k.
Proof.
  intros Hk. unfold flag_set. rewrite land_pow2 by done.
  destruct (Z.testbit x k); simpl; [|done].
  destruct (Z.eqb_spec (2 ^ k) 0) as [E|]; [|done].
  pose proof (Z.pow_pos_nonneg 2 k). lia.
Qed.

Lemma has_pow2_testbit x k : 0 <= k -> (Z.land x (2 ^ k) =? 2 ^ k) = Z.testbit x k.
Proof.
  intros Hk. rewrite land_pow2 by done.
  destruct (Z.testbit x k); [apply Z.eqb_refl|].
  apply Z.eqb_neq. pose proof (Z.pow_pos_nonneg 2 k). lia.
Qed.

Lemma has_XYZW_testbit x :
  (Z.land x D3DFVF_XYZW =? D3DFVF_XYZW) = Z.testbit x 1 && Z.testbit x 14.
Proof.
  change D3DFVF_XYZW with (Z.lor (2 ^ 1) (2 ^ 14)).
  rewrite Z.land_lor_distr_r, !land_pow2 by done.
  by destruct (Z.testbit x 1), (Z.testbit x 14).
Qed.

Lemma tex_count_range fvf : 0 <= tex_count fvf <= 15.
Proof.
  unfold tex_count, D3DFVF_TEXCOUNT_MASK, D3DFVF_TEXCOUNT_SHIFT.
  rewrite Z.shiftr_land. change (Z.shiftr 3840 8) with (Z.ones 4).
  rewrite Z.land_ones by done.
  pose proof (Z.mod_pos_bound (Z.shiftr fvf 8) (2 ^ 4)). lia.
Qed.

Lemma tex_num_range shr_wide fvf t : 1 <= tex_num shr_wide fvf t <= 4.
Proof.
  unfold tex_num. cbv zeta.
  assert (Hb : 0 <= Z.land (shr32 shr_wide fvf (16 + t * 2)) 3 < 4).
  { change 3 with (Z.ones 2). rewrite Z.land_ones by done.
    apply Z.mod_pos_bound. done. }
  unfold D3DFVF_TEXTUREFORMAT1, D3DFVF_TEXTUREFORMAT2,
    D3DFVF_TEXTUREFORMAT3, D3DFVF_TEXTUREFORMAT4.
  set (sel := Z.land (shr32 shr_wide fvf (16 + t * 2)) 3) in *.
  destruct (Z.eqb_spec sel 3); [lia|].
  destruct (Z.eqb_spec sel 0); [lia|].
  destruct (Z.eqb_spec sel 1); [lia|].
  destruct (Z.eqb_spec sel 2); lia.
Qed.

Lemma fold_left_tex_sizes (f : nat -> Z) l size :
  fold_left (fun size t => size + sizeof_float * f t) l size
  = size + 4 * foldr Z.add 0 (f <$> l).
Proof.
  unfold sizeof_float. revert size.
  induction l as [|t l IH]; intros size.
  - cbn [fold_left fmap list_fmap foldr]. lia.
  - rewrite fmap_cons. cbn [fold_left foldr]. rewrite IH. lia.
Qed.

Lemma land3_bits x :
  Z.land x 3 = (if Z.testbit x 1 then 2 else 0) + (if Z.testbit x 0 then 1 else 0).
Proof.
  apply Z.bits_inj'. intros n Hn. rewrite Z.land_spec.
  destruct (Z.eq_dec n 0) as [->|H0]; [|destruct (Z.eq_dec n 1) as [->|H1]].
  - destruct (Z.testbit x 1), (Z.testbit x 0); reflexivity.
  - destruct (Z.testbit x 1), (Z.testbit x 0); reflexivity.
  - change 3 with (Z.ones 2). rewrite Z.ones_spec_high by lia. rewrite andb_false_r.
    symmetry.
    assert (Hb : 0 <= (if Z.testbit x 1 then 2 else 0) + (if Z.testbit x 0 then 1 else 0) < 2 ^ 2)
      by (destruct (Z.testbit x 1), (Z.testbit x 0); simpl; lia).
    destruct (Z.eq_dec ((if Z.testbit x 1 then 2 else 0) + (if Z.testbit x 0 then 1 else 0)) 0)
      as [->|Hne]; [apply Z.bits_0|].
    apply Z.bits_above_log2; [lia|].
    apply Z.lt_le_trans with 2; [apply Z.log2_lt_pow2; lia|lia].
Qed.

Lemma tex_count_bits fvf : tex_count fvf = (fvf / 2 ^ 8) mod 16.
Proof.
  unfold tex_count, D3DFVF_TEXCOUNT_MASK, D3DFVF_TEXCOUNT_SHIFT.
  rewrite Z.shiftr_land. change (Z.shiftr 3840 8) with (Z.ones 4).
  rewrite Z.land_ones, Z.shiftr_div_pow2 by done. reflexivity.
Qed.

Lemma tex_num_bits shr_wide fvf t :
  tex_num shr_wide fvf t
  = match (if t <? 8 then Z.testbit fvf (16 + 2 * t + 1)
           else Z.testbit (shr_wide fvf (16 + 2 * t)) 1),
          (if t <? 8 then Z.testbit fvf (16 + 2 * t)
           else Z.testbit (shr_wide fvf (16 + 2 * t)) 0) with
    | true, true => 1
    | false, false => 2
    | false, true => 3
    | true, false => 4
    end.
Proof.
  unfold tex_num, shr32. cbv zeta. rewrite land3_bits.
  replace (16 + t * 2) with (16 + 2 * t) by lia.
  replace (16 + 2 * t <? 32) with (t <? 8)
    by (destruct (Z.ltb_spec t 8), (Z.ltb_spec (16 + 2 * t) 32); lia).
  destruct (t <? 8).
  - rewrite !Z.shiftr_spec by done. rewrite (Z.add_comm 1), (Z.add_0_l).
    by destruct (Z.testbit fvf (16 + 2 * t + 1)), (Z.testbit fvf (16 + 2 * t)).
  - by destruct (Z.testbit (shr_wide fvf (16 + 2 * t)) 1),
         (Z.testbit (shr_wide fvf (16 + 2 * t)) 0).
Qed.

(** C10: the size [init_vbo] computes is 16 bytes for a position with
    the XYZRHW bit or with the two XYZW bits, else 12 for one with the
    XYZ bit; 12 for a normal; 4 each for the diffuse and the specular
    colour; and 4 bytes per float of each declared texture coordinate
    set.  The number of declared sets is the field in bits 8 to 11 of
    the format (0 to 15); set [t] has 1 to 4 floats, selected by the
    two bits at 16 + 2t for the first eight sets (11 for one float, 00
    for two, 01 for three, 10 for four) and, for a set beyond the
    eighth, by the low two bits of whatever the over-wide shift yields.
    When the requested length is below that size [init_vbo] returns
    [false] in the world it was called in: nothing was allocated,
    nothing submitted and no field written. *)
Theorem init_vbo_short_length
    (shr_wide : Z -> Z -> Z) (length usage fvf : Z) (pool : D3DPOOL) (w : World) :
  length < fvf_size shr_wide fvf ->
  let sets := (fvf / 2 ^ 8) mod 16 in
  let bit t i := if t <? 8 then Z.testbit fvf (16 + 2 * t + i)
                 else Z.testbit (shr_wide fvf (16 + 2 * t)) i in
  let floats t := match bit t 1, bit t 0 with
                  | true, true => 1
                  | false, false => 2
                  | false, true => 3
                  | true, false => 4
                  end in
  init_vbo shr_wide length usage fvf pool w = Done false w
  /\ fvf_size shr_wide fvf
     = (if Z.testbit fvf 2 then 16
        else if Z.testbit fvf 1 && Z.testbit fvf 14 then 16
        else if Z.testbit fvf 1 then 12 else 0)
       + (if Z.testbit fvf 4 then 12 else 0)
       + (if Z.testbit fvf 6 then 4 else 0)
       + (if Z.testbit fvf 7 then 4 else 0)
       + 4 * foldr Z.add 0 ((fun t => floats (Z.of_nat t)) <$> seq 0 (Z.to_nat sets))
  /\ tex_count fvf = sets
  /\ (forall t, tex_num shr_wide fvf t = floats t).
Proof.
  intros Hlt sets bit floats.
  assert (Hnum : forall t, tex_num shr_wide fvf t = floats t).
  { intros t. rewrite tex_num_bits. unfold floats, bit. by rewrite Z.add_0_r. }
  split; [|split; [|split]].
  - unfold init_vbo. by destruct (Z.ltb_spec length (fvf_size shr_wide fvf)); [|lia].
  - unfold fvf_size. rewrite fold_left_tex_sizes, tex_count_bits.
    fold sets.
    replace ((fun t => tex_num shr_wide fvf (Z.of_nat t)) <$> seq 0 (Z.to_nat sets))
      with ((fun t => floats (Z.of_nat t)) <$> seq 0 (Z.to_nat sets))
      by (apply list_fmap_ext; intros; symmetry; apply Hnum).
    change D3DFVF_XYZRHW with (2 ^ 2). change D3DFVF_XYZ with (2 ^ 1).
    change D3DFVF_NORMAL with (2 ^ 4). change D3DFVF_DIFFUSE with (2 ^ 6).
    change D3DFVF_SPECULAR with (2 ^ 7).
    rewrite !has_pow2_testbit, !flag_set_testbit, has_XYZW_testbit by done.
    unfold sizeof_float, sizeof_uchar.
    generalize (foldr Z.add 0 ((fun t => floats (Z.of_nat t)) <$> seq 0 (Z.to_nat sets))).
    intros s.
    destruct (Z.testbit fvf 2), (Z.testbit fvf 1), (Z.testbit fvf 14),
      (Z.testbit fvf 4), (Z.testbit fvf 6), (Z.testbit fvf 7); simpl; lia.
  - apply tex_count_bits.
  - exact Hnum.
Qed.

Lemma init_vbo_short_length_witness :
  23 < fvf_size (fun x n => Z.shiftr x (n mod 32)) 0x152
  /\ init_vbo (fun x n => Z.shiftr x (n mod 32)) 23 0 0x152 D3DPOOL_DEFAULT new_world
     = Done false new_world
  /\ fvf_size (fun x n => Z.shiftr x (n mod 32)) 0x152 = 12 + 12 + 4 + 0 + 4 * 2.
Proof.
  assert (H : 23 < fvf_size (fun x n => Z.shiftr x (n mod 32)) 0x152)
    by (vm_compute; reflexivity).
  split; [exact H|].
  split.
  - exact (proj1 (init_vbo_short_length (fun x n => Z.shiftr x (n mod 32))
                    23 0 0x152 D3DPOOL_DEFAULT new_world H)).
  - exact (proj1 (proj2 (init_vbo_short_length (fun x n => Z.shiftr x (n mod 32))
                           23 0 0x152 D3DPOOL_DEFAULT new_world H))).
Defined.

(** ** [Lock] while an update is in flight *)

Lemma queue_consume w : queue (consume w) = drop 1 (queue w).
Proof.
  unfold consume. destruct (queue w) as [|c q] eqn:E; [by rewrite E|].
  by rewrite queue_drop_ref.
Qed.

Lemma queue_iter_consume k w : queue (Nat.iter k consume w) = drop k (queue w).
Proof.
  induction k as [|k IH]; simpl; [by rewrite drop_0|].
  rewrite queue_consume, IH, drop_drop. f_equal. lia.
Qed.

(** C5: on a buffer with an update in flight, take a [Lock] that passes
    the checks.  With the discard flag it returns [D3D_OK] without
    sleeping (with no fuel at all, and the same with any fuel), the
    worker thread has executed nothing and the counter is as before; the
    pointer it returns is into a block that was not live before the
    call, hence not the block [mBufData] held, and that block is what
    [mBufData] holds now.  With none of the discard, no-overwrite and
    read-only flags, it sleeps while the counter is not zero, returns
    only in a world where the counter is zero, returns then a pointer
    into the block [mBufData] held before the call, and it does return
    once the worker thread had the time to go through the queue. *)
Theorem Lock_with_update_in_flight
    (w : World) (offset length flags : Z) (fuel : nat) :
  0 < mUpdateInProgress (buf w) ->
  staging_live w ->
  mLock (buf w) = LT_Unlocked ->
  (length = 0 -> offset <= 0) ->
  offset < mLength (buf w) ->
  (if length =? 0 then mLength (buf w) else length) <= mLength (buf w) - offset ->
  flag_set flags D3DLOCK_READONLY && flag_set (mUsage (buf w)) D3DUSAGE_WRITEONLY = false ->
  (flag_set flags D3DLOCK_DISCARD = true ->
   exists a w',
     Lock offset length flags 0 w = Done (D3D_OK, Some (mkPtr (Some a) offset)) w'
     /\ Lock offset length flags fuel w = Lock offset length flags 0 w
     /\ heap w !! a = None
     /\ mBufData (buf w) <> Some a
     /\ mBufData (buf w') = Some a
     /\ heap w' !! a = Some (replicate (Z.to_nat (align16 (mLength (buf w)))) None)
     /\ queue w' = queue w
     /\ mUpdateInProgress (buf w') = mUpdateInProgress (buf w))
  /\ (flag_set flags D3DLOCK_DISCARD = false ->
      flag_set flags D3DLOCK_NOOVERWRITE = false ->
      flag_set flags D3DLOCK_READONLY = false ->
      (forall w', Lock offset length flags fuel w = Spinning w' ->
         mUpdateInProgress (buf w') <> 0)
      /\ (forall r w', Lock offset length flags fuel w = Done r w' ->
            r = (D3D_OK, Some (mkPtr (mBufData (buf w)) offset))
            /\ mBufData (buf w') = mBufData (buf w)
            /\ mUpdateInProgress (buf w') = 0
            /\ exists k, (0 < k <= fuel)%nat /\ queue w' = drop k (queue w))
      /\ (counter_consistent w -> (List.length (queue w) <= fuel)%nat ->
          exists r w', Lock offset length flags fuel w = Done r w')).
Proof.
  intros Hin Hlive HL H0 H1 H2 H3.
  assert (Hpos : (0 <? mUpdateInProgress (buf w)) = true) by (apply Z.ltb_lt; lia).
  split.
  - intros Hd. rewrite !Lock_accepted by done.
    unfold Lock_acquired. rewrite Hd. simpl. rewrite Hpos.
    eexists (fresh (dom (heap w))), _. split.
    { rewrite buf_reset_mBufData. simpl. reflexivity. }
    split; [done|].
    split; [apply fresh_not_live|].
    split.
    { intros E. destruct (Hlive _ E) as [bs Hbs].
      by rewrite fresh_not_live in Hbs. }
    simpl. rewrite buf_reset_mBufData, queue_reset_mBufData. simpl.
    repeat split; try done.
    pose proof (heap_reset_mBufData (align16 (mLength (buf w)))
                  (upd_buf (set_mLock (if flag_set flags D3DLOCK_READONLY
                                       then LT_ReadOnly else LT_Full)) w)) as Hh.
    exact Hh.
  - intros Hd Hno Hro. rewrite Lock_accepted by done.
    unfold Lock_acquired. rewrite Hd, Hno, Hro. simpl.
    split; [|split].
    + intros w' E.
      destruct (wait_idle fuel _) as [[] w2|w2|] eqn:Hw; try done.
      injection E as <-. by apply wait_idle_Spinning in Hw as [? _].
    + intros r w' E.
      destruct (wait_idle fuel _) as [[] w2|w2|] eqn:Hw; try done.
      injection E as <- <-. apply wait_idle_Done in Hw as (Hz & k & Hk & ->).
      match goal with
      | |- context [Nat.iter k consume ?w0] =>
          destruct (iter_consume_worker_only k w0) as []; set (w1 := w0) in *
      end.
      simpl. rewrite wo_mBufData0. repeat split; try done.
      exists k. rewrite queue_iter_consume. split; [|done].
      split; [|done]. destruct k; [|lia]. simpl in Hz. lia.
    + intros Hc Hf.
      destruct (wait_idle_terminates fuel
                  (upd_buf (set_mLock LT_Full) w)) as [w' ->]; [done|done|].
      by eexists _, _.
Qed.

Lemma Lock_with_update_in_flight_witness :
  0 < mUpdateInProgress (buf in_flight_sample)
  /\ (exists a w',
        Lock 0 16 D3DLOCK_DISCARD 0 in_flight_sample
        = Done (D3D_OK, Some (mkPtr (Some a) 0)) w'
        /\ mBufData (buf in_flight_sample) <> Some a
        /\ queue w' = queue in_flight_sample)
  /\ (forall w', Lock 0 16 0 0 in_flight_sample = Spinning w' ->
        mUpdateInProgress (buf w') <> 0)
  /\ (exists r w', Lock 0 16 0 1 in_flight_sample = Done r w').
Proof.
  assert (Hin : 0 < mUpdateInProgress (buf in_flight_sample)) by (vm_compute; reflexivity).
  assert (Hlive : staging_live in_flight_sample).
  { intros a Ha. vm_compute in Ha. injection Ha as <-. vm_compute. eexists. reflexivity. }
  assert (HL : mLock (buf in_flight_sample) = LT_Unlocked) by (vm_compute; reflexivity).
  assert (H0 : 16 = 0 -> 0 <= 0) by (intros; lia).
  assert (H1 : 0 < mLength (buf in_flight_sample)) by (vm_compute; reflexivity).
  assert (H2 : (if 16 =? 0 then mLength (buf in_flight_sample) else 16)
               <= mLength (buf in_flight_sample) - 0) by (vm_compute; discriminate).
  split; [exact Hin|]. split; [|split].
  - assert (H3 : flag_set D3DLOCK_DISCARD D3DLOCK_READONLY
                 && flag_set (mUsage (buf in_flight_sample)) D3DUSAGE_WRITEONLY = false)
      by (vm_compute; reflexivity).
    destruct (proj1 (Lock_with_update_in_flight in_flight_sample 0 16 D3DLOCK_DISCARD 0
                       Hin Hlive HL H0 H1 H2 H3) eq_refl)
      as (a & w' & E & _ & _ & Hne & _ & _ & Hq & _).
    exists a, w'. split; [exact E|]. split; [exact Hne|exact Hq].
  - assert (H3 : flag_set 0 D3DLOCK_READONLY
                 && flag_set (mUsage (buf in_flight_sample)) D3DUSAGE_WRITEONLY = false)
      by (vm_compute; reflexivity).
    exact (proj1 (proj2 (Lock_with_update_in_flight in_flight_sample 0 16 0 0
                           Hin Hlive HL H0 H1 H2 H3) eq_refl eq_refl eq_refl)).
  - assert (H3 : flag_set 0 D3DLOCK_READONLY
                 && flag_set (mUsage (buf in_flight_sample)) D3DUSAGE_WRITEONLY = false)
      by (vm_compute; reflexivity).
    apply (proj2 (proj2 (proj2 (Lock_with_update_in_flight in_flight_sample 0 16 0 1
                           Hin Hlive HL H0 H1 H2 H3) eq_refl eq_refl eq_refl))).
    + split; [vm_compute; repeat constructor|vm_compute; reflexivity].
    + vm_compute. lia.
Defined.

(** ** The destructor *)



(** ** The capacity of the staging block *)

Lemma capacity_upd_buf f w :
  mBufData (f (buf w)) = mBufData (buf w) -> capacity (upd_buf f w) = capacity w.
Proof. intros H. unfold capacity. simpl. by rewrite H. Qed.

Lemma capacity_send c w : capacity (send c w) = capacity w.
Proof. done. Qed.

Lemma capacity_write_bytes p bs w w' :
  write_bytes p bs w = Some w' -> capacity w' = capacity w.
Proof.
  intros H. apply write_bytes_Some in H as (Hb & _ & _ & a & old & -> & Ha & Hl & Hh).
  unfold capacity. rewrite Hb, Hh.
  destruct (mBufData (buf w)) as [a'|]; [|done].
  destruct (decide (a = a')) as [->|Hne].
  - rewrite lookup_insert_eq, Ha, length_app, length_fmap, length_drop. lia.
  - by rewrite lookup_insert_ne.
Qed.

Lemma capacity_reset w n : capacity (reset_mBufData n w) = Z.of_nat (Z.to_nat n).
Proof.
  unfold capacity. rewrite buf_reset_mBufData.
  cbn [mBufData set_mBufData]. by rewrite heap_reset_mBufData, length_replicate.
Qed.

Lemma init_common_accepted length usage pool w r w' :
  init_common length usage pool w = Done r w' ->
  ~ validation_error (OpInitCommon length usage pool) w ->
  r = true
  /\ mLength (buf w') = length
  /\ capacity w' = Z.of_nat (Z.to_nat (align16 length)).
Proof.
  intros E Hv. destruct r.
  2:{ apply init_common_false in E as [[->|[-> Hd]] _]; destruct Hv; by constructor. }
  split; [done|]. unfold init_common in E.
  destruct (bool_decide _); [done|]. destruct (_ && _); [done|].
  destruct (write_bytes _ _ _) as [w3|] eqn:Hw; [|done].
  injection E as <-.
  match goal with
  | |- context [sendSync ?c ?w0] => pose proof (sendSync_worker_only c w0) as Hwo
  end.
  rewrite (worker_only_capacity _ _ Hwo). destruct Hwo as []. rewrite wo_mLength0.
  simpl. rewrite capacity_send, capacity_upd_buf by done.
  rewrite (capacity_write_bytes _ _ _ _ Hw).
  apply write_bytes_Some in Hw as (Hb & _). rewrite Hb, buf_reset_mBufData. simpl.
  split; [done|]. apply capacity_reset.
Qed.

Lemma Lock_staging offset length flags fuel w r w' :
  Lock offset length flags fuel w = Done r w' ->
  mLength (buf w') = mLength (buf w)
  /\ (capacity w' = capacity w
      \/ capacity w' = Z.of_nat (Z.to_nat (align16 (mLength (buf w))))).
Proof.
  intros E. apply Lock_Done in E as [[_ ->]|[_ E]]; [auto|].
  unfold Lock_acquired in E.
  destruct (flag_set flags D3DLOCK_DISCARD).
  - destruct (0 <? _); injection E as _ <-; simpl.
    + rewrite buf_reset_mBufData. simpl. split; [done|]. right.
      rewrite capacity_upd_buf by done. apply capacity_reset.
    + split; [done|]. left. by rewrite !capacity_upd_buf.
  - destruct (_ && _).
    + destruct (wait_idle fuel _) as [[] w2|w2|] eqn:Hw; try done.
      injection E as _ <-. apply wait_idle_Done in Hw as (_ & k & _ & ->).
      match goal with
      | |- context [Nat.iter k consume ?w0] =>
          pose proof (iter_consume_worker_only k w0) as Hwo
      end.
      rewrite capacity_upd_buf by done. rewrite (worker_only_capacity _ _ Hwo).
      destruct Hwo as []. simpl. rewrite wo_mLength0. simpl.
      split; [done|]. left. by rewrite capacity_upd_buf.
    + injection E as _ <-. simpl. split; [done|]. left. by rewrite !capacity_upd_buf.
Qed.

Lemma Unlock_staging w r w' :
  Unlock w = Done r w' ->
  mLength (buf w') = mLength (buf w) /\ capacity w' = capacity w.
Proof.
  unfold Unlock. destruct (bool_decide _); [by intros [= _ <-]|].
  destruct (negb _); intros [= _ <-]; simpl; (split; [done|]);
    rewrite capacity_upd_buf by done; [|done].
  rewrite capacity_send. by rewrite capacity_upd_buf.
Qed.

Lemma resetBufferData_staging data length w r w' :
  resetBufferData data length w = Done r w' ->
  mLength (buf w') = length
  /\ (((mLength (buf w) <? length)
       || (1 <? wrap32 (mUpdateInProgress (buf w) + 1))) = true ->
      capacity w' = Z.of_nat (Z.to_nat (align16 length)))
  /\ (((mLength (buf w) <? length)
       || (1 <? wrap32 (mUpdateInProgress (buf w) + 1))) = false ->
      capacity w' = capacity w).
Proof.
  unfold resetBufferData. simpl.
  destruct (_ <? _)%nat; [done|].
  destruct (write_bytes _ _ _) as [w4|] eqn:Hw; [|done].
  intros [= _ <-]. simpl. rewrite capacity_send.
  rewrite (capacity_write_bytes _ _ _ _ Hw).
  apply write_bytes_Some in Hw as (Hb & _). rewrite Hb. simpl.
  split; [done|]. rewrite capacity_upd_buf by done.
  destruct (_ || _); split; try done; intros _.
  rewrite capacity_send. apply capacity_reset.
Qed.

Lemma staging_covers_step o w w' :
  staging_safe o w -> returns o w w' -> staging_covers w -> staging_covers w'.
Proof.
  intros Hsafe [r Hrun] [Hlen Hcap]. unfold staging_covers.
  destruct o as [l u p|off l f fuel| |d l|]; simpl in *.
  - destruct (init_common l u p w) as [r0 w0| |] eqn:E; try done.
    injection Hrun as _ <-. destruct Hsafe as [Hl Hv].
    apply init_common_accepted in E as (_ & -> & ->); [|done].
    split; [done|]. pose proof (align16_nonneg l). lia.
  - destruct (Lock off l f fuel w) as [r0 w0| |] eqn:E; try done.
    injection Hrun as _ <-.
    apply Lock_staging in E as (-> & [->| ->]); [done|].
    split; [done|]. pose proof (align16_nonneg (mLength (buf w))). lia.
  - destruct (Unlock w) as [r0 w0| |] eqn:E; try done.
    injection Hrun as _ <-. by apply Unlock_staging in E as (-> & ->).
  - destruct (resetBufferData d l w) as [r0 w0| |] eqn:E; try done.
    injection Hrun as _ <-.
    apply resetBufferData_staging in E as (-> & Hgrow & Hkeep).
    split; [done|].
    destruct ((mLength (buf w) <? l) || (1 <? wrap32 (mUpdateInProgress (buf w) + 1)))
      eqn:Hb.
    + rewrite Hgrow by done. pose proof (align16_nonneg l). lia.
    + rewrite Hkeep by done. apply orb_false_iff in Hb as [Hb _].
      apply Z.ltb_ge in Hb.
      pose proof (align16_mono l (mLength (buf w))). lia.
  - injection Hrun as _ <-.
    pose proof (consume_worker_only w) as Hwo.
    rewrite (worker_only_capacity _ _ Hwo). destruct Hwo as []. by rewrite wo_mLength0.
Qed.

(** C3 (amended): start from a new buffer object and let [init_common],
    [Lock], [Unlock], [resetBufferData] and the worker thread run in any
    order, provided every length passed in is at most [0xFFFFFFF0] and
    every [init_common] passes its validation.  In every world reached,
    the staging block holds at least the logical length rounded up to
    a multiple of 16, which is at least the logical length. *)
Theorem staging_capacity_invariant (w : World) :
  reaches staging_safe new_world w ->
  align16 (mLength (buf w)) <= capacity w
  /\ align16 (mLength (buf w)) = 16 * ((mLength (buf w) + 15) / 16)
  /\ mLength (buf w) <= capacity w.
Proof.
  intros H.
  assert (Hc : staging_covers w).
  { induction H as [|w1 w2 o _ IH Hs Hr].
    - split; [split|]; vm_compute; discriminate.
    - by eapply staging_covers_step. }
  destruct Hc as [Hl Hc]. split; [done|]. split; [by apply align16_spec|].
  pose proof (align16_ge _ Hl). lia.
Qed.

Lemma staging_capacity_invariant_witness :
  reaches staging_safe new_world grown_sample
  /\ align16 (mLength (buf grown_sample)) <= capacity grown_sample
  /\ mLength (buf grown_sample) = 40 /\ capacity grown_sample = 48.
Proof.
  assert (H : reaches staging_safe new_world grown_sample).
  { apply (reaches_call _ _ (created 20 0) _ (OpResetBufferData (replicate 40 Byte.x2a) 40)).
    - apply (reaches_call _ _ new_world _ (OpInitCommon 20 0 D3DPOOL_DEFAULT)).
      + apply reaches_here.
      + split; [lia|]. intros Hv. inversion Hv.
      + exists (RBool true). vm_compute. reflexivity.
    - simpl. lia.
    - exists RVoid. vm_compute. reflexivity. }
  split; [exact H|].
  split; [exact (proj1 (staging_capacity_invariant grown_sample H))|].
  split; vm_compute; reflexivity.
Defined.

(** C3, as stated, fails after an [init_common] that is refused: it has
    stored the requested length before it checks the pool, and
    allocated nothing.  From a new buffer object, [init_common] with
    length 16 and the scratch pool returns [false] in a world whose
    logical length is 16 and whose staging capacity is 0. *)
Lemma refused_init_common_leaves_no_staging :
  reaches (fun o _ => well_typed o) new_world refused_sample
  /\ init_common 16 0 D3DPOOL_SCRATCH new_world = Done false refused_sample
  /\ mLength (buf refused_sample) = 16
  /\ align16 (mLength (buf refused_sample)) = 16
  /\ capacity refused_sample = 0
  /\ ~ align16 (mLength (buf refused_sample)) <= capacity refused_sample.
Proof.
  split.
  { apply (reaches_call _ _ new_world _ (OpInitCommon 16 0 D3DPOOL_SCRATCH)).
    - apply reaches_here.
    - split; unfold is_uint, UINT_MAX; lia.
    - exists (RBool false). reflexivity. }
  repeat split; try (vm_compute; reflexivity).
  vm_compute. intros H. by apply H.
Qed.

(** ** Growing a buffer with [resetBufferData] *)

Lemma write_bytes_ok a old bs w :
  heap w !! a = Some old -> (length bs <= length old)%nat ->
  write_bytes (Some a) bs w
  = Some (set_heap (<[a := (Some <$> bs) ++ drop (length bs) old]> (heap w)) w).
Proof.
  intros Ha Hl. unfold write_bytes. rewrite Ha.
  by destruct (Nat.leb_spec (length bs) (length old)); [|lia].
Qed.

Lemma capacity_nonneg w : 0 <= capacity w.
Proof.
  unfold capacity. destruct (mBufData (buf w)); [|done].
  destruct (heap w !! n); lia.
Qed.

(** What [resetBufferData] leaves behind when the new length is above
    the old logical length. *)
Lemma resetBufferData_grow data w :
  mLength (buf w) < Z.of_nat (length data) ->
  Z.of_nat (length data) <= 4294967280 ->
  exists a rest w1,
    resetBufferData data (Z.of_nat (length data)) w = Done tt w1
    /\ mBufData (buf w1) = Some a
    /\ heap w1 !! a = Some ((Some <$> data) ++ rest)
    /\ capacity w1 = align16 (Z.of_nat (length data))
    /\ mLength (buf w1) = Z.of_nat (length data)
    /\ mLock (buf w1) = mLock (buf w)
    /\ mUsage (buf w1) = mUsage (buf w).
Proof.
  intros Hgrow Hfit. set (len := Z.of_nat (length data)) in *.
  assert (Hal : len <= align16 len <= 4294967280) by (apply align16_ge; lia).
  unfold resetBufferData.
  set (w0 := upd_buf _ w).
  assert (Hb0 : mLength (buf w0) = mLength (buf w)) by done.
  rewrite Hb0. destruct (Z.ltb_spec (mLength (buf w)) len); [|lia].
  rewrite orb_true_l.
  set (w2 := send ResizeBufferCmd (reset_mBufData (align16 len) w0)).
  set (w3 := upd_buf (set_mLength len) w2).
  assert (Hl3 : mLength (buf w3) = len) by done.
  assert (Hd3 : mBufData (buf w3) = Some (fresh (dom (heap w0)))).
  { unfold w3, w2. cbn [upd_buf buf send mBufData set_mLength].
    by rewrite buf_reset_mBufData. }
  assert (Hh3 : heap w3 !! fresh (dom (heap w0))
                = Some (replicate (Z.to_nat (align16 len)) None)).
  { unfold w3, w2. cbn [upd_buf heap send]. apply heap_reset_mBufData. }
  rewrite Hl3, Hd3. unfold len at 1 2. rewrite Nat2Z.id.
  destruct (Nat.ltb_spec (length data) (length data)); [lia|].
  rewrite firstn_all.
  rewrite (write_bytes_ok _ _ _ _ Hh3) by (rewrite length_replicate; lia).
  eexists (fresh (dom (heap w0))), _, _. split; [reflexivity|].
  cbn [send buf set_heap heap]. split; [exact Hd3|].
  split; [apply lookup_insert_eq|].
  split.
  { unfold capacity. cbn [send buf set_heap heap]. rewrite Hd3, lookup_insert_eq.
    rewrite length_app, length_fmap, length_drop, length_replicate. lia. }
  split; [exact Hl3|].
  unfold w3, w2. cbn [upd_buf buf send mLock mUsage set_mLength].
  by rewrite buf_reset_mBufData.
Qed.

Lemma read_bytes_prefix a data rest offset n w :
  heap w !! a = Some ((Some <$> data) ++ rest) ->
  0 <= offset -> 0 <= n -> offset + n <= Z.of_nat (length data) ->
  read_bytes (mkPtr (Some a) offset) n w
  = Some (Some <$> take (Z.to_nat n) (drop (Z.to_nat offset) data)).
Proof.
  intros Ha Ho Hn Hfit. unfold read_bytes. cbn [base off]. rewrite Ha.
  destruct (Z.leb_spec 0 offset); [|lia].
  rewrite length_app, length_fmap.
  destruct (Z.leb_spec (offset + n) (Z.of_nat (length data + length rest))); [|lia].
  simpl. f_equal.
  rewrite drop_app_le by (rewrite length_fmap; lia).
  rewrite take_app_le by (rewrite length_drop, length_fmap; lia).
  by rewrite fmap_take, fmap_drop.
Qed.

(** C7 (amended): let the new content be longer than the staging
    capacity of a buffer whose staging block covers its logical length,
    and at most [0xFFFFFFF0] bytes long.  After [resetBufferData] the
    staging capacity is the new length rounded up to a multiple of 16,
    and the logical length is the new length.  If the buffer is
    unlocked and not write-only, a following [Lock] with the read-only
    flag and without the discard flag, over a sub-range of positive
    length or with offset 0 and length 0 for the whole buffer, however
    many commands the worker thread executes in between, returns
    [D3D_OK] with a pointer through which exactly the bytes of the new
    content in that range are read. *)
Theorem resetBufferData_grows
    (w : World) (data : list Byte.byte) (offset len flags : Z) (fuel n : nat) :
  capacity w < Z.of_nat (length data) ->
  mLength (buf w) <= capacity w ->
  Z.of_nat (length data) <= 4294967280 ->
  exists w1,
    resetBufferData data (Z.of_nat (length data)) w = Done tt w1
    /\ capacity w1 = align16 (Z.of_nat (length data))
    /\ align16 (Z.of_nat (length data)) = 16 * ((Z.of_nat (length data) + 15) / 16)
    /\ Z.of_nat (length data) <= capacity w1
    /\ mLength (buf w1) = Z.of_nat (length data)
    /\ (mLock (buf w) = LT_Unlocked ->
        flag_set (mUsage (buf w)) D3DUSAGE_WRITEONLY = false ->
        flag_set flags D3DLOCK_READONLY = true ->
        flag_set flags D3DLOCK_DISCARD = false ->
        (0 < len /\ 0 <= offset /\ offset + len <= Z.of_nat (length data))
        \/ (len = 0 /\ offset = 0) ->
        exists p w2,
          Lock offset len flags fuel (Nat.iter n consume w1) = Done (D3D_OK, Some p) w2
          /\ read_bytes p (if len =? 0 then Z.of_nat (length data) else len) w2
             = Some (Some <$> take (Z.to_nat (if len =? 0 then Z.of_nat (length data)
                                              else len))
                                   (drop (Z.to_nat offset) data))).
Proof.
  intros Hcap Hinv Hfit.
  pose proof (capacity_nonneg w) as Hc0.
  destruct (resetBufferData_grow data w) as (a & rest & w1 & E & Hd & Hh & Hc & Hl & HL & Hu);
    [lia|done|].
  pose proof (align16_ge (Z.of_nat (length data)) ltac:(lia)) as Hal.
  exists w1. split; [exact E|]. split; [exact Hc|].
  split; [apply align16_spec; lia|]. split; [lia|]. split; [exact Hl|].
  intros Hunl Hwo Hro Hnd Hrange.
  pose proof (iter_consume_worker_only n w1) as Hwk. destruct Hwk as [].
  set (wn := Nat.iter n consume w1) in *.
  set (L := if len =? 0 then Z.of_nat (length data) else len).
  assert (HLr : 0 < L /\ 0 <= offset /\ offset + L <= Z.of_nat (length data)).
  { unfold L. destruct Hrange as [?|[-> ->]]; [|simpl; lia].
    destruct (Z.eqb_spec len 0); lia. }
  assert (Hacc : Lock offset len flags fuel wn
                 = Lock_acquired offset (if len =? 0 then mLength (buf wn) else len) flags fuel
                     (upd_buf (set_mLock (if flag_set flags D3DLOCK_READONLY
                                          then LT_ReadOnly else LT_Full)) wn)).
  { apply Lock_accepted.
    - congruence.
    - destruct Hrange as [?|[_ ->]]; lia.
    - rewrite wo_mLength0, Hl. lia.
    - rewrite wo_mLength0, Hl. fold L. lia.
    - rewrite wo_mUsage0, Hu, Hwo. apply andb_false_r. }
  rewrite Hacc, wo_mLength0, Hl. fold L.
  unfold Lock_acquired. rewrite Hnd, Hro, andb_false_r.
  eexists _, _. split; [reflexivity|].
  cbn [upd_buf buf mBufData mLockedOffset set_mLockedLength set_mLockedOffset set_mLock].
  rewrite wo_mBufData0, Hd.
  apply (read_bytes_prefix a data rest); try lia.
  cbn [heap upd_buf]. rewrite wo_block0 by done. exact Hh.
Qed.

Lemma resetBufferData_grows_witness :
  exists w1,
    resetBufferData (replicate 40 Byte.x2a) 40 (created 20 0) = Done tt w1
    /\ capacity w1 = 48 /\ mLength (buf w1) = 40
    /\ exists p w2,
         Lock 8 4 D3DLOCK_READONLY 0 (Nat.iter 1 consume w1) = Done (D3D_OK, Some p) w2
         /\ read_bytes p 4 w2 = Some (replicate 4 (Some Byte.x2a)).
Proof.
  destruct (resetBufferData_grows (created 20 0) (replicate 40 Byte.x2a)
              8 4 D3DLOCK_READONLY 0 1)
    as (w1 & E & Hc & _ & _ & Hl & Hlock).
  - vm_compute. reflexivity.
  - vm_compute. discriminate.
  - vm_compute. discriminate.
  - exists w1. split; [exact E|]. split; [exact Hc|]. split; [exact Hl|].
    destruct Hlock as (p & w2 & E2 & Hr).
    + vm_compute. reflexivity.
    + vm_compute. reflexivity.
    + vm_compute. reflexivity.
    + vm_compute. reflexivity.
    + left. vm_compute. repeat split; discriminate.
    + exists p, w2. split; [exact E2|exact Hr].
Defined.

(** C7, as stated, fails on a write-only buffer: after
    [resetBufferData] has grown it from 16 to 32 bytes, [Lock] with the
    read-only flag returns [D3DERR_INVALIDCALL] and no pointer. *)
Lemma readonly_Lock_after_reset_refused :
  capacity (created 16 D3DUSAGE_WRITEONLY) < 32
  /\ resetBufferData (replicate 32 Byte.x2a) 32 (created 16 D3DUSAGE_WRITEONLY)
     = Done tt writeonly_sample
  /\ mLock (buf writeonly_sample) = LT_Unlocked
  /\ Lock 0 32 D3DLOCK_READONLY 4 writeonly_sample
     = Done (D3DERR_INVALIDCALL, None) writeonly_sample
  /\ D3DERR_INVALIDCALL <> D3D_OK.
Proof.
  split; [vm_compute; reflexivity|].
  split; [vm_compute; reflexivity|].
  split; [vm_compute; reflexivity|].
  split; [vm_compute; reflexivity|discriminate].
Qed.

(** ** What holds in every world the calls can reach *)

Lemma worker_only_staging_live w w' :
  worker_only w w' -> staging_live w -> staging_live w'.
Proof.
  intros [] Hl a Ha. rewrite wo_mBufData0 in Ha.
  rewrite wo_block0 by done. by apply Hl.
Qed.

Lemma staging_live_reset n w : staging_live (reset_mBufData n w).
Proof.
  intros a. rewrite buf_reset_mBufData. cbn [mBufData set_mBufData].
  intros [= <-]. by rewrite heap_reset_mBufData.
Qed.

Lemma staging_live_write_bytes bs w w' :
  write_bytes (mBufData (buf w)) bs w = Some w' -> staging_live w'.
Proof.
  intros H. apply write_bytes_Some in H as (Hb & _ & _ & a & old & Hp & _ & _ & Hh).
  intros a'. rewrite Hb, Hp. intros [= <-]. by rewrite Hh, lookup_insert_eq.
Qed.

Lemma staging_live_ext w w' :
  mBufData (buf w') = mBufData (buf w) -> heap w' = heap w ->
  staging_live w -> staging_live w'.
Proof. intros Hb Hh Hl a. rewrite Hb, Hh. apply Hl. Qed.

Lemma counter_consistent_ext w w' :
  mUpdateInProgress (buf w') = mUpdateInProgress (buf w) -> queue w' = queue w ->
  counter_consistent w -> counter_consistent w'.
Proof. intros Hb Hq. unfold counter_consistent. by rewrite Hb, Hq. Qed.

Lemma iter_consume_counter_consistent k w :
  counter_consistent w -> counter_consistent (Nat.iter k consume w).
Proof.
  intros H. induction k as [|k IH]; [done|]. simpl. by apply consume_counter_consistent.
Qed.

(** [sendSync] of the initialise command returns with the queue drained
    and the counter reset. *)
Lemma sendSync_init d w :
  queue (sendSync (InitBufferObjectCmd d) w) = []
  /\ mUpdateInProgress (buf (sendSync (InitBufferObjectCmd d) w)) = 0.
Proof.
  unfold sendSync.
  assert (Hlen : length (queue (send (InitBufferObjectCmd d) w)) = S (length (queue w))).
  { simpl. rewrite length_app. simpl. lia. }
  rewrite Hlen, Nat.iter_succ.
  set (wq := Nat.iter (length (queue w)) consume (send (InitBufferObjectCmd d) w)).
  assert (Hq : queue wq = [InitBufferObjectCmd d]).
  { unfold wq. rewrite queue_iter_consume. simpl. by rewrite drop_app_length. }
  unfold consume. rewrite Hq. rewrite queue_drop_ref, buf_drop_ref. done.
Qed.

Lemma counter_consistent_step o w w' :
  returns o w w' -> counter_consistent w -> counter_consistent w'.
Proof.
  intros [r Hrun] Hc. destruct o as [l u p|off l f fuel| |d l|]; simpl in Hrun.
  - destruct (init_common l u p w) as [r0 w0| |] eqn:E; try done.
    injection Hrun as _ <-. destruct r0.
    + unfold init_common in E.
      destruct (bool_decide _); [done|]. destruct (_ && _); [done|].
      destruct (write_bytes _ _ _) as [w3|]; [|done]. injection E as <-.
      match goal with
      | |- context [sendSync (InitBufferObjectCmd ?d) ?w0] =>
          destruct (sendSync_init d w0) as [Hq Hz]
      end.
      split; [by rewrite Hq|]. by rewrite Hz, Hq.
    + apply init_common_false in E as [_ ->]. by apply (counter_consistent_ext w).
  - destruct (Lock off l f fuel w) as [r0 w0| |] eqn:E; try done.
    injection Hrun as _ <-. apply Lock_Done in E as [[_ ->]|[_ E]]; [done|].
    unfold Lock_acquired in E. destruct (flag_set f D3DLOCK_DISCARD).
    + destruct (0 <? _); injection E as _ <-;
        apply (counter_consistent_ext w); simpl;
        rewrite ?buf_reset_mBufData, ?queue_reset_mBufData; done.
    + destruct (_ && _).
      * destruct (wait_idle fuel _) as [[] w2|w2|] eqn:Hw; try done.
        injection E as _ <-. apply wait_idle_Done in Hw as (_ & k & _ & ->).
        eapply counter_consistent_ext; [| |apply (iter_consume_counter_consistent k);
          apply (counter_consistent_ext w); [| |exact Hc]]; done.
      * injection E as _ <-. by apply (counter_consistent_ext w).
  - unfold Unlock in Hrun. destruct (bool_decide _); [by injection Hrun as _ <-|].
    destruct (negb _); injection Hrun as _ <-; simpl.
    + destruct Hc as [Hf Hc]. split; simpl.
      * apply Forall_app. split; [done|by repeat constructor].
      * rewrite count_loads_app, count_loads_cons. change (count_loads []) with 0.
        rewrite Hc, wrap32_succ. simpl. f_equal; lia.
    + by apply (counter_consistent_ext w).
  - unfold resetBufferData in Hrun. destruct (_ <? _)%nat; [done|].
    destruct (write_bytes _ _ _) as [w4|] eqn:Hw; [|done].
    injection Hrun as _ <-. apply write_bytes_Some in Hw as (Hb & Hq & _).
    destruct Hc as [Hf Hc]. split; simpl.
    + rewrite Hq. apply Forall_app. split; [|by repeat constructor].
      destruct (_ || _); simpl; rewrite ?queue_reset_mBufData; simpl;
        [apply Forall_app; split; [done|by repeat constructor]|done].
    + rewrite Hb, Hq. simpl.
      assert (Hcnt : forall q, count_loads (q ++ [LoadBufferDataCmd 0 l
                        (mBufData (buf w4))]) = count_loads q + 1).
      { intros q. rewrite count_loads_app, count_loads_cons. done. }
      destruct (_ || _); simpl; rewrite ?buf_reset_mBufData, ?queue_reset_mBufData;
        simpl; rewrite Hb in Hcnt; simpl in Hcnt.
      * rewrite count_loads_app, count_loads_app, !count_loads_cons. simpl.
        change (count_loads []) with 0. rewrite Hc, wrap32_succ. f_equal. lia.
      * rewrite count_loads_app, !count_loads_cons. simpl.
        change (count_loads []) with 0. rewrite Hc, wrap32_succ. f_equal.
  - injection Hrun as _ <-. by apply consume_counter_consistent.
Qed.

Lemma staging_live_step o w w' :
  returns o w w' -> staging_live w -> staging_live w'.
Proof.
  intros [r Hrun] Hl. destruct o as [l u p|off l f fuel| |d l|]; simpl in Hrun.
  - destruct (init_common l u p w) as [r0 w0| |] eqn:E; try done.
    injection Hrun as _ <-. destruct r0.
    + unfold init_common in E.
      destruct (bool_decide _); [done|]. destruct (_ && _); [done|].
      destruct (write_bytes _ _ _) as [w3|] eqn:Hw; [|done]. injection E as <-.
      apply staging_live_write_bytes in Hw.
      eapply worker_only_staging_live; [apply sendSync_worker_only|].
      by apply (staging_live_ext w3).
    + apply init_common_false in E as [_ ->]. by apply (staging_live_ext w).
  - destruct (Lock off l f fuel w) as [r0 w0| |] eqn:E; try done.
    injection Hrun as _ <-. apply Lock_Done in E as [[_ ->]|[_ E]]; [done|].
    unfold Lock_acquired in E. destruct (flag_set f D3DLOCK_DISCARD).
    + destruct (0 <? _); injection E as _ <-.
      * eapply staging_live_ext; [| |apply staging_live_reset]; done.
      * by apply (staging_live_ext w).
    + destruct (_ && _).
      * destruct (wait_idle fuel _) as [[] w2|w2|] eqn:Hw; try done.
        injection E as _ <-. apply wait_idle_Done in Hw as (_ & k & _ & ->).
        eapply staging_live_ext;
          [| |eapply worker_only_staging_live;
              [apply (iter_consume_worker_only k)|
               apply (staging_live_ext w); [| |exact Hl]]]; done.
      * injection E as _ <-. by apply (staging_live_ext w).
  - unfold Unlock in Hrun. destruct (bool_decide _); [by injection Hrun as _ <-|].
    destruct (negb _); injection Hrun as _ <-; by apply (staging_live_ext w).
  - unfold resetBufferData in Hrun. destruct (_ <? _)%nat; [done|].
    destruct (write_bytes _ _ _) as [w4|] eqn:Hw; [|done].
    injection Hrun as _ <-. apply staging_live_write_bytes in Hw.
    by apply (staging_live_ext w4).
  - injection Hrun as _ <-.
    eapply worker_only_staging_live; [apply consume_worker_only|done].
Qed.

(** Whatever the calls and their arguments, a world reached from a new
    buffer object has a counter that agrees with its queue and a live
    staging block. *)
Lemma reachable_invariants allowed w :
  reaches allowed new_world w -> counter_consistent w /\ staging_live w.
Proof.
  induction 1 as [|w1 w2 o _ [IHc IHl] _ Hr].
  - split; [by split|]. by intros a.
  - split; [by eapply counter_consistent_step|by eapply staging_live_step].
Qed.

Lemma Unlock_twice w r w' :
  Unlock w = Done r w' -> Unlock w' = Done D3DERR_INVALIDCALL w'.
Proof.
  intros H. apply Unlock_unlocked. unfold Unlock in H.
  destruct (bool_decide_reflect (mLock (buf w) = LT_Unlocked)) as [HL|HL];
    by injection H as _ <-.
Qed.

(** * Further properties of the buffer object *)

(** ** The locked range of an unlocked buffer *)

Lemma range_cleared_step o w w' :
  returns o w w' -> range_cleared w -> range_cleared w'.
Proof.
  intros [r Hrun] Hc. unfold range_cleared in *.
  destruct o as [l u p|off l f fuel| |d l|]; simpl in Hrun.
  - destruct (init_common l u p w) as [r0 w0| |] eqn:E; try done.
    injection Hrun as _ <-. apply init_common_lock in E as (-> & -> & ->). done.
  - destruct (Lock off l f fuel w) as [r0 w0| |] eqn:E; try done.
    injection Hrun as _ <-. apply Lock_Done in E as [[_ ->]|[_ E]]; [done|].
    apply Lock_acquired_Done in E as (_ & _ & _ & Hl & _).
    rewrite Hl. simpl. by destruct (flag_set f D3DLOCK_READONLY).
  - unfold Unlock in Hrun.
    destruct (bool_decide _); [by injection Hrun as _ <-|].
    by destruct (negb _); injection Hrun as _ <-.
  - destruct (resetBufferData d l w) as [r0 w0| |] eqn:E; try done.
    injection Hrun as _ <-. apply resetBufferData_lock in E as (-> & -> & ->). done.
  - injection Hrun as _ <-. destruct (consume_worker_only w) as [].
    by rewrite wo_mLock0, wo_mLockedOffset0, wo_mLockedLength0.
Qed.

(** X1: whatever calls are made on a new buffer object, with whatever
    arguments and however the worker thread is scheduled between them,
    the in-flight counter equals (as a 32-bit value) the number of
    upload commands still queued, no initialise command is left
    pending, and the locked offset and length are 0 whenever the
    buffer is unlocked. *)
Theorem counter_counts_queued_uploads (allowed : Op -> World -> Prop) (w : World) :
  reaches allowed new_world w ->
  mUpdateInProgress (buf w) = wrap32 (count_loads (queue w))
  /\ Forall (fun c => is_init c = false) (queue w)
  /\ (mLock (buf w) = LT_Unlocked ->
      mLockedOffset (buf w) = 0 /\ mLockedLength (buf w) = 0).
Proof.
  intros H. destruct (reachable_invariants allowed w H) as [[Hi Hc] _].
  split; [done|]. split; [done|]. clear Hi Hc.
  change (range_cleared w).
  induction H as [|w1 w2 o H1 IH _ Hr]; [done|].
  by eapply range_cleared_step.
Qed.

Lemma counter_counts_queued_uploads_witness :
  reaches (fun _ _ => True) new_world in_flight_sample
  /\ mUpdateInProgress (buf in_flight_sample) = 1
  /\ count_loads (queue in_flight_sample) = 1.
Proof.
  assert (H : reaches (fun _ _ => True) new_world in_flight_sample).
  { apply (reaches_call _ _ locked_sample _ OpUnlock); [|done|].
    - apply (reaches_call _ _ (created 20 0) _ (OpLock 4 8 0 0)); [|done|].
      + apply (reaches_call _ _ new_world _ (OpInitCommon 20 0 D3DPOOL_DEFAULT));
          [apply reaches_here|done|].
        exists (RBool true). vm_compute. reflexivity.
      + exists (RLock D3D_OK (Some (mkPtr (Some 0%nat) 4))). vm_compute. reflexivity.
    - exists (RHresult D3D_OK). vm_compute. reflexivity. }
  split; [exact H|].
  pose proof (proj1 (counter_counts_queued_uploads _ _ H)) as Hc.
  split; [|vm_compute; reflexivity].
  rewrite Hc. vm_compute. reflexivity.
Defined.

(** ** Staging blocks and the pointers to them *)

Lemma use_count_referenced a w : (0 < use_count a w)%nat <-> referenced a w.
Proof.
  unfold use_count, referenced, holds. split.
  - intros H. destruct (bool_decide_reflect (mBufData (buf w) = Some a)); [by left|].
    right. simpl in H.
    destruct (filter _ (queue w)) as [|c q] eqn:E; [simpl in H; lia|].
    assert (Hc : c ∈ filter (fun c => bool_decide (cmd_data c = Some a) = true) (queue w))
      by (rewrite E; left).
    apply list_elem_of_filter in Hc as [Hh Hin].
    exists c. split; [done|]. by apply bool_decide_eq_true_1 in Hh.
  - intros [H|(c & Hin & Hc)].
    + rewrite bool_decide_eq_true_2 by done. lia.
    + assert (Hf : c ∈ filter (fun c => bool_decide (cmd_data c = Some a) = true) (queue w)).
      { apply list_elem_of_filter. split; [|done]. by apply bool_decide_eq_true_2. }
      destruct (filter _ (queue w)); [by apply elem_of_nil in Hf|simpl; lia].
Qed.


Lemma referenced_drop_ref p w a : referenced a (drop_ref p w) <-> referenced a w.
Proof. unfold referenced. by rewrite buf_drop_ref, queue_drop_ref. Qed.

Lemma heap_exact_drop_ref p w : exact_but p w -> heap_exact (drop_ref p w).
Proof.
  intros H a. rewrite referenced_drop_ref. specialize (H a).
  destruct p as [a0|]; simpl.
  2:{ rewrite H. split; [intros [?|?]; done|by left]. }
  destruct (Nat.eqb_spec (use_count a0 w) 0) as [E|E]; simpl.
  - assert (Hn : ~ referenced a0 w).
    { intros Hr. apply use_count_referenced in Hr. lia. }
    destruct (decide (a0 = a)) as [->|Hne].
    + rewrite lookup_delete_eq. split; [by intros [? ?]|done].
    + rewrite lookup_delete_ne by done. rewrite H.
      split; [intros [?|[= ?]]; done|by left].
  - assert (Hr : referenced a0 w) by (apply use_count_referenced; lia).
    rewrite H. split; [intros [?|[= <-]]; done|by left].
Qed.

Lemma heap_exact_reset n w : heap_exact w -> heap_exact (reset_mBufData n w).
Proof.
  intros H. unfold reset_mBufData. cbn [DataAllocator]. apply heap_exact_drop_ref.
  intros a. unfold referenced. cbn [upd_buf set_heap buf heap queue mBufData set_mBufData].
  specialize (H a). unfold referenced in H.
  destruct (decide (fresh (dom (heap w)) = a)) as [<-|Hne].
  - rewrite lookup_insert_eq. split; [by left; left|by eexists].
  - rewrite lookup_insert_ne by done. rewrite H.
    split.
    + intros [?|?]; [by right|by left; right].
    + intros [[[= ?]|?]|?]; [done|by right|by left].
Qed.

Lemma heap_exact_ext w w' :
  heap w' = heap w -> mBufData (buf w') = mBufData (buf w) -> queue w' = queue w ->
  heap_exact w -> heap_exact w'.
Proof.
  intros Hh Hb Hq H a. unfold referenced. rewrite Hh, Hb, Hq. apply H.
Qed.

Lemma heap_exact_send c w :
  cmd_data c = None \/ cmd_data c = mBufData (buf w) ->
  heap_exact w -> heap_exact (send c w).
Proof.
  intros Hc H a. specialize (H a). unfold referenced in *. cbn [send heap buf queue].
  rewrite H. split.
  - intros [?|(c' & Hin & ?)]; [by left|]. right. exists c'.
    split; [|done]. apply elem_of_app. by left.
  - intros [?|(c' & Hin & Hd)]; [by left|].
    apply elem_of_app in Hin as [Hin|Hin]; [right; by exists c'|].
    apply list_elem_of_singleton in Hin as ->.
    destruct Hc as [Hc|Hc]; [congruence|]. left. congruence.
Qed.

Lemma heap_exact_write_bytes p bs w w' :
  write_bytes p bs w = Some w' -> heap_exact w -> heap_exact w'.
Proof.
  intros Hw H a. apply write_bytes_Some in Hw as (Hb & Hq & _ & a0 & old & _ & Ha & _ & Hh).
  unfold referenced. rewrite Hb, Hq, Hh. rewrite <- (H a).
  destruct (decide (a0 = a)) as [->|Hne].
  - rewrite lookup_insert_eq, Ha. split; by eexists.
  - by rewrite lookup_insert_ne.
Qed.

Lemma heap_exact_consume w : heap_exact w -> heap_exact (consume w).
Proof.
  intros H. unfold consume. destruct (queue w) as [|c q] eqn:Hq; [done|].
  apply heap_exact_drop_ref. intros a. specialize (H a).
  unfold referenced in *. cbn [set_queue heap buf queue].
  rewrite heap_execute. destruct (buf_execute_fields c w) as (_&_&_&_&_&Hd&_).
  rewrite Hd, H, Hq. split.
  - intros [?|(c' & Hin & ?)]; [by left; left|].
    apply elem_of_cons in Hin as [->|Hin]; [by right|]. left. right. by exists c'.
  - intros [[?|(c' & Hin & ?)]|?]; [by left| |].
    + right. exists c'. split; [|done]. by right.
    + right. exists c. split; [|done]. by left.
Qed.

Lemma heap_exact_iter_consume k w : heap_exact w -> heap_exact (Nat.iter k consume w).
Proof.
  intros H. induction k as [|k IH]; [done|]. simpl. by apply heap_exact_consume.
Qed.

Lemma heap_exact_upd_buf f w :
  mBufData (f (buf w)) = mBufData (buf w) -> heap_exact w -> heap_exact (upd_buf f w).
Proof. intros Hf. by apply heap_exact_ext. Qed.

Lemma heap_exact_step o w w' :
  returns o w w' -> heap_exact w -> heap_exact w'.
Proof.
  intros [r Hrun] H. destruct o as [l u p|off l f fuel| |d l|]; simpl in Hrun.
  - destruct (init_common l u p w) as [r0 w0| |] eqn:E; try done.
    injection Hrun as _ <-. unfold init_common in E.
    destruct (bool_decide _); [injection E as _ <-; by apply heap_exact_upd_buf|].
    destruct (_ && _); [injection E as _ <-; by apply heap_exact_upd_buf|].
    destruct (write_bytes _ _ _) as [w3|] eqn:Hw; [|done]. injection E as _ <-.
    apply heap_exact_write_bytes in Hw;
      [|apply heap_exact_reset; by apply heap_exact_upd_buf].
    unfold sendSync. apply heap_exact_iter_consume.
    apply heap_exact_send; [by right|]. by apply heap_exact_upd_buf.
  - destruct (Lock off l f fuel w) as [r0 w0| |] eqn:E; try done.
    injection Hrun as _ <-. apply Lock_Done in E as [[_ ->]|[_ E]]; [done|].
    unfold Lock_acquired in E. destruct (flag_set f D3DLOCK_DISCARD).
    + destruct (0 <? _); injection E as _ <-; apply heap_exact_upd_buf; try done.
      apply heap_exact_reset. by apply heap_exact_upd_buf.
    + destruct (_ && _).
      * destruct (wait_idle fuel _) as [[] w2|w2|] eqn:Hw; try done.
        injection E as _ <-. apply wait_idle_Done in Hw as (_ & k & _ & ->).
        apply heap_exact_upd_buf; [done|]. apply heap_exact_iter_consume.
        by apply heap_exact_upd_buf.
      * injection E as _ <-. apply heap_exact_upd_buf; [done|].
        by apply heap_exact_upd_buf.
  - unfold Unlock in Hrun. destruct (bool_decide _); [by injection Hrun as _ <-|].
    destruct (negb _); injection Hrun as _ <-; apply heap_exact_upd_buf; try done.
    apply heap_exact_send; [by right|]. by apply heap_exact_upd_buf.
  - unfold resetBufferData in Hrun. destruct (_ <? _)%nat; [done|].
    destruct (write_bytes _ _ _) as [w4|] eqn:Hw; [|done].
    injection Hrun as _ <-. apply heap_exact_send; [by right|].
    eapply heap_exact_write_bytes; [exact Hw|].
    apply heap_exact_upd_buf; [done|].
    destruct (_ || _).
    + apply heap_exact_send; [by left|]. apply heap_exact_reset.
      by apply heap_exact_upd_buf.
    + by apply heap_exact_upd_buf.
  - injection Hrun as _ <-. by apply heap_exact_consume.
Qed.

Lemma heap_exact_new_world : heap_exact new_world.
Proof.
  intros a. unfold referenced. simpl. rewrite lookup_empty. split.
  - by intros [? ?].
  - intros [?|(c & Hin & _)]; [done|]. by apply elem_of_nil in Hin.
Qed.

Lemma reachable_heap_exact allowed w : reaches allowed new_world w -> heap_exact w.
Proof.
  induction 1 as [|w1 w2 o _ IH _ Hr]; [apply heap_exact_new_world|].
  by eapply heap_exact_step.
Qed.

(** X2: in every world the calls can reach from a new buffer object,
    the staging blocks in the heap are exactly those that [mBufData] or
    the [mData] of a queued command points to.  So no pointer dangles
    (a reallocation never frees a block a queued upload still reads)
    and no block leaks. *)
Theorem staging_blocks_exactly_referenced
    (allowed : Op -> World -> Prop) (w : World) (a : nat) :
  reaches allowed new_world w ->
  (is_Some (heap w !! a)
   <-> mBufData (buf w) = Some a \/ exists c, c ∈ queue w /\ cmd_data c = Some a)
  /\ (is_Some (heap w !! a) <-> (0 < use_count a w)%nat).
Proof.
  intros H. pose proof (reachable_heap_exact allowed w H a) as He.
  split; [exact He|]. by rewrite use_count_referenced.
Qed.

Lemma staging_blocks_exactly_referenced_witness :
  reaches (fun _ _ => True) new_world in_flight_sample
  /\ is_Some (heap in_flight_sample !! 0%nat)
  /\ (0 < use_count 0 in_flight_sample)%nat.
Proof.
  assert (H : reaches (fun _ _ => True) new_world in_flight_sample).
  { apply (reaches_call _ _ locked_sample _ OpUnlock); [|done|].
    - apply (reaches_call _ _ (created 20 0) _ (OpLock 4 8 0 0)); [|done|].
      + apply (reaches_call _ _ new_world _ (OpInitCommon 20 0 D3DPOOL_DEFAULT));
          [apply reaches_here|done|].
        exists (RBool true). vm_compute. reflexivity.
      + exists (RLock D3D_OK (Some (mkPtr (Some 0%nat) 4))). vm_compute. reflexivity.
    - exists (RHresult D3D_OK). vm_compute. reflexivity. }
  split; [exact H|].
  assert (Hl : is_Some (heap in_flight_sample !! 0%nat)) by (vm_compute; eexists; reflexivity).
  split; [exact Hl|].
  exact (proj1 (proj2 (staging_blocks_exactly_referenced _ _ 0%nat H)) Hl).
Defined.

(** ** The destructor and the heap *)

Lemma heap_exact_dtor fuel w r w' :
  D3DGLBufferObject_dtor fuel w = Done r w' -> heap_exact w -> heap_exact w'.
Proof.
  unfold D3DGLBufferObject_dtor. intros E H.
  destruct (wait_idle fuel _) as [[] w2|w2|] eqn:Hw; try done.
  injection E as _ <-. apply wait_idle_Done in Hw as (_ & k & _ & ->).
  apply heap_exact_drop_ref.
  match goal with
  | |- exact_but _ (upd_buf _ (upd_buf _ (Nat.iter k consume ?w0))) =>
      assert (H0 : heap_exact (Nat.iter k consume w0))
  end.
  { apply heap_exact_iter_consume. destruct (negb _); [|done].
    apply heap_exact_send; [by left|done]. }
  intros a. specialize (H0 a). unfold referenced in *.
  cbn [upd_buf buf heap queue mBufData set_mBufData set_mBufferId].
  rewrite H0. split.
  - intros [?|?]; [by right|by left; right].
  - intros [[?|?]|?]; [done|by right|by left].
Qed.

(** X3: after the destructor of a reachable buffer object has returned,
    the buffer object holds no block, and the only staging blocks left
    in the heap are those a still queued command points to; with the
    queue drained the heap is empty. *)
Theorem destructor_leaks_nothing
    (allowed : Op -> World -> Prop) (w w' : World) (fuel : nat) (r : unit) :
  reaches allowed new_world w ->
  D3DGLBufferObject_dtor fuel w = Done r w' ->
  mBufData (buf w') = None
  /\ (forall a, is_Some (heap w' !! a)
                <-> exists c, c ∈ queue w' /\ cmd_data c = Some a)
  /\ (queue w' = [] -> heap w' = ∅).
Proof.
  intros Hr E. pose proof (heap_exact_dtor _ _ _ _ E (reachable_heap_exact _ _ Hr)) as He.
  assert (Hb : mBufData (buf w') = None).
  { unfold D3DGLBufferObject_dtor in E.
    destruct (wait_idle fuel _) as [[] w2|w2|]; try done.
    injection E as _ <-. by rewrite buf_drop_ref. }
  split; [exact Hb|]. split.
  - intros a. rewrite (He a). unfold referenced. rewrite Hb.
    split; [by intros [?|?]|by right].
  - intros Hq. apply map_eq. intros a. rewrite lookup_empty.
    apply eq_None_not_Some. rewrite (He a). unfold referenced. rewrite Hb, Hq.
    intros [?|(c & Hin & _)]; [done|]. by apply elem_of_nil in Hin.
Qed.

Lemma destructor_leaks_nothing_witness :
  reaches (fun _ _ => True) new_world in_flight_sample
  /\ exists w',
       D3DGLBufferObject_dtor 2 in_flight_sample = Done tt w'
       /\ mBufData (buf w') = None.
Proof.
  assert (H : reaches (fun _ _ => True) new_world in_flight_sample).
  { apply (reaches_call _ _ locked_sample _ OpUnlock); [|done|].
    - apply (reaches_call _ _ (created 20 0) _ (OpLock 4 8 0 0)); [|done|].
      + apply (reaches_call _ _ new_world _ (OpInitCommon 20 0 D3DPOOL_DEFAULT));
          [apply reaches_here|done|].
        exists (RBool true). vm_compute. reflexivity.
      + exists (RLock D3D_OK (Some (mkPtr (Some 0%nat) 4))). vm_compute. reflexivity.
    - exists (RHresult D3D_OK). vm_compute. reflexivity. }
  split; [exact H|].
  eexists. assert (E : D3DGLBufferObject_dtor 2 in_flight_sample
                       = Done tt (world_of (D3DGLBufferObject_dtor 2 in_flight_sample)))
    by (vm_compute; reflexivity).
  split; [exact E|].
  exact (proj1 (destructor_leaks_nothing _ _ _ _ _ H E)).
Defined.

(** ** A successful [init_common] *)

Lemma gl_drop_ref p w :
  gl_names (drop_ref p w) = gl_names w /\ gl_calls (drop_ref p w) = gl_calls w.
Proof. destruct p as [a|]; simpl; [|done]. by destruct (_ =? _)%nat. Qed.

(** What the initialise command has done when [sendSync] returns: the
    handle is a new, non-zero buffer name, and the last two calls on the
    context generated it and created its data store. *)
Lemma sendSync_init_handle d w w' :
  w' = sendSync (InitBufferObjectCmd d) w ->
  mBufferId (buf w') <> 0
  /\ mBufferId (buf w') ∈ gl_names w'
  /\ exists earlier,
       gl_calls w'
       = earlier ++ [glGenBuffers (mBufferId (buf w'));
                     glNamedBufferDataEXT (mBufferId (buf w'))
                       (align16 (mLength (buf w))) (mkPtr d 0)
                       (if flag_set (mUsage (buf w)) D3DUSAGE_DYNAMIC
                        then GL_DYNAMIC_DRAW else GL_STREAM_DRAW)].
Proof.
  intros ->. unfold sendSync.
  assert (Hlen : length (queue (send (InitBufferObjectCmd d) w)) = S (length (queue w))).
  { simpl. rewrite length_app. simpl. lia. }
  rewrite Hlen, Nat.iter_succ.
  set (wq := Nat.iter (length (queue w)) consume (send (InitBufferObjectCmd d) w)).
  assert (Hq : queue wq = [InitBufferObjectCmd d]).
  { unfold wq. rewrite queue_iter_consume. simpl. by rewrite drop_app_length. }
  destruct (iter_consume_worker_only (length (queue w)) (send (InitBufferObjectCmd d) w))
    as [].
  fold wq in wo_mLength0, wo_mUsage0.
  unfold consume. rewrite Hq. cbv beta iota zeta. cbn [cmd_data].
  rewrite buf_drop_ref.
  destruct (gl_drop_ref d (set_queue [] (execute (InitBufferObjectCmd d) wq))) as [-> ->].
  cbn [execute initGL set_queue buf gl_names gl_calls mBufferId
       set_mUpdateInProgress set_mBufferId].
  rewrite wo_mLength0, wo_mUsage0. cbn [send buf].
  split; [|split].
  - intros E. pose proof (is_fresh ({[0]} ∪ gl_names wq)) as Hf.
    rewrite E in Hf. apply Hf. apply elem_of_union. left. by apply elem_of_singleton.
  - apply elem_of_union. left. by apply elem_of_singleton.
  - by exists (gl_calls wq).
Qed.

Lemma init_common_succeeds (length usage : Z) (pool : D3DPOOL) (w : World) :
  pool <> D3DPOOL_SCRATCH ->
  (pool = D3DPOOL_MANAGED -> flag_set usage D3DUSAGE_DYNAMIC = false) ->
  exists w' a earlier,
    init_common length usage pool w = Done true w'
    /\ mLength (buf w') = length /\ mUsage (buf w') = usage /\ mPool (buf w') = pool
    /\ mBufData (buf w') = Some a
    /\ heap w !! a = None
    /\ heap w' !! a = Some (replicate (Z.to_nat (align16 length)) (Some Byte.x00))
    /\ mUpdateInProgress (buf w') = 0
    /\ queue w' = []
    /\ submitted w' = submitted w ++ [InitBufferObjectCmd (Some a)]
    /\ mBufferId (buf w') <> 0
    /\ gl_calls w'
       = earlier ++ [glGenBuffers (mBufferId (buf w'));
                     glNamedBufferDataEXT (mBufferId (buf w')) (align16 length)
                       (mkPtr (Some a) 0)
                       (if flag_set usage D3DUSAGE_DYNAMIC
                        then GL_DYNAMIC_DRAW else GL_STREAM_DRAW)].
Proof.
  intros Hs Hm. unfold init_common.
  set (w1 := upd_buf _ w).
  assert (Hp1 : mPool (buf w1) = pool) by done.
  assert (Hu1 : mUsage (buf w1) = usage) by done.
  assert (Hl1 : mLength (buf w1) = length) by done.
  rewrite Hp1, Hu1, Hl1.
  rewrite bool_decide_eq_false_2 by done.
  assert (Hmd : bool_decide (pool = D3DPOOL_MANAGED) && flag_set usage D3DUSAGE_DYNAMIC = false).
  { destruct (bool_decide_reflect (pool = D3DPOOL_MANAGED)); [|done]. by rewrite Hm. }
  rewrite Hmd.
  set (n := align16 length).
  set (a := fresh (dom (heap w))).
  assert (Hd2 : mBufData (buf (reset_mBufData n w1)) = Some a)
    by (by rewrite buf_reset_mBufData).
  assert (Hh2 : heap (reset_mBufData n w1) !! a = Some (replicate (Z.to_nat n) None))
    by apply (heap_reset_mBufData n w1).
  rewrite Hd2.
  rewrite (write_bytes_ok _ _ _ _ Hh2) by (by rewrite !length_replicate).
  set (w3 := set_heap _ (reset_mBufData n w1)).
  set (w4 := upd_buf (set_mUpdateInProgress 1) w3).
  assert (Hd4 : mBufData (buf w4) = Some a) by exact Hd2.
  assert (Hb4 : mLength (buf w4) = length /\ mUsage (buf w4) = usage
                /\ mPool (buf w4) = pool).
  { unfold w4, w3. cbn [upd_buf set_heap buf mLength mUsage mPool set_mUpdateInProgress].
    by rewrite buf_reset_mBufData. }
  assert (Hh4 : heap w4 !! a = Some (replicate (Z.to_nat n) (Some Byte.x00))).
  { unfold w4, w3. cbn [upd_buf set_heap heap]. rewrite lookup_insert_eq.
    rewrite length_replicate, fmap_replicate.
    rewrite drop_ge by (by rewrite length_replicate). by rewrite app_nil_r. }
  assert (Hs4 : submitted w4 = submitted w).
  { unfold w4, w3. cbn [upd_buf set_heap submitted]. by rewrite submitted_reset_mBufData. }
  rewrite Hd4.
  destruct (sendSync_init (Some a) w4) as [Hq Hz].
  destruct (sendSync_init_handle (Some a) w4 _ eq_refl) as (Hid & _ & earlier & Hgl).
  destruct (sendSync_worker_only (InitBufferObjectCmd (Some a)) w4) as [].
  destruct Hb4 as (Hl4 & Hu4 & Hp4).
  exists (sendSync (InitBufferObjectCmd (Some a)) w4), a, earlier.
  split; [done|].
  rewrite wo_mLength0, wo_mUsage0, wo_mPool0, wo_mBufData0, wo_submitted0.
  rewrite (wo_block0 a) by done. cbn [send buf heap submitted].
  rewrite Hs4. repeat split; try done.
  - apply fresh_not_live.
  - rewrite Hgl, Hl4, Hu4. done.
Qed.

(** X4: [init_common] with a pool other than scratch, and without the
    dynamic usage flag when the pool is managed, returns [true] with
    the buffer ready for use: the fields hold the arguments; the
    staging block is a new one of the rounded length, all zero; the
    initialise command is the one command submitted and it has been
    executed, with everything queued before it, so the queue is empty
    and the in-flight counter 0; and the handle is a non-zero buffer
    name whose data store was created with the rounded length, the
    staging block as source and the usage hint picked by the dynamic
    flag. *)
Theorem init_common_ready (length usage : Z) (pool : D3DPOOL) (w : World) :
  pool <> D3DPOOL_SCRATCH ->
  (pool = D3DPOOL_MANAGED -> flag_set usage D3DUSAGE_DYNAMIC = false) ->
  exists w' a earlier,
    init_common length usage pool w = Done true w'
    /\ mLength (buf w') = length /\ mUsage (buf w') = usage /\ mPool (buf w') = pool
    /\ mBufData (buf w') = Some a
    /\ heap w !! a = None
    /\ heap w' !! a = Some (replicate (Z.to_nat (align16 length)) (Some Byte.x00))
    /\ mUpdateInProgress (buf w') = 0
    /\ queue w' = []
    /\ submitted w' = submitted w ++ [InitBufferObjectCmd (Some a)]
    /\ mBufferId (buf w') <> 0
    /\ gl_calls w'
       = earlier ++ [glGenBuffers (mBufferId (buf w'));
                     glNamedBufferDataEXT (mBufferId (buf w')) (align16 length)
                       (mkPtr (Some a) 0)
                       (if flag_set usage D3DUSAGE_DYNAMIC
                        then GL_DYNAMIC_DRAW else GL_STREAM_DRAW)].
Proof. exact (init_common_succeeds length usage pool w). Qed.

Lemma init_common_ready_witness :
  exists w' a earlier,
    init_common 20 D3DUSAGE_DYNAMIC D3DPOOL_DEFAULT new_world = Done true w'
    /\ mBufData (buf w') = Some a
    /\ mBufferId (buf w') <> 0
    /\ gl_calls w'
       = earlier ++ [glGenBuffers (mBufferId (buf w'));
                     glNamedBufferDataEXT (mBufferId (buf w')) 32
                       (mkPtr (Some a) 0) GL_DYNAMIC_DRAW].
Proof.
  destruct (init_common_ready 20 D3DUSAGE_DYNAMIC D3DPOOL_DEFAULT new_world)
    as (w' & a & earlier & E & _ & _ & _ & Hd & _ & _ & _ & _ & _ & Hid & Hgl).
  - discriminate.
  - discriminate.
  - exists w', a, earlier. split; [exact E|]. split; [exact Hd|].
    split; [exact Hid|exact Hgl].
Defined.

(** ** Creating and describing a buffer *)

Lemma init_common_format length usage pool w r w' :
  init_common length usage pool w = Done r w' ->
  mFormat (buf w') = mFormat (buf w) /\ mFvf (buf w') = mFvf (buf w).
Proof.
  unfold init_common.
  destruct (bool_decide _); [by intros [= _ <-]|].
  destruct (_ && _); [by intros [= _ <-]|].
  destruct (write_bytes _ _ _) as [w3|] eqn:Hw; [|done].
  apply write_bytes_Some in Hw as (Hb & _). intros [= _ <-].
  match goal with
  | |- context [sendSync ?c ?w0] => destruct (sendSync_worker_only c w0) as []
  end.
  rewrite wo_mFormat0, wo_mFvf0. simpl. by rewrite Hb, buf_reset_mBufData.
Qed.

(** X5: [init_ibo] with a format other than the two index formats
    returns [false] and changes nothing.  With one of them, and a pool
    and usage [init_common] accepts, it returns [true]; the buffer then
    reports the index-buffer type, and its description gives back the
    format, usage, pool and length it was created with. *)
Theorem init_ibo_formats
    (length usage : Z) (format : D3DFORMAT) (pool : D3DPOOL) (w : World) :
  (format <> D3DFMT_INDEX16 -> format <> D3DFMT_INDEX32 ->
   init_ibo length usage format pool w = Done false w)
  /\ (format = D3DFMT_INDEX16 \/ format = D3DFMT_INDEX32 ->
      pool <> D3DPOOL_SCRATCH ->
      (pool = D3DPOOL_MANAGED -> flag_set usage D3DUSAGE_DYNAMIC = false) ->
      exists w',
        init_ibo length usage format pool w = Done true w'
        /\ GetType w' = D3DRTYPE_INDEXBUFFER
        /\ GetDesc_index w'
           = (D3D_OK, mkIndexDesc format D3DRTYPE_INDEXBUFFER usage pool length)
        /\ mFvf (buf w') = 0).
Proof.
  split.
  - intros H16 H32. unfold init_ibo.
    destruct (Z.eqb_spec format D3DFMT_INDEX16); [done|].
    by destruct (Z.eqb_spec format D3DFMT_INDEX32).
  - intros Hf Hs Hm. unfold init_ibo.
    assert (Hok : negb (format =? D3DFMT_INDEX16) && negb (format =? D3DFMT_INDEX32) = false)
      by (by destruct Hf as [-> | ->]).
    rewrite Hok.
    set (w1 := upd_buf _ w).
    destruct (init_common_succeeds length usage pool w1 Hs Hm)
      as (w' & a & earlier & E & Hl & Hu & Hp & _).
    exists w'. split; [exact E|].
    apply init_common_format in E as [HF Hv].
    unfold GetType, GetDesc_index. rewrite HF, Hv, Hl, Hu, Hp. simpl.
    by destruct Hf as [-> | ->].
Qed.

Lemma init_ibo_formats_witness :
  init_ibo 64 0 D3DFMT_VERTEXDATA D3DPOOL_DEFAULT new_world = Done false new_world
  /\ exists w',
       init_ibo 64 0 D3DFMT_INDEX32 D3DPOOL_MANAGED new_world = Done true w'
       /\ GetType w' = D3DRTYPE_INDEXBUFFER
       /\ GetDesc_index w'
          = (D3D_OK, mkIndexDesc D3DFMT_INDEX32 D3DRTYPE_INDEXBUFFER 0 D3DPOOL_MANAGED 64).
Proof.
  split.
  - apply (proj1 (init_ibo_formats 64 0 D3DFMT_VERTEXDATA D3DPOOL_DEFAULT new_world));
      discriminate.
  - destruct (proj2 (init_ibo_formats 64 0 D3DFMT_INDEX32 D3DPOOL_MANAGED new_world))
      as (w' & E & Ht & Hd & _).
    + by right.
    + discriminate.
    + reflexivity.
    + exists w'. split; [exact E|]. split; [exact Ht|exact Hd].
Defined.

(** X6: [init_vbo] with a length that is not below the vertex size of
    the format, and a pool and usage [init_common] accepts, returns
    [true]; the buffer then reports the vertex-buffer type, and its
    description gives back the usage, pool, length and vertex format it
    was created with. *)
Theorem init_vbo_describes
    (shr_wide : Z -> Z -> Z) (length usage fvf : Z) (pool : D3DPOOL) (w : World) :
  fvf_size shr_wide fvf <= length ->
  pool <> D3DPOOL_SCRATCH ->
  (pool = D3DPOOL_MANAGED -> flag_set usage D3DUSAGE_DYNAMIC = false) ->
  exists w',
    init_vbo shr_wide length usage fvf pool w = Done true w'
    /\ GetType w' = D3DRTYPE_VERTEXBUFFER
    /\ GetDesc_vertex w'
       = (D3D_OK, mkVertexDesc D3DFMT_VERTEXDATA D3DRTYPE_VERTEXBUFFER usage pool length fvf).
Proof.
  intros Hlen Hs Hm. unfold init_vbo.
  destruct (Z.ltb_spec length (fvf_size shr_wide fvf)); [lia|].
  set (w1 := upd_buf _ w).
  destruct (init_common_succeeds length usage pool w1 Hs Hm)
    as (w' & a & earlier & E & Hl & Hu & Hp & _).
  exists w'. split; [exact E|].
  apply init_common_format in E as [HF Hv].
  unfold GetType, GetDesc_vertex. by rewrite HF, Hv, Hl, Hu, Hp.
Qed.

Lemma init_vbo_describes_witness :
  fvf_size (fun x n => Z.shiftr x (n mod 32)) 0x152 <= 240
  /\ exists w',
       init_vbo (fun x n => Z.shiftr x (n mod 32)) 240 D3DUSAGE_WRITEONLY 0x152
                D3DPOOL_DEFAULT new_world = Done true w'
       /\ GetDesc_vertex w'
          = (D3D_OK, mkVertexDesc D3DFMT_VERTEXDATA D3DRTYPE_VERTEXBUFFER
                                  D3DUSAGE_WRITEONLY D3DPOOL_DEFAULT 240 0x152).
Proof.
  assert (H : fvf_size (fun x n => Z.shiftr x (n mod 32)) 0x152 <= 240)
    by (vm_compute; discriminate).
  split; [exact H|].
  destruct (init_vbo_describes (fun x n => Z.shiftr x (n mod 32)) 240 D3DUSAGE_WRITEONLY
              0x152 D3DPOOL_DEFAULT new_world H) as (w' & E & _ & Hd).
  - discriminate.
  - discriminate.
  - exists w'. split; [exact E|exact Hd].
Defined.

Lemma GetDesc_vertex_eq w w' :
  mFormat (buf w') = mFormat (buf w) -> mUsage (buf w') = mUsage (buf w) ->
  mPool (buf w') = mPool (buf w) -> mLength (buf w') = mLength (buf w) ->
  mFvf (buf w') = mFvf (buf w) ->
  GetDesc_vertex w' = GetDesc_vertex w.
Proof. unfold GetDesc_vertex. by intros -> -> -> -> ->. Qed.

Lemma worker_only_GetDesc w w' : worker_only w w' -> GetDesc_vertex w' = GetDesc_vertex w.
Proof. intros []. by apply GetDesc_vertex_eq. Qed.

Lemma Lock_GetDesc offset length flags fuel w r w' :
  Lock offset length flags fuel w = Done r w' -> GetDesc_vertex w' = GetDesc_vertex w.
Proof.
  intros E. apply Lock_Done in E as [[_ ->]|[_ E]]; [done|].
  unfold Lock_acquired in E. destruct (flag_set flags D3DLOCK_DISCARD).
  - destruct (0 <? _); injection E as _ <-; [|done].
    apply GetDesc_vertex_eq; simpl; by rewrite buf_reset_mBufData.
  - destruct (_ && _); [|by injection E as _ <-].
    destruct (wait_idle fuel _) as [[] w2|w2|] eqn:Hw; try done.
    injection E as _ <-. apply wait_idle_Done in Hw as (_ & k & _ & ->).
    match goal with
    | |- context [Nat.iter k consume ?w0] =>
        pose proof (worker_only_GetDesc _ _ (iter_consume_worker_only k w0)) as Hd
    end.
    unfold GetDesc_vertex in *. simpl in *. exact Hd.
Qed.

(** X7: [Lock], [Unlock] and the worker thread never change what the
    buffer reports about itself: the description (format, usage, pool,
    size, vertex format) and the resource type are the same after as
    before.  [resetBufferData] changes the reported size to the new
    length and nothing else. *)
Theorem description_is_stable (o : Op) (w w' : World) (r : Result) :
  run_op o w = Done r w' ->
  match o with
  | OpLock _ _ _ _ | OpUnlock | OpWorker =>
      GetDesc_vertex w' = GetDesc_vertex w
      /\ GetDesc_index w' = GetDesc_index w
      /\ GetType w' = GetType w
  | OpResetBufferData _ length =>
      GetDesc_vertex w'
      = (D3D_OK, mkVertexDesc (mFormat (buf w)) D3DRTYPE_VERTEXBUFFER (mUsage (buf w))
                              (mPool (buf w)) length (mFvf (buf w)))
      /\ GetType w' = GetType w
  | OpInitCommon _ _ _ => GetType w' = GetType w
  end.
Proof.
  assert (Hall : forall w w', GetDesc_vertex w' = GetDesc_vertex w ->
                   GetDesc_vertex w' = GetDesc_vertex w
                   /\ GetDesc_index w' = GetDesc_index w /\ GetType w' = GetType w).
  { intros w0 w0' H. split; [done|]. unfold GetDesc_vertex, GetDesc_index, GetType in *.
    injection H as -> -> -> -> _. done. }
  intros Hrun. destruct o as [l u p|off l f fuel| |d l|]; simpl in Hrun.
  - destruct (init_common l u p w) as [r0 w0| |] eqn:E; try done.
    injection Hrun as _ <-. apply init_common_format in E as [HF _].
    unfold GetType. by rewrite HF.
  - destruct (Lock off l f fuel w) as [r0 w0| |] eqn:E; try done.
    injection Hrun as _ <-. apply Hall. by eapply Lock_GetDesc.
  - apply Hall. unfold Unlock in Hrun.
    destruct (bool_decide _); [by injection Hrun as _ <-|].
    by destruct (negb _); injection Hrun as _ <-.
  - unfold resetBufferData in Hrun. destruct (_ <? _)%nat; [done|].
    destruct (write_bytes _ _ _) as [w4|] eqn:Hw; [|done].
    injection Hrun as _ <-. apply write_bytes_Some in Hw as (Hb & _).
    unfold GetDesc_vertex, GetType. simpl. rewrite Hb.
    destruct (_ || _); simpl; rewrite ?buf_reset_mBufData; done.
  - injection Hrun as _ <-. apply Hall. apply worker_only_GetDesc, consume_worker_only.
Qed.

Lemma description_is_stable_witness :
  run_op (OpLock 4 8 0 0) (created 20 0)
  = Done (RLock D3D_OK (Some (mkPtr (Some 0%nat) 4))) locked_sample
  /\ GetDesc_vertex locked_sample = GetDesc_vertex (created 20 0).
Proof.
  assert (H : run_op (OpLock 4 8 0 0) (created 20 0)
              = Done (RLock D3D_OK (Some (mkPtr (Some 0%nat) 4))) locked_sample)
    by (vm_compute; reflexivity).
  split; [exact H|].
  exact (proj1 (description_is_stable _ _ _ _ H)).
Defined.

(** ** Locks that do not wait *)

Lemma Lock_no_wait offset length flags fuel w :
  mLock (buf w) = LT_Unlocked ->
  (length = 0 -> offset <= 0) ->
  offset < mLength (buf w) ->
  (if length =? 0 then mLength (buf w) else length) <= mLength (buf w) - offset ->
  flag_set flags D3DLOCK_READONLY && flag_set (mUsage (buf w)) D3DUSAGE_WRITEONLY = false ->
  flag_set flags D3DLOCK_DISCARD = false ->
  flag_set flags D3DLOCK_NOOVERWRITE || flag_set flags D3DLOCK_READONLY = true ->
  Lock offset length flags fuel w
  = Done (D3D_OK, Some (mkPtr (mBufData (buf w)) offset))
         (upd_buf (fun b =>
                     set_mLockedLength (if length =? 0 then mLength (buf w) else length)
                       (set_mLockedOffset offset
                          (set_mLock (if flag_set flags D3DLOCK_READONLY
                                      then LT_ReadOnly else LT_Full) b))) w).
Proof.
  intros HL H0 H1 H2 H3 Hd Hn. rewrite Lock_accepted by done.
  unfold Lock_acquired. rewrite Hd.
  assert (Hw : negb (flag_set flags D3DLOCK_NOOVERWRITE)
               && negb (flag_set flags D3DLOCK_READONLY) = false).
  { by destruct (flag_set flags D3DLOCK_NOOVERWRITE), (flag_set flags D3DLOCK_READONLY). }
  by rewrite Hw.
Qed.

(** X8: a [Lock] that passes the checks with the no-overwrite or the
    read-only flag, and without the discard flag, returns [D3D_OK]
    whatever the fuel and however many updates are in flight: it never
    sleeps and never reallocates.  The pointer is into the block
    [mBufData] already held, and the lock state and the locked range
    are all that changed. *)
Theorem Lock_without_overwrite_is_immediate
    (w : World) (offset length flags : Z) (fuel : nat) :
  mLock (buf w) = LT_Unlocked ->
  (length = 0 -> offset <= 0) ->
  offset < mLength (buf w) ->
  (if length =? 0 then mLength (buf w) else length) <= mLength (buf w) - offset ->
  flag_set flags D3DLOCK_READONLY && flag_set (mUsage (buf w)) D3DUSAGE_WRITEONLY = false ->
  flag_set flags D3DLOCK_DISCARD = false ->
  flag_set flags D3DLOCK_NOOVERWRITE || flag_set flags D3DLOCK_READONLY = true ->
  exists w',
    Lock offset length flags fuel w
    = Done (D3D_OK, Some (mkPtr (mBufData (buf w)) offset)) w'
    /\ Lock offset length flags 0 w = Lock offset length flags fuel w
    /\ heap w' = heap w /\ queue w' = queue w /\ submitted w' = submitted w
    /\ gl_calls w' = gl_calls w
    /\ mBufData (buf w') = mBufData (buf w)
    /\ mUpdateInProgress (buf w') = mUpdateInProgress (buf w)
    /\ mLength (buf w') = mLength (buf w).
Proof.
  intros HL H0 H1 H2 H3 Hd Hn.
  rewrite (Lock_no_wait offset length flags 0) by done.
  rewrite (Lock_no_wait offset length flags fuel) by done.
  eexists. split; [reflexivity|]. by repeat split.
Qed.

Lemma Lock_without_overwrite_is_immediate_witness :
  0 < mUpdateInProgress (buf in_flight_sample)
  /\ exists w',
       Lock 0 20 D3DLOCK_NOOVERWRITE 0 in_flight_sample
       = Done (D3D_OK, Some (mkPtr (mBufData (buf in_flight_sample)) 0)) w'
       /\ queue w' = queue in_flight_sample.
Proof.
  split; [vm_compute; reflexivity|].
  destruct (Lock_without_overwrite_is_immediate in_flight_sample 0 20 D3DLOCK_NOOVERWRITE 0)
    as (w' & E & _ & _ & Hq & _).
  - vm_compute. reflexivity.
  - intros. lia.
  - vm_compute. reflexivity.
  - vm_compute. discriminate.
  - vm_compute. reflexivity.
  - vm_compute. reflexivity.
  - vm_compute. reflexivity.
  - exists w'. split; [exact E|exact Hq].
Defined.

(** X9: on an unlocked buffer whose locked range is cleared, a
    read-only [Lock] (without the discard flag) that passes the checks,
    followed by [Unlock], gives back the very world it started from:
    nothing is submitted, the in-flight counter, the heap and every
    field are as before. *)
Theorem readonly_lock_round_trip
    (w : World) (offset length flags : Z) (fuel : nat) :
  mLock (buf w) = LT_Unlocked ->
  mLockedOffset (buf w) = 0 -> mLockedLength (buf w) = 0 ->
  (length = 0 -> offset <= 0) ->
  offset < mLength (buf w) ->
  (if length =? 0 then mLength (buf w) else length) <= mLength (buf w) - offset ->
  flag_set flags D3DLOCK_READONLY = true ->
  flag_set (mUsage (buf w)) D3DUSAGE_WRITEONLY = false ->
  flag_set flags D3DLOCK_DISCARD = false ->
  exists w1,
    Lock offset length flags fuel w
    = Done (D3D_OK, Some (mkPtr (mBufData (buf w)) offset)) w1
    /\ mLock (buf w1) = LT_ReadOnly
    /\ Unlock w1 = Done D3D_OK w.
Proof.
  intros HL Ho Hn H0 H1 H2 Hro Hwo Hd.
  rewrite (Lock_no_wait offset length flags fuel) by
    (try done; rewrite ?Hro, ?Hwo; try done; apply orb_true_r).
  rewrite Hro. eexists. split; [reflexivity|]. split; [done|].
  unfold Unlock. simpl.
  destruct w as [b h q s gn gc]. destruct b. simpl in *. by subst.
Qed.

Lemma readonly_lock_round_trip_witness :
  exists w1,
    Lock 4 8 D3DLOCK_READONLY 0 in_flight_sample
    = Done (D3D_OK, Some (mkPtr (mBufData (buf in_flight_sample)) 4)) w1
    /\ mLock (buf w1) = LT_ReadOnly
    /\ Unlock w1 = Done D3D_OK in_flight_sample.
Proof.
  apply (readonly_lock_round_trip in_flight_sample 4 8 D3DLOCK_READONLY 0).
  - vm_compute. reflexivity.
  - vm_compute. reflexivity.
  - vm_compute. reflexivity.
  - intros. lia.
  - vm_compute. reflexivity.
  - vm_compute. discriminate.
  - vm_compute. reflexivity.
  - vm_compute. reflexivity.
  - vm_compute. reflexivity.
Defined.

(** ** The pointer [Lock] hands out *)

Lemma read_bytes_in_block a bs offset n w :
  heap w !! a = Some bs -> 0 <= offset -> 0 <= n ->
  offset + n <= Z.of_nat (length bs) ->
  exists got, read_bytes (mkPtr (Some a) offset) n w = Some got
              /\ Z.of_nat (length got) = n.
Proof.
  intros Ha Ho Hn Hfit. unfold read_bytes. cbn [base off]. rewrite Ha.
  destruct (Z.leb_spec 0 offset); [|lia].
  destruct (Z.leb_spec (offset + n) (Z.of_nat (length bs))); [|lia].
  simpl. eexists. split; [reflexivity|].
  rewrite length_take, length_drop. lia.
Qed.

(** X10: on a buffer whose staging block covers its logical length, a
    [Lock] that returns [D3D_OK] for an offset and length of type
    [UINT] returns a pointer into a live block, and the whole locked
    range, from the pointer over the locked length, lies inside that
    block and inside the logical length. *)
Theorem Lock_pointer_in_bounds
    (w w' : World) (offset length flags : Z) (fuel : nat) (p : Ptr) :
  staging_covers w ->
  0 <= offset -> 0 <= length ->
  Lock offset length flags fuel w = Done (D3D_OK, Some p) w' ->
  0 < mLockedLength (buf w')
  /\ mLockedOffset (buf w') + mLockedLength (buf w') <= mLength (buf w')
  /\ exists got,
       read_bytes p (mLockedLength (buf w')) w' = Some got
       /\ Z.of_nat (List.length got) = mLockedLength (buf w').
Proof.
  intros [Hlen Hcap] Ho Hl E.
  pose proof (Lock_staging _ _ _ _ _ _ _ E) as [Hm Hc].
  pose proof (align16_ge _ Hlen) as Hal.
  assert (Hcap' : mLength (buf w) <= capacity w').
  { destruct Hc as [-> | ->]; lia. }
  pose proof E as E0. unfold Lock in E0.
  destruct (Z.eqb_spec length 0) as [->|Hnz]; simpl in E0.
  - destruct (Z.ltb_spec 0 offset); [done|].
    assert (offset = 0) by lia. subst offset.
    destruct (Z.leb_spec (mLength (buf w)) 0); [done|]. simpl in E0.
    destruct (Z.ltb_spec (mLength (buf w) - 0) (mLength (buf w))); [done|].
    clear E0. apply Lock_Done in E as [[[=] _]|[_ E]].
    apply Lock_acquired_Done in E as ([= ->] & Hlo & Hll & _). simpl in Hll.
    rewrite Hlo, Hll, Hm. split; [lia|]. split; [lia|].
    unfold capacity in Hcap'.
    destruct (mBufData (buf w')) as [a|]; [|lia].
    destruct (heap w' !! a) as [bs|] eqn:Ha; [|lia].
    apply (read_bytes_in_block a bs); try done; lia.
  - destruct (Z.leb_spec (mLength (buf w)) offset); [done|]. simpl in E0.
    destruct (Z.ltb_spec (mLength (buf w) - offset) length); [done|].
    clear E0. apply Lock_Done in E as [[[=] _]|[_ E]].
    apply Lock_acquired_Done in E as ([= ->] & Hlo & Hll & _).
    destruct (Z.eqb_spec length 0); [done|].
    rewrite Hlo, Hll, Hm. split; [lia|]. split; [lia|].
    unfold capacity in Hcap'.
    destruct (mBufData (buf w')) as [a|]; [|lia].
    destruct (heap w' !! a) as [bs|] eqn:Ha; [|lia].
    apply (read_bytes_in_block a bs); try done; lia.
Qed.

Lemma Lock_pointer_in_bounds_witness :
  staging_covers (created 20 0)
  /\ Lock 4 8 0 0 (created 20 0) = Done (D3D_OK, Some (mkPtr (Some 0%nat) 4)) locked_sample
  /\ exists got,
       read_bytes (mkPtr (Some 0%nat) 4) (mLockedLength (buf locked_sample)) locked_sample
       = Some got
       /\ Z.of_nat (List.length got) = mLockedLength (buf locked_sample).
Proof.
  assert (Hs : staging_covers (created 20 0)).
  { split; [split|]; vm_compute; discriminate. }
  assert (E : Lock 4 8 0 0 (created 20 0)
              = Done (D3D_OK, Some (mkPtr (Some 0%nat) 4)) locked_sample)
    by (vm_compute; reflexivity).
  split; [exact Hs|]. split; [exact E|].
  exact (proj2 (proj2 (Lock_pointer_in_bounds _ _ 4 8 0 0%nat _ Hs
                         ltac:(lia) ltac:(lia) E))).
Defined.

(** ** From [Unlock] to the OpenGL context *)

Lemma drop_ref_held p w :
  (forall a, p = Some a -> mBufData (buf w) = Some a) -> drop_ref p w = w.
Proof.
  intros H. destruct p as [a|]; [|done]. simpl.
  destruct (Nat.eqb_spec (use_count a w) 0) as [E|]; [|done].
  unfold use_count, holds in E. rewrite (H a eq_refl) in E.
  rewrite bool_decide_eq_true_2 in E by done. lia.
Qed.

(** X11: take an idle buffer (nothing queued, no update in flight) and
    a write [Lock] that passes the checks.  After [Lock], [Unlock] and
    one step of the worker thread, the context has received exactly one
    more call: an upload to the buffer's handle of the locked length at
    the locked offset, read from the staging block at that same offset.
    The queue is empty again, the counter is back to 0, and the heap
    is as it was before the [Lock]. *)
Theorem locked_range_reaches_context
    (w : World) (offset length flags : Z) (fuel : nat) :
  queue w = [] -> mUpdateInProgress (buf w) = 0 ->
  mLock (buf w) = LT_Unlocked ->
  flag_set flags D3DLOCK_READONLY = false ->
  (length = 0 -> offset <= 0) ->
  offset < mLength (buf w) ->
  (if length =? 0 then mLength (buf w) else length) <= mLength (buf w) - offset ->
  exists w1 w2,
    Lock offset length flags fuel w
    = Done (D3D_OK, Some (mkPtr (mBufData (buf w)) offset)) w1
    /\ Unlock w1 = Done D3D_OK w2
    /\ mUpdateInProgress (buf w2) = 1
    /\ gl_calls (consume w2)
       = gl_calls w
         ++ [glNamedBufferSubDataEXT (mBufferId (buf w)) offset
               (if length =? 0 then mLength (buf w) else length)
               (mkPtr (mBufData (buf w)) offset)]
    /\ queue (consume w2) = []
    /\ mUpdateInProgress (buf (consume w2)) = 0
    /\ heap (consume w2) = heap w.
Proof.
  intros Hq Hz HL Hro H0 H1 H2.
  assert (EL : Lock offset length flags fuel w
               = Done (D3D_OK, Some (mkPtr (mBufData (buf w)) offset))
                   (upd_buf (fun b =>
                      set_mLockedLength (if length =? 0 then mLength (buf w) else length)
                        (set_mLockedOffset offset (set_mLock LT_Full b))) w)).
  { rewrite Lock_accepted by (try done; by rewrite Hro).
    rewrite Hro. unfold Lock_acquired.
    destruct (flag_set flags D3DLOCK_DISCARD).
    - cbn [upd_buf buf mUpdateInProgress set_mLock]. rewrite Hz. done.
    - rewrite Hro. destruct (negb _ && _); [|done].
      by rewrite wait_idle_idle. }
  rewrite EL. clear EL Hro H0 H1 H2.
  set (L := if length =? 0 then mLength (buf w) else length). clearbody L.
  set (w1 := upd_buf _ w).
  set (c := LoadBufferDataCmd offset L (mBufData (buf w))).
  set (w2 := upd_buf (fun b => set_mLock LT_Unlocked
                                 (set_mLockedLength 0 (set_mLockedOffset 0 b)))
               (send c (upd_buf (fun b => set_mUpdateInProgress
                                            (wrap32 (mUpdateInProgress b + 1)) b) w1))).
  assert (EU : Unlock w1 = Done D3D_OK w2) by done.
  assert (Hq2 : queue w2 = [c]) by (unfold w2, w1; cbn [upd_buf send queue]; by rewrite Hq).
  assert (Hc2 : mUpdateInProgress (buf w2) = 1).
  { unfold w2, w1. cbn [upd_buf send buf mUpdateInProgress set_mLock set_mLockedLength
                        set_mLockedOffset set_mUpdateInProgress]. by rewrite Hz. }
  exists w1, w2. split; [done|]. split; [exact EU|]. split; [exact Hc2|].
  assert (Ec : consume w2 = set_queue [] (execute c w2)).
  { unfold consume. rewrite Hq2. apply drop_ref_held.
    intros a Ha. destruct (buf_execute_fields c w2) as (_&_&_&_&_&Hd&_).
    cbn [set_queue buf]. rewrite Hd. exact Ha. }
  rewrite Ec. unfold c.
  cbn [set_queue gl_calls queue buf heap execute loadBufferDataGL mUpdateInProgress
       set_mUpdateInProgress base off].
  rewrite Hc2. unfold w2, w1.
  cbn [upd_buf send buf heap gl_calls mBufferId set_mLock set_mLockedLength
       set_mLockedOffset set_mUpdateInProgress].
  by repeat split.
Qed.

Lemma locked_range_reaches_context_witness :
  exists w1 w2,
    Lock 4 8 0 0 (created 20 0)
    = Done (D3D_OK, Some (mkPtr (mBufData (buf (created 20 0))) 4)) w1
    /\ Unlock w1 = Done D3D_OK w2
    /\ gl_calls (consume w2)
       = gl_calls (created 20 0)
         ++ [glNamedBufferSubDataEXT (mBufferId (buf (created 20 0))) 4 8
               (mkPtr (mBufData (buf (created 20 0))) 4)]
    /\ mUpdateInProgress (buf (consume w2)) = 0.
Proof.
  destruct (locked_range_reaches_context (created 20 0) 4 8 0 0)
    as (w1 & w2 & E1 & E2 & _ & Hg & _ & Hc & _).
  - vm_compute. reflexivity.
  - vm_compute. reflexivity.
  - vm_compute. reflexivity.
  - vm_compute. reflexivity.
  - intros. lia.
  - vm_compute. reflexivity.
  - vm_compute. discriminate.
  - exists w1, w2. split; [exact E1|]. split; [exact E2|]. split; [exact Hg|exact Hc].
Defined.

(** ** [resetBufferData] and the blocks already there *)

Lemma heap_drop_ref_cases p w a :
  heap (drop_ref p w) !! a = heap w !! a \/ heap (drop_ref p w) !! a = None.
Proof.
  destruct p as [a0|]; simpl; [|by left].
  destruct (_ =? _)%nat; simpl; [|by left].
  destruct (decide (a0 = a)) as [->|]; [right; apply lookup_delete_eq|].
  left. by apply lookup_delete_ne.
Qed.

Lemma heap_drop_ref_referenced p w a :
  referenced a w -> heap (drop_ref p w) !! a = heap w !! a.
Proof.
  intros Hr. destruct p as [a0|]; simpl; [|done].
  destruct (Nat.eqb_spec (use_count a0 w) 0) as [E|]; simpl; [|done].
  destruct (decide (a0 = a)) as [->|]; [|by apply lookup_delete_ne].
  apply use_count_referenced in Hr. lia.
Qed.

(** X12: when an update is in flight, [resetBufferData] never writes
    into a block that was there before: it allocates a new block for
    the new content and submits a resize and an upload of the whole new
    length from it.  Every block that was live is afterwards either
    untouched or freed, and a block that a queued command points to is
    untouched. *)
Theorem resetBufferData_in_flight
    (w w' : World) (data : list Byte.byte) (length : Z) (r : unit) :
  0 < mUpdateInProgress (buf w) < UINT_MAX ->
  resetBufferData data length w = Done r w' ->
  (exists a', mBufData (buf w') = Some a' /\ heap w !! a' = None)
  /\ submitted w'
     = submitted w ++ [ResizeBufferCmd; LoadBufferDataCmd 0 length (mBufData (buf w'))]
  /\ (forall a bs, heap w !! a = Some bs ->
        heap w' !! a = Some bs \/ heap w' !! a = None)
  /\ (forall a bs c, heap w !! a = Some bs -> c ∈ queue w -> cmd_data c = Some a ->
        heap w' !! a = Some bs).
Proof.
  intros Hin E. unfold resetBufferData in E.
  set (w1 := upd_buf _ w) in E.
  assert (Hc1 : mUpdateInProgress (buf w1) = mUpdateInProgress (buf w) + 1).
  { unfold w1. cbn [upd_buf buf mUpdateInProgress set_mUpdateInProgress].
    apply wrap32_small. unfold is_uint, UINT_MAX in *. lia. }
  rewrite Hc1 in E.
  destruct (Z.ltb_spec 1 (mUpdateInProgress (buf w) + 1)); [|lia].
  rewrite orb_true_r in E.
  set (w2 := reset_mBufData (align16 length) w1) in E.
  destruct (_ <? _)%nat; [done|].
  destruct (write_bytes _ _ _) as [w4|] eqn:Hw; [|done].
  injection E as _ <-.
  apply write_bytes_Some in Hw as (Hb & Hq & Hs & a0 & old & Hp & Ha0 & _ & Hh).
  cbn [upd_buf send buf mBufData set_mLength] in Hp, Hb.
  unfold w2 in Hp. rewrite buf_reset_mBufData in Hp.
  cbn [mBufData set_mBufData] in Hp. injection Hp as <-.
  assert (Hd4 : mBufData (buf w4) = Some (fresh (dom (heap w)))).
  { rewrite Hb. unfold w2. by rewrite buf_reset_mBufData. }
  assert (Hold : forall a, a <> fresh (dom (heap w)) ->
            heap w4 !! a = heap (drop_ref (mBufData (buf w))
              (upd_buf (set_mBufData (Some (fresh (dom (heap w)))))
                 (set_heap (<[fresh (dom (heap w)) := replicate (Z.to_nat (align16 length)) None]>
                              (heap w)) w1))) !! a).
  { intros a Hne. rewrite Hh. rewrite lookup_insert_ne by done. done. }
  split; [|split; [|split]].
  - exists (fresh (dom (heap w))). split; [|apply fresh_not_live].
    cbn [send buf]. exact Hd4.
  - cbn [send submitted buf]. rewrite Hd4, Hs, Hb.
    cbn [upd_buf send submitted buf mLength set_mLength].
    unfold w2. rewrite submitted_reset_mBufData. cbn [upd_buf submitted].
    by rewrite <- app_assoc.
  - intros a bs Ha. cbn [send heap].
    assert (Hne : a <> fresh (dom (heap w))).
    { intros ->. by rewrite fresh_not_live in Ha. }
    rewrite (Hold a Hne).
    destruct (heap_drop_ref_cases (mBufData (buf w))
                (upd_buf (set_mBufData (Some (fresh (dom (heap w)))))
                   (set_heap (<[fresh (dom (heap w)) := replicate (Z.to_nat (align16 length)) None]>
                                (heap w)) w1)) a) as [-> | ->]; [|by right].
    left. cbn [upd_buf set_heap heap]. by rewrite lookup_insert_ne.
  - intros a bs c Ha Hcq Hc. cbn [send heap].
    assert (Hne : a <> fresh (dom (heap w))).
    { intros ->. by rewrite fresh_not_live in Ha. }
    rewrite (Hold a Hne).
    rewrite heap_drop_ref_referenced.
    + cbn [upd_buf set_heap heap]. by rewrite lookup_insert_ne.
    + right. exists c. split; [|done]. exact Hcq.
Qed.

Lemma resetBufferData_in_flight_witness :
  0 < mUpdateInProgress (buf in_flight_sample) < UINT_MAX
  /\ exists w',
       resetBufferData (replicate 8 Byte.x2a) 8 in_flight_sample = Done tt w'
       /\ heap w' !! 0%nat = heap in_flight_sample !! 0%nat
       /\ mBufData (buf w') <> Some 0%nat.
Proof.
  assert (Hin : 0 < mUpdateInProgress (buf in_flight_sample) < UINT_MAX)
    by (vm_compute; split; reflexivity).
  assert (E : resetBufferData (replicate 8 Byte.x2a) 8 in_flight_sample
              = Done tt (world_of (resetBufferData (replicate 8 Byte.x2a) 8 in_flight_sample)))
    by (vm_compute; reflexivity).
  split; [exact Hin|]. eexists. split; [exact E|].
  destruct (resetBufferData_in_flight _ _ _ _ _ Hin E) as (_ & _ & _ & Hkeep).
  split.
  - rewrite (Hkeep 0%nat (replicate 32 (Some Byte.x00)) (LoadBufferDataCmd 4 8 (Some 0%nat))).
    + vm_compute. reflexivity.
    + vm_compute. reflexivity.
    + vm_compute. left.
    + reflexivity.
  - vm_compute. discriminate.
Defined.

(** X13: on a buffer with no update in flight, [resetBufferData] with
    a length that is not above the logical length keeps the staging
    block: the new bytes overwrite its start, the bytes after them stay
    as they were, and the one command submitted is an upload of the new
    length from that block (no resize).  The logical length becomes the
    new length and one update is in flight. *)
Theorem resetBufferData_in_place
    (w : World) (data : list Byte.byte) (length : Z) (a : nat)
    (old : list (option Byte.byte)) :
  mUpdateInProgress (buf w) = 0 ->
  0 <= length <= mLength (buf w) ->
  mBufData (buf w) = Some a -> heap w !! a = Some old ->
  length <= Z.of_nat (List.length old) ->
  length <= Z.of_nat (List.length data) ->
  exists w',
    resetBufferData data length w = Done tt w'
    /\ mBufData (buf w') = Some a
    /\ heap w' = <[a := (Some <$> take (Z.to_nat length) data)
                         ++ drop (Z.to_nat length) old]> (heap w)
    /\ submitted w' = submitted w ++ [LoadBufferDataCmd 0 length (Some a)]
    /\ mLength (buf w') = length
    /\ mUpdateInProgress (buf w') = 1.
Proof.
  intros Hz Hlen Hd Ha Hold Hdata. unfold resetBufferData.
  set (w1 := upd_buf _ w).
  assert (Hc1 : mUpdateInProgress (buf w1) = 1).
  { unfold w1. cbn [upd_buf buf mUpdateInProgress set_mUpdateInProgress]. by rewrite Hz. }
  assert (Hl1 : mLength (buf w1) = mLength (buf w)) by done.
  assert (Hd1 : mBufData (buf w1) = Some a) by exact Hd.
  assert (Hh1 : heap w1 = heap w) by done.
  assert (Hs1 : submitted w1 = submitted w) by done.
  clearbody w1.
  rewrite Hc1, Hl1.
  destruct (Z.ltb_spec (mLength (buf w)) length); [lia|].
  change ((false || (1 <? 1))) with false. cbv iota.
  set (w3 := upd_buf (set_mLength length) w1).
  assert (Hl3 : mLength (buf w3) = length) by done.
  assert (Hd3 : mBufData (buf w3) = Some a) by exact Hd1.
  assert (Hc3 : mUpdateInProgress (buf w3) = 1) by exact Hc1.
  assert (Hh3 : heap w3 = heap w) by exact Hh1.
  assert (Hs3 : submitted w3 = submitted w) by exact Hs1.
  clearbody w3.
  rewrite Hl3, Hd3.
  destruct (Nat.ltb_spec (List.length data) (Z.to_nat length)); [lia|].
  assert (Hh : heap w3 !! a = Some old) by (by rewrite Hh3).
  rewrite (write_bytes_ok _ _ _ _ Hh) by (rewrite length_take; lia).
  eexists. split; [reflexivity|].
  cbn [send set_heap buf heap submitted].
  rewrite length_take, Nat.min_l by lia.
  by rewrite Hd3, Hl3, Hc3, Hh3, Hs3.
Qed.

Lemma resetBufferData_in_place_witness :
  exists w',
    resetBufferData (replicate 8 Byte.x2a) 8 (created 20 0) = Done tt w'
    /\ mBufData (buf w') = Some 0%nat
    /\ submitted w' = submitted (created 20 0) ++ [LoadBufferDataCmd 0 8 (Some 0%nat)]
    /\ mLength (buf w') = 8.
Proof.
  destruct (resetBufferData_in_place (created 20 0) (replicate 8 Byte.x2a) 8 0%nat
              (replicate 32 (Some Byte.x00)))
    as (w' & E & Hd & _ & Hs & Hl & _).
  - vm_compute. reflexivity.
  - vm_compute. split; discriminate.
  - vm_compute. reflexivity.
  - vm_compute. reflexivity.
  - vm_compute. discriminate.
  - vm_compute. discriminate.
  - exists w'. split; [exact E|]. split; [exact Hd|]. split; [exact Hs|exact Hl].
Defined.

(** ** The order of uploads *)

Lemma consume_uploads c q w :
  queue w = c :: q -> is_init c = false ->
  filter (fun g => is_upload g = true) (gl_calls (consume w))
  = filter (fun g => is_upload g = true) (gl_calls w) ++ upload_of (mBufferId (buf w)) c
  /\ mBufferId (buf (consume w)) = mBufferId (buf w).
Proof.
  intros Hq Hi. unfold consume. rewrite Hq.
  destruct (gl_drop_ref (cmd_data c) (set_queue q (execute c w))) as [_ ->].
  rewrite buf_drop_ref. cbn [set_queue gl_calls buf].
  destruct c as [d|id| |o l d]; try done; cbn [execute resizeBufferGL loadBufferDataGL
    gl_calls buf mBufferId set_mUpdateInProgress upload_of base off];
    rewrite filter_app; (split; [|done]); f_equal; reflexivity.
Qed.

Lemma iter_consume_uploads n w :
  Forall (fun c => is_init c = false) (queue w) ->
  filter (fun g => is_upload g = true) (gl_calls (Nat.iter n consume w))
  = filter (fun g => is_upload g = true) (gl_calls w)
    ++ flat_map (upload_of (mBufferId (buf w))) (take n (queue w)).
Proof.
  revert w. induction n as [|n IH]; intros w Hf.
  - rewrite take_0. simpl. by rewrite app_nil_r.
  - rewrite Nat.iter_succ_r. destruct (queue w) as [|c q] eqn:Hq.
    + assert (Hc : consume w = w) by (unfold consume; by rewrite Hq).
      rewrite Hc, IH by (rewrite Hq; constructor). by rewrite Hq, !take_nil.
    + apply Forall_cons in Hf as [Hc Hf].
      destruct (consume_uploads c q w Hq Hc) as [Hu Hid].
      rewrite IH by (by rewrite queue_consume, Hq).
      rewrite Hu, Hid, queue_consume, Hq. simpl. by rewrite drop_0, <- app_assoc.
Qed.

(** X14: in a reachable world, let the worker thread execute
    everything that is queued.  The queue is then empty and the
    in-flight counter 0, and the uploads the context has received are
    those it had received before followed by one upload for each queued
    upload command, in the order of submission, each with the offset and
    length of its command and reading from its block at that offset. *)
Theorem worker_uploads_in_order (allowed : Op -> World -> Prop) (w : World) :
  reaches allowed new_world w ->
  queue (Nat.iter (List.length (queue w)) consume w) = []
  /\ mUpdateInProgress (buf (Nat.iter (List.length (queue w)) consume w)) = 0
  /\ filter (fun g => is_upload g = true)
            (gl_calls (Nat.iter (List.length (queue w)) consume w))
     = filter (fun g => is_upload g = true) (gl_calls w)
       ++ flat_map (upload_of (mBufferId (buf w))) (queue w).
Proof.
  intros H. destruct (reachable_invariants allowed w H) as [Hc _].
  pose proof (iter_consume_counter_consistent (List.length (queue w)) w Hc) as [_ Hz].
  assert (Hq : queue (Nat.iter (List.length (queue w)) consume w) = []).
  { rewrite queue_iter_consume. by apply drop_ge. }
  split; [exact Hq|]. split.
  - by rewrite Hz, Hq.
  - destruct Hc as [Hf _]. rewrite iter_consume_uploads by done.
    by rewrite firstn_all.
Qed.

Lemma worker_uploads_in_order_witness :
  reaches (fun _ _ => True) new_world in_flight_sample
  /\ filter (fun g => is_upload g = true)
            (gl_calls (Nat.iter (List.length (queue in_flight_sample)) consume in_flight_sample))
     = [glNamedBufferSubDataEXT 1 4 8 (mkPtr (Some 0%nat) 4)].
Proof.
  assert (H : reaches (fun _ _ => True) new_world in_flight_sample).
  { apply (reaches_call _ _ locked_sample _ OpUnlock); [|done|].
    - apply (reaches_call _ _ (created 20 0) _ (OpLock 4 8 0 0)); [|done|].
      + apply (reaches_call _ _ new_world _ (OpInitCommon 20 0 D3DPOOL_DEFAULT));
          [apply reaches_here|done|].
        exists (RBool true). vm_compute. reflexivity.
      + exists (RLock D3D_OK (Some (mkPtr (Some 0%nat) 4))). vm_compute. reflexivity.
    - exists (RHresult D3D_OK). vm_compute. reflexivity. }
  split; [exact H|].
  rewrite (proj2 (proj2 (worker_uploads_in_order _ _ H))).
  vm_compute. reflexivity.
Defined.

(** * Properties of the device *)

Lemma fmt_to_glattrs_ok fmt :
  fst (Device.fmt_to_glattrs fmt) = true
  <-> fmt = Device.D3DFMT_X8R8G8B8 \/ fmt = Device.D3DFMT_D24S8.
Proof.
  unfold Device.fmt_to_glattrs.
  destruct (Z.eqb_spec fmt Device.D3DFMT_X8R8G8B8); [by split; auto|].
  destruct (Z.eqb_spec fmt Device.D3DFMT_D24S8); [by split; auto|].
  simpl. split; [done|]. by intros [?|?].
Qed.

Lemma give_back_head r held : Device.give_back r (r :: held) = Some held.
Proof.
  simpl. assert (H : Device.same_resource r r = true).
  { destruct r; simpl; rewrite ?Z.eqb_refl; done. }
  by rewrite H.
Qed.

Ltac in_trace Hin tac :=
  lazymatch type of Hin with
  | _ ∈ [] => by apply elem_of_nil in Hin
  | _ ∈ _ :: _ =>
      apply elem_of_cons in Hin as [Hin|Hin];
      [first [discriminate Hin | tac Hin] | in_trace Hin tac]
  end.

Ltac trace_has :=
  first [apply list_elem_of_here | apply list_elem_of_further; trace_has].

Ltac no_window_call :=
  cbn; split; [reflexivity|]; split; [|reflexivity];
  let Hin := fresh "Hin" in
  intros ? Hin; in_trace Hin ltac:(fun _ => fail).

(** X15: a device that is constructed, initialised once and destroyed,
    whatever the window system answers and whether [init] succeeds or
    fails at any of its steps.  If no [GetDC] call answered null, the
    device gives back everything it took from the window system,
    exactly once, and nothing it does not own: the critical section,
    the device context, the OpenGL context and the thread handle.
    [init] does not test what [GetDC] answers: when that is the null
    handle, [init] still passes it to [ReleaseDC], which gives back a
    device context that is not owned.  That call is the only defect:
    with the device context counted under the handle [GetDC] returned,
    null or not, every lifetime is balanced. *)
Theorem device_lifetime_is_balanced
    (env : Device.Env) (window flags : Z) (params : Device.D3DPRESENT_PARAMETERS) :
  let t := snd (Device.lifetime env window flags params) in
  Device.owned_after t []
  = (if existsb Device.null_GetDC t then None else Some [])
  /\ (forall win, Device.GetDC win 0 ∈ t -> Device.ReleaseDC win 0 ∈ t)
  /\ Device.held_after t [] = Some [].
Proof.
  unfold Device.lifetime, Device.ctor, Device.init, Device.owned_after.
  destruct (1 <? Device.BackBufferCount params); [no_window_call|].
  destruct (flag_set _ _); [no_window_call|].
  destruct (Device.fmt_to_glattrs (Device.BackBufferFormat params)) as [ok1 more1].
  destruct ok1; cbn [negb]; [|no_window_call].
  destruct (if Device.EnableAutoDepthStencil params
            then Device.fmt_to_glattrs (Device.AutoDepthStencilFormat params)
            else (true, [])) as [ok2 more2].
  destruct ok2; cbn [negb]; [|no_window_call].
  set (win := if _ && _ then _ else _). clearbody win.
  set (hdc := Device.env_GetDC env win). clearbody hdc.
  set (attrs := _ ++ more2). clearbody attrs.
  destruct (Device.env_ChoosePixelFormat env hdc attrs) as [[chosen pf] nf].
  destruct (Device.env_CreateThread env) as [hdl tid].
  destruct (hdc =? 0) eqn:Ehdc;
    destruct (Device.env_CreateContext env hdc =? 0) eqn:E;
    destruct (hdl =? 0) eqn:Eh;
    destruct (Device.env_PostThreadMessage env tid) eqn:Ep;
    destruct chosen, (nf <? 1), (Device.env_SetPixelFormat env hdc pf);
    unfold Device.dtor; cbn -[Z.eqb];
    repeat (first [rewrite Ehdc | rewrite E | rewrite Eh | rewrite Ep | rewrite Z.eqb_refl];
            cbn -[Z.eqb]);
    (split; [reflexivity|]); (split; [|reflexivity]);
    intros win' Hin;
    in_trace Hin ltac:(fun H => injection H as -> <-; first [done | trace_has]).
Qed.

Lemma device_lifetime_is_balanced_witness :
  Device.owned_after
    (snd (Device.lifetime Device.sample_env 3 0 Device.sample_params)) [] = Some []
  /\ Device.owned_after
       (snd (Device.lifetime Device.no_dc_env 3 0 Device.sample_params)) [] = None
  /\ Device.ReleaseDC 3 0
     ∈ snd (Device.lifetime Device.no_dc_env 3 0 Device.sample_params).
Proof.
  split;
    [exact (proj1 (device_lifetime_is_balanced Device.sample_env 3 0 Device.sample_params))|].
  split;
    [exact (proj1 (device_lifetime_is_balanced Device.no_dc_env 3 0 Device.sample_params))|].
  apply (proj1 (proj2 (device_lifetime_is_balanced
                         Device.no_dc_env 3 0 Device.sample_params))).
  cbv. trace_has.
Defined.

(** X16: what [init] leaves behind.  If it returns [true], the
    parameters passed validation (at most one back buffer, no lockable
    back buffer, supported formats) and the device has an OpenGL
    context and a thread.  If the parameters fail validation it returns
    [false] without a single call on the window system and without
    touching the context or the thread; a back-buffer count above 1 is
    nevertheless stored as 1.  Whatever the outcome, the device context
    has been given back by the time [init] returns: what [init] still
    holds is at most the context and the thread that the device's
    fields record. *)
Theorem init_outcome
    (env : Device.Env) (params : Device.D3DPRESENT_PARAMETERS)
    (d d' : Device.Direct3DGLDevice) (ok : bool) (t : list Device.SysCall) :
  Device.init env params d = (ok, d', t) ->
  (ok = true ->
   Device.BackBufferCount params <= 1
   /\ flag_set (Device.Flags params) Device.D3DPRESENTFLAG_LOCKABLE_BACKBUFFER = false
   /\ (Device.BackBufferFormat params = Device.D3DFMT_X8R8G8B8
       \/ Device.BackBufferFormat params = Device.D3DFMT_D24S8)
   /\ (Device.EnableAutoDepthStencil params = true ->
       Device.AutoDepthStencilFormat params = Device.D3DFMT_X8R8G8B8
       \/ Device.AutoDepthStencilFormat params = Device.D3DFMT_D24S8)
   /\ Device.mGLContext d' <> 0 /\ Device.mThreadHdl d' <> 0
   /\ Device.mPresentParams d' = Some params)
  /\ (1 < Device.BackBufferCount params
      \/ flag_set (Device.Flags params) Device.D3DPRESENTFLAG_LOCKABLE_BACKBUFFER = true
      \/ fst (Device.fmt_to_glattrs (Device.BackBufferFormat params)) = false
      \/ (Device.EnableAutoDepthStencil params = true
          /\ fst (Device.fmt_to_glattrs (Device.AutoDepthStencilFormat params)) = false) ->
      ok = false /\ t = []
      /\ Device.mGLContext d' = Device.mGLContext d
      /\ Device.mThreadHdl d' = Device.mThreadHdl d)
  /\ (1 < Device.BackBufferCount params ->
      Device.BackBufferCount <$> Device.mPresentParams d' = Some 1)
  /\ exists rs,
       Device.held_after t [] = Some rs
       /\ Forall (fun r => r = Device.RContext (Device.mGLContext d')
                           \/ r = Device.RThread (Device.mThreadHdl d')) rs.
Proof.
  unfold Device.init. intros H.
  destruct (Z.ltb_spec 1 (Device.BackBufferCount params)) as [Hc|Hc].
  { injection H as <- <- <-. split; [done|]. split; [done|]. split; [done|].
    by exists []. }
  destruct (flag_set (Device.Flags params) _) eqn:Hf.
  { injection H as <- <- <-. split; [done|]. split; [done|]. split; [lia|].
    by exists []. }
  pose proof (fmt_to_glattrs_ok (Device.BackBufferFormat params)) as Hb.
  destruct (Device.fmt_to_glattrs (Device.BackBufferFormat params)) as [ok1 more1].
  cbn [fst] in Hb. destruct ok1; cbn [negb] in H.
  2:{ injection H as <- <- <-. split; [done|]. split; [done|]. split; [lia|].
      by exists []. }
  pose proof (fmt_to_glattrs_ok (Device.AutoDepthStencilFormat params)) as Ha.
  assert (Hads : forall ok2 more2,
            (if Device.EnableAutoDepthStencil params
             then Device.fmt_to_glattrs (Device.AutoDepthStencilFormat params)
             else (true, [])) = (ok2, more2) ->
            (ok2 = true -> Device.EnableAutoDepthStencil params = true ->
             Device.AutoDepthStencilFormat params = Device.D3DFMT_X8R8G8B8
             \/ Device.AutoDepthStencilFormat params = Device.D3DFMT_D24S8)
            /\ (Device.EnableAutoDepthStencil params = true
                /\ fst (Device.fmt_to_glattrs (Device.AutoDepthStencilFormat params)) = false
                -> ok2 = false)).
  { intros ok2 more2 E. destruct (Device.EnableAutoDepthStencil params).
    - rewrite E in Ha. cbn [fst] in Ha. split.
      + intros -> _. by apply Ha.
      + intros [_ Hn]. rewrite E in Hn. exact Hn.
    - injection E as <- _. split; [done|]. by intros [? _]. }
  destruct (if Device.EnableAutoDepthStencil params
            then Device.fmt_to_glattrs (Device.AutoDepthStencilFormat params)
            else (true, [])) as [ok2 more2] eqn:E2.
  destruct (Hads ok2 more2 eq_refl) as [Hads1 Hads2]. clear Hads.
  destruct ok2; cbn [negb] in H.
  2:{ injection H as <- <- <-. split; [done|]. split; [done|]. split; [lia|].
      by exists []. }
  set (win := if _ && _ then _ else _) in H.
  set (hdc := Device.env_GetDC env win) in H.
  set (attrs := _ ++ more2) in H.
  destruct (Device.env_CreateThread env) as [hdl tid].
  destruct (Device.env_ChoosePixelFormat env hdc attrs) as [[chosen pf] nf].
  destruct (Z.eqb_spec (Device.env_CreateContext env hdc) 0) as [E|E];
    destruct (Z.eqb_spec hdl 0) as [Eh|Eh];
    destruct chosen, (nf <? 1), (Device.env_SetPixelFormat env hdc pf);
    cbn [negb] in H; injection H as <- <- <-;
    (split; [first [done | intros _; repeat split;
                      first [done | lia | by apply Hb | by apply Hads1]]|]);
    (split; [intros [?|[?|[Hn|Hn]]]; [lia|done|done|by apply Hads2 in Hn]|]);
    (split; [lia|]);
    cbn -[Z.eqb];
    repeat (first [rewrite E | rewrite Eh | rewrite Z.eqb_refl
                  | rewrite (proj2 (Z.eqb_neq _ _) E)
                  | rewrite (proj2 (Z.eqb_neq _ _) Eh)]; cbn -[Z.eqb]);
    eexists; (split; [reflexivity|]);
    repeat (apply List.Forall_cons; [first [by left | by right]|]);
    apply List.Forall_nil.
Qed.

Lemma init_outcome_witness :
  exists d' t,
    Device.init Device.sample_env Device.sample_params (fst (Device.ctor 3 0)) = (true, d', t)
    /\ Device.mGLContext d' <> 0 /\ Device.mThreadHdl d' <> 0.
Proof.
  pose (r := Device.init Device.sample_env Device.sample_params (fst (Device.ctor 3 0))).
  assert (E : Device.init Device.sample_env Device.sample_params (fst (Device.ctor 3 0))
              = (true, snd (fst r), snd r)) by (vm_compute; reflexivity).
  exists (snd (fst r)), (snd r). split; [exact E|].
  destruct (proj1 (init_outcome _ _ _ _ _ _ E) eq_refl) as (_ & _ & _ & _ & Hc & Ht & _).
  split; [exact Hc|exact Ht].
Defined.

(** X17: [GetDisplayMode] returns [D3DERR_INVALIDCALL] and stores
    nothing for a swap chain above 0.  For swap chain 0 it always
    returns [D3D_OK], also when the display settings could not be read:
    the mode is then all zero with the unknown format.  It reports a
    refresh rate only when the settings mark the frequency as valid,
    and the format is the one of the bit depth: X8R8G8B8 for both 24
    and 32 bits, and the unknown format for every depth other than 8,
    15, 16, 24 and 32. *)
Theorem GetDisplayMode_reports (enum : option Device.DEVMODEW) (swapchain : Z) :
  (0 < swapchain -> Device.GetDisplayMode enum swapchain = (D3DERR_INVALIDCALL, None))
  /\ (swapchain <= 0 ->
      exists mode,
        Device.GetDisplayMode enum swapchain = (D3D_OK, Some mode)
        /\ (enum = None -> mode = Device.mkMode 0 0 0 D3DFMT_UNKNOWN)
        /\ (forall m, enum = Some m ->
              Device.Width mode = Device.dmPelsWidth m
              /\ Device.Height mode = Device.dmPelsHeight m
              /\ Device.RefreshRate mode
                 = (if Z.testbit (Device.dmFields m) 22
                    then Device.dmDisplayFrequency m else 0)
              /\ (Device.Format mode = Device.D3DFMT_X8R8G8B8
                  <-> Device.dmBitsPerPel m = 24 \/ Device.dmBitsPerPel m = 32)
              /\ (Device.Format mode = D3DFMT_UNKNOWN
                  <-> ~ (Device.dmBitsPerPel m = 8 \/ Device.dmBitsPerPel m = 15
                         \/ Device.dmBitsPerPel m = 16 \/ Device.dmBitsPerPel m = 24
                         \/ Device.dmBitsPerPel m = 32)))).
Proof.
  unfold Device.GetDisplayMode. split.
  - intros H. by destruct (Z.ltb_spec 0 swapchain); [|lia].
  - intros H. destruct (Z.ltb_spec 0 swapchain); [lia|].
    eexists. split; [reflexivity|]. split.
    + by intros ->.
    + intros m ->. cbn [Device.Width Device.Height Device.RefreshRate Device.Format].
      split; [done|]. split; [done|]. split.
      { change Device.DM_DISPLAYFREQUENCY with (2 ^ 22).
        by rewrite flag_set_testbit. }
      unfold Device.pixelformat_for_depth, Device.D3DFMT_P8, Device.D3DFMT_X1R5G5B5,
        Device.D3DFMT_R5G6B5, Device.D3DFMT_X8R8G8B8, D3DFMT_UNKNOWN.
      destruct (Z.eqb_spec (Device.dmBitsPerPel m) 8); [lia|].
      destruct (Z.eqb_spec (Device.dmBitsPerPel m) 15); [lia|].
      destruct (Z.eqb_spec (Device.dmBitsPerPel m) 16); [lia|].
      destruct (Z.eqb_spec (Device.dmBitsPerPel m) 24); [lia|].
      destruct (Z.eqb_spec (Device.dmBitsPerPel m) 32); lia.
Qed.

Lemma GetDisplayMode_reports_witness :
  Device.GetDisplayMode (Some (Device.mkDevMode 0 24 1024 768 60)) 0
  = (D3D_OK, Some (Device.mkMode 1024 768 0 Device.D3DFMT_X8R8G8B8))
  /\ Device.GetDisplayMode None 1 = (D3DERR_INVALIDCALL, None).
Proof.
  split.
  - destruct (proj2 (GetDisplayMode_reports (Some (Device.mkDevMode 0 24 1024 768 60)) 0))
      as (mode & E & _); [lia|].
    rewrite E. vm_compute in E. injection E as <-. reflexivity.
  - apply (proj1 (GetDisplayMode_reports None 1)). lia.
Defined.

(** X18: [QueryInterface] on the device succeeds for [IID_IUnknown]
    and [IID_IDirect3DDevice9] and for nothing else.  On success it
    stores the object and adds one reference, and releasing that
    reference gives back the device exactly as it was, or deletes it
    when there was no other reference.  On failure it stores null,
    returns [E_NOINTERFACE] and leaves the reference count alone. *)
Theorem QueryInterface_counts (riid : Device.IID) (d : Device.Direct3DGLDevice) :
  0 <= Device.mRefCount d < UINT_MAX ->
  (riid = Device.IID_IUnknown \/ riid = Device.IID_IDirect3DDevice9 ->
   exists d',
     Device.QueryInterface riid d = (Device.S_OK, true, d')
     /\ Device.mRefCount d' = Device.mRefCount d + 1
     /\ Device.Release d'
        = (Device.mRefCount d, if Device.mRefCount d =? 0 then None else Some d))
  /\ (riid <> Device.IID_IUnknown -> riid <> Device.IID_IDirect3DDevice9 ->
      Device.QueryInterface riid d = (Device.E_NOINTERFACE, false, d)).
Proof.
  intros Hr. split.
  - intros Hi.
    assert (Hw : wrap32 (Device.mRefCount d + 1) = Device.mRefCount d + 1).
    { apply wrap32_small. unfold is_uint, UINT_MAX in *. lia. }
    exists (snd (Device.AddRef d)). split; [by destruct Hi as [-> | ->]|].
    unfold Device.AddRef, Device.Release.
    cbn [snd Device.mRefCount Device.set_refcount]. rewrite Hw.
    split; [done|].
    replace (Device.mRefCount d + 1 - 1) with (Device.mRefCount d) by lia.
    rewrite wrap32_small by (unfold is_uint, UINT_MAX in *; lia).
    destruct (Device.mRefCount d =? 0); [done|]. by destruct d.
  - intros H1 H2. by destruct riid.
Qed.

Lemma QueryInterface_counts_witness :
  exists d',
    Device.QueryInterface Device.IID_IDirect3DDevice9 (fst (Device.ctor 3 0))
    = (Device.S_OK, true, d')
    /\ Device.mRefCount d' = 1
    /\ Device.Release d' = (0, None).
Proof.
  destruct (proj1 (QueryInterface_counts Device.IID_IDirect3DDevice9 (fst (Device.ctor 3 0))
                     ltac:(vm_compute; split; [discriminate|reflexivity]))
              (or_intror eq_refl))
    as (d' & E & Hc & Hrel).
  exists d'. split; [exact E|]. split; [exact Hc|exact Hrel].
Defined.

(** * More on locks and vertex sizes *)

(** X19: with no update in flight, a [Lock] with the discard flag that
    passes the checks keeps the staging block: it returns [D3D_OK]
    whatever the fuel, with a pointer into the block [mBufData]
    already held, and the heap, the queue and the counter are as
    before. *)
Theorem Lock_discard_when_idle
    (w : World) (offset length flags : Z) (fuel : nat) :
  mUpdateInProgress (buf w) = 0 ->
  mLock (buf w) = LT_Unlocked ->
  (length = 0 -> offset <= 0) ->
  offset < mLength (buf w) ->
  (if length =? 0 then mLength (buf w) else length) <= mLength (buf w) - offset ->
  flag_set flags D3DLOCK_READONLY && flag_set (mUsage (buf w)) D3DUSAGE_WRITEONLY = false ->
  flag_set flags D3DLOCK_DISCARD = true ->
  exists w',
    Lock offset length flags fuel w
    = Done (D3D_OK, Some (mkPtr (mBufData (buf w)) offset)) w'
    /\ heap w' = heap w /\ queue w' = queue w /\ submitted w' = submitted w
    /\ mBufData (buf w') = mBufData (buf w)
    /\ mUpdateInProgress (buf w') = 0.
Proof.
  intros Hz HL H0 H1 H2 H3 Hd. rewrite Lock_accepted by done.
  unfold Lock_acquired. rewrite Hd.
  cbn [upd_buf buf mUpdateInProgress set_mLock]. rewrite Hz.
  change (0 <? 0) with false. cbv iota.
  eexists. split; [reflexivity|].
  cbn [upd_buf buf heap queue submitted mBufData mUpdateInProgress
       set_mLockedLength set_mLockedOffset set_mLock].
  by repeat split.
Qed.

Lemma Lock_discard_when_idle_witness :
  exists w',
    Lock 0 0 D3DLOCK_DISCARD 0 (created 20 0)
    = Done (D3D_OK, Some (mkPtr (mBufData (buf (created 20 0))) 0)) w'
    /\ heap w' = heap (created 20 0).
Proof.
  destruct (Lock_discard_when_idle (created 20 0) 0 0 D3DLOCK_DISCARD 0)
    as (w' & E & Hh & _).
  - vm_compute. reflexivity.
  - vm_compute. reflexivity.
  - intros. lia.
  - vm_compute. reflexivity.
  - vm_compute. discriminate.
  - vm_compute. reflexivity.
  - vm_compute. reflexivity.
  - exists w'. split; [exact E|exact Hh].
Defined.

Lemma foldr_tex_bounds (f : nat -> Z) l :
  (forall t, 1 <= f t <= 4) ->
  Z.of_nat (length l) <= foldr Z.add 0 (f <$> l) <= 4 * Z.of_nat (length l).
Proof.
  intros Hf. induction l as [|t l IH]; [simpl; lia|].
  rewrite fmap_cons. cbn [foldr]. rewrite length_cons. specialize (Hf t). lia.
Qed.

Lemma init_vbo_size_parts (shr_wide : Z -> Z -> Z) (fvf : Z) :
  fvf_size shr_wide fvf
  = (if Z.testbit fvf 2 then 16
     else if Z.testbit fvf 1 && Z.testbit fvf 14 then 16
     else if Z.testbit fvf 1 then 12 else 0)
    + (if Z.testbit fvf 4 then 12 else 0)
    + (if Z.testbit fvf 6 then 4 else 0)
    + (if Z.testbit fvf 7 then 4 else 0)
    + 4 * foldr Z.add 0
            ((fun t => tex_num shr_wide fvf (Z.of_nat t))
               <$> seq 0 (Z.to_nat (tex_count fvf)))
  /\ (forall t, 1 <= tex_num shr_wide fvf t <= 4)
  /\ 0 <= tex_count fvf <= 15.
Proof.
  split; [|split; [intros t; apply tex_num_range|apply tex_count_range]].
  unfold fvf_size. rewrite fold_left_tex_sizes.
  change D3DFVF_XYZRHW with (2 ^ 2). change D3DFVF_XYZ with (2 ^ 1).
  change D3DFVF_NORMAL with (2 ^ 4). change D3DFVF_DIFFUSE with (2 ^ 6).
  change D3DFVF_SPECULAR with (2 ^ 7).
  rewrite !has_pow2_testbit, !flag_set_testbit, has_XYZW_testbit by done.
  unfold sizeof_float, sizeof_uchar.
  destruct (Z.testbit fvf 2), (Z.testbit fvf 1), (Z.testbit fvf 14),
    (Z.testbit fvf 4), (Z.testbit fvf 6), (Z.testbit fvf 7); simpl; lia.
Qed.

(** X20: the vertex size [init_vbo] computes is between 0 and 276
    bytes for every format word, whatever an over-wide shift yields, so
    the [UINT] it is kept in never wraps; and it is at least 4 bytes
    for each texture coordinate set the format declares. *)
Theorem fvf_size_bounds (shr_wide : Z -> Z -> Z) (fvf : Z) :
  4 * tex_count fvf <= fvf_size shr_wide fvf <= 276.
Proof.
  destruct (init_vbo_size_parts shr_wide fvf) as (Hs & Hn & Hc).
  pose proof (foldr_tex_bounds (fun t => tex_num shr_wide fvf (Z.of_nat t))
                (seq 0 (Z.to_nat (tex_count fvf))) (fun t => Hn (Z.of_nat t))) as Hb.
  rewrite length_seq, Z2Nat.id in Hb by lia.
  rewrite Hs.
  destruct (Z.testbit fvf 2), (Z.testbit fvf 1), (Z.testbit fvf 14),
    (Z.testbit fvf 4), (Z.testbit fvf 6), (Z.testbit fvf 7); simpl; lia.
Qed.
